(** * CortexBCIStreamer: the online control logic of [application/streamer.py]

    A shallow embedding of the [Streamer] class: the timing arithmetic of
    [__init__], the marker handling of [write_trigger], the prediction toggle,
    the training pull, the quality scorer and the signal conditioner, then
    the two timer slots ([update_data_buffer], [update_plot]) with the
    quality report and the start/stop button.

    Conventions of the embedding.
    - Python [int]s are [Z].  The on-time of the configuration file is an
      [int] or a [float]; a [float] there is a binary64 value with the
      arithmetic of the machine (primitive floats), so that [int()] of a sum
      is the truncation of the sum the interpreter computes.
    - Samples, frequencies read from the boxes and wall-clock times are
      given by their exact value, a rational [Q]; they are compared exactly,
      as binary64 values are.  [int(x)] on such a value truncates toward
      zero ([py_int_Q]).  The few sums and products the class itself takes
      of them (the elapsed training time, the display offsets, the
      interpolation of the percentile) are taken exactly, where the machine
      rounds the result to binary64.
    - A method is a computation over the object it mutates: it takes the
      current state and yields its outcome (returned or raised), the new state
      and the calls it made to the collaborators (board, classifier, worker
      pool, logging) in order.  State changed before a [raise] stays changed.
    - The collaborators themselves (the BrainFlow board, the classifier, the
      thread pool) are outside the source: their calls are recorded, and
      whether a call returns or raises is a parameter of the methods that
      make it.  The BrainFlow routines that work on a channel
      ([DataFilter.detrend], [perform_bandpass], [perform_bandstop]) are
      parameters as well: what they leave in the vector and whether they
      raise is theirs to say.  So are Python's [int()] and [float()] on
      text.
    - The conditioning of a snapshot ([filter_data_buffer]) is modelled on
      the samples in the SignalConditioner part; in the trace of a method
      that pulls a snapshot it appears as one call followed by the errors
      the conditioner logged, which are a parameter there. *)

From Stdlib Require Import ZArith QArith Qround Qabs Lia Lqa.
From Stdlib Require Import List String Ascii Bool Sorted Permutation.
From Stdlib Require PrimFloat SpecFloat FloatOps.
Import ListNotations.

Local Open Scope Z_scope.

(** ** Numbers *)

(** [int(x)] on a Python float: truncation toward zero. *)
Definition py_int_Q (x : Q) : Z := Z.quot (Qnum x) (Zpos (Qden x)).

(** [x < y] on floats. *)
Definition Qltb (x y : Q) : bool := negb (Qle_bool y x).

(** A number of the configuration file: a Python [int], or a [float], which
    is a binary64 value with the arithmetic of the machine. *)
Inductive pynum :=
| PyZ (z : Z)
| PyFloat (f : PrimFloat.float).

(** [float(z)] for an [int]: the nearest binary64 value, ties to even;
    [None] where Python raises [OverflowError]. *)
Definition float_of_Z (z : Z) : option PrimFloat.float :=
  match SpecFloat.binary_normalize FloatOps.prec FloatOps.emax z 0 false with
  | SpecFloat.S754_infinity _ => None
  | x => Some (FloatOps.SF2Prim x)
  end.

(** [int(f)] for a [float]: truncation toward zero; [None] where Python
    raises (the infinities and nan). *)
Definition int_of_float (f : PrimFloat.float) : option Z :=
  match FloatOps.Prim2SF f with
  | SpecFloat.S754_zero _ => Some 0
  | SpecFloat.S754_finite s m e =>
      let magnitude :=
        if 0 <=? e then Zpos m * 2 ^ e else Zpos m / 2 ^ (- e) in
      Some (if s then - magnitude else magnitude)
  | _ => None
  end.

(** [x * n] for an [int] [n]: exact on two [int]s, the binary64 product
    of [x] and [float(n)] on a [float]. *)
Definition mul_int (x : pynum) (n : Z) : option pynum :=
  match x with
  | PyZ z => Some (PyZ (z * n))
  | PyFloat f =>
      option_map (fun g => PyFloat (PrimFloat.mul f g)) (float_of_Z n)
  end.

(** [x + y] *)
Definition add_num (x y : pynum) : option pynum :=
  match x, y with
  | PyZ a, PyZ b => Some (PyZ (a + b))
  | PyFloat f, PyFloat g => Some (PyFloat (PrimFloat.add f g))
  | PyZ a, PyFloat g =>
      option_map (fun f => PyFloat (PrimFloat.add f g)) (float_of_Z a)
  | PyFloat f, PyZ b =>
      option_map (fun g => PyFloat (PrimFloat.add f g)) (float_of_Z b)
  end.

(** [int(x)] *)
Definition int_of_num (x : pynum) : option Z :=
  match x with
  | PyZ z => Some z
  | PyFloat f => int_of_float f
  end.

(** The exact value of a number, in lowest terms, where it has one. *)
Definition value (x : pynum) : option Q :=
  match x with
  | PyZ z => Some (inject_Z z)
  | PyFloat f =>
      match FloatOps.Prim2SF f with
      | SpecFloat.S754_zero _ => Some 0%Q
      | SpecFloat.S754_finite s m e =>
          let magnitude :=
            if 0 <=? e then inject_Z (Zpos m * 2 ^ e)
            else (Zpos m # Z.to_pos (2 ^ (- e)))%Q in
          Some (Qred (if s then - magnitude else magnitude))%Q
      | _ => None
      end
  end.

(** ** Methods as computations with exceptions, state and a call trace *)

Inductive exn := ValueError | AttributeError | IndexError | BrainFlowError.

Inductive log_level := ERROR | INFO | DEBUG.

(** A call made to a collaborator. *)
Inductive call :=
| InsertMarker (value : Z)
    (* self.board.insert_marker(value) *)
| GetCurrentBoardData (num_samples : Z)
    (* self.board.get_current_board_data(num_samples) *)
| FilterDataBuffer
    (* self.filter_data_buffer(data) on the data just pulled *)
| ExecutorSubmit
    (* self.executor.submit(self._predict_class, data) *)
| ClassifierTrain (oversample : bool)
    (* self.classifier.train(data, oversample=oversample) *)
| ClassifierSetPredictionMode (mode : bool)
    (* self.classifier.set_prediction_mode(mode) *)
| Log (level : log_level) (msg : string).

Inductive outcome (A : Type) :=
| Returned (a : A)
| Raised (e : exn).
Arguments Returned {A} a.
Arguments Raised {A} e.

Record run (W A : Type) := Run {
  result : outcome A;
  after : W;
  calls : list call }.
Arguments Run {W A} _ _ _.
Arguments result {W A} _.
Arguments after {W A} _.
Arguments calls {W A} _.

Definition M (W A : Type) : Type := W -> run W A.

Definition ret {W A} (a : A) : M W A := fun w => Run (Returned a) w [].

Definition bind {W A B} (m : M W A) (f : A -> M W B) : M W B :=
  fun w =>
    let r := m w in
    match result r with
    | Returned a =>
        let r' := f a (after r) in
        Run (result r') (after r') (calls r ++ calls r')
    | Raised e => Run (Raised e) (after r) (calls r)
    end.

Declare Scope py_scope.
Delimit Scope py_scope with py.
Notation "x <- c1 ;; c2" := (bind c1 (fun x => c2))
  (at level 61, c1 at next level, right associativity) : py_scope.
Notation "c1 ;; c2" := (bind c1 (fun _ => c2))
  (at level 61, right associativity) : py_scope.

Definition get {W} : M W W := fun w => Run (Returned w) w [].
Definition modify {W} (f : W -> W) : M W unit :=
  fun w => Run (Returned tt) (f w) [].
Definition raise {W A} (e : exn) : M W A := fun w => Run (Raised e) w [].
Definition emit {W} (c : call) : M W unit := fun w => Run (Returned tt) w [c].
Definition logging {W} (level : log_level) (msg : string) : M W unit :=
  emit (Log level msg).

(** [try: body  except <handled>: handler] *)
Definition try_except {W} (handled : exn -> bool) (body handler : M W unit)
  : M W unit :=
  fun w =>
    let r := body w in
    match result r with
    | Returned _ => r
    | Raised e =>
        if handled e then
          let r' := handler (after r) in
          Run (result r') (after r') (calls r ++ calls r')
        else r
    end.

(** [except Exception] *)
Definition any_exception (e : exn) : bool := true.
(** [except ValueError] *)
Definition is_ValueError (e : exn) : bool :=
  match e with ValueError => true | _ => false end.

(** ** TimingCalculator: the interval arithmetic of [Streamer.__init__] *)

Module Timing.

(** [self.off_time = (self.on_time * (self.nclasses - 1))] *)
Definition off_time (on_time : pynum) (nclasses : Z) : option pynum :=
  mul_int on_time (nclasses - 1).

(** [self.prediction_interval = int(self.on_time + self.off_time) * 2];
    [None] where one of the conversions raises. *)
Definition prediction_interval (on_time : pynum) (nclasses : Z) : option Z :=
  match off_time on_time nclasses with
  | Some off_time =>
      match add_num on_time off_time with
      | Some total => option_map (fun z => z * 2) (int_of_num total)
      | None => None
      end
  | None => None
  end.

(** [self.prediction_datapoints =
      int(self.prediction_interval * self.sampling_rate / 1000)], both
    factors being [int]s.  The quotient is taken exactly: Python rounds it
    to binary64, which leaves its integer part as it is while the product
    is below 2^52. *)
Definition prediction_datapoints (prediction_interval sampling_rate : Z) : Z :=
  py_int_Q (inject_Z (prediction_interval * sampling_rate) / inject_Z 1000)%Q.

End Timing.

(** ** The session state of a [Streamer] and the marker-driven methods *)

(** A trigger as [write_trigger] receives it: an [int] from the button, or
    text from the marker stream. *)
Inductive pyval :=
| PyInt (z : Z)
| PyStr (s : string).

Record Streamer := {
  on_time : pynum;                   (* config 'on_time', default 250 *)
  nclasses : Z;                      (* config 'nclasses', default 4 *)
  sampling_rate : Z;                 (* BoardShim.get_sampling_rate(board_id) *)
  prediction_interval : Z;
  prediction_datapoints : Z;
  over_sample : bool;
  classifier : bool;                 (* false while self.classifier is None *)
  prediction_mode : bool;
  first_prediction : bool;
  start_training_time : option Q }.

Definition set_classifier (b : bool) (s : Streamer) : Streamer :=
  {| on_time := on_time s; nclasses := nclasses s;
     sampling_rate := sampling_rate s;
     prediction_interval := prediction_interval s;
     prediction_datapoints := prediction_datapoints s;
     over_sample := over_sample s; classifier := b;
     prediction_mode := prediction_mode s;
     first_prediction := first_prediction s;
     start_training_time := start_training_time s |}.

Definition set_prediction_mode_attr (b : bool) (s : Streamer) : Streamer :=
  {| on_time := on_time s; nclasses := nclasses s;
     sampling_rate := sampling_rate s;
     prediction_interval := prediction_interval s;
     prediction_datapoints := prediction_datapoints s;
     over_sample := over_sample s; classifier := classifier s;
     prediction_mode := b;
     first_prediction := first_prediction s;
     start_training_time := start_training_time s |}.

Definition set_first_prediction (b : bool) (s : Streamer) : Streamer :=
  {| on_time := on_time s; nclasses := nclasses s;
     sampling_rate := sampling_rate s;
     prediction_interval := prediction_interval s;
     prediction_datapoints := prediction_datapoints s;
     over_sample := over_sample s; classifier := classifier s;
     prediction_mode := prediction_mode s;
     first_prediction := b;
     start_training_time := start_training_time s |}.

Definition set_start_training_time (t : Q) (s : Streamer) : Streamer :=
  {| on_time := on_time s; nclasses := nclasses s;
     sampling_rate := sampling_rate s;
     prediction_interval := prediction_interval s;
     prediction_datapoints := prediction_datapoints s;
     over_sample := over_sample s; classifier := classifier s;
     prediction_mode := prediction_mode s;
     first_prediction := first_prediction s;
     start_training_time := Some t |}.

(** The attributes [__init__] sets before the event loop starts; the
    classifier is created later, by [init_classifier] on its own thread.
    No object where the timing arithmetic raises. *)
Definition init (on_time : pynum) (nclasses sampling_rate : Z)
  : option Streamer :=
  match Timing.prediction_interval on_time nclasses with
  | Some interval =>
      Some {| on_time := on_time; nclasses := nclasses;
              sampling_rate := sampling_rate;
              prediction_interval := interval;
              prediction_datapoints :=
                Timing.prediction_datapoints interval sampling_rate;
              over_sample := false; classifier := false;
              prediction_mode := false;
              first_prediction := true;
              start_training_time := None |}
  | None => None
  end.

Section Router.

Local Open Scope py_scope.

(** Python's [int(s)] on text: [None] where it raises [ValueError]. *)
Variable int_of_str : string -> option Z.

(** What a collaborator does with a call: [None] when it returns, [Some e]
    when it raises [e]. *)
Variable raises : call -> option exn.

(** The errors [filter_data_buffer] logs while it conditions a snapshot
    (one per channel for band-pass or notch values it refuses), in order. *)
Variable conditioner_errors : list string.

(** A call to a collaborator. *)
Definition invoke (c : call) : M Streamer unit :=
  fun s =>
    match raises c with
    | None => Run (Returned tt) s [c]
    | Some e => Run (Raised e) s [c]
    end.

(** [int(trigger)] *)
Definition py_int (v : pyval) : M Streamer Z :=
  match v with
  | PyInt z => ret z
  | PyStr s =>
      match int_of_str s with
      | Some z => ret z
      | None => raise ValueError
      end
  end.

(** [trigger == ''] *)
Definition is_empty_str (v : pyval) : bool :=
  match v with
  | PyStr EmptyString => true
  | _ => false
  end.

(** [self.filter_data_buffer(data)] on a snapshot just pulled: the call,
    what it logs, and how it ends. *)
Definition filter_snapshot : M Streamer unit :=
  fun s =>
    Run (match raises FilterDataBuffer with
         | None => Returned tt
         | Some e => Raised e
         end)
        s (FilterDataBuffer :: map (Log ERROR) conditioner_errors).

Definition init_classifier : M Streamer unit := modify (set_classifier true).

(** [Streamer.predict_class] *)
Definition predict_class : M Streamer unit :=
  try_except any_exception
    (s <- get ;;
     invoke (GetCurrentBoardData (prediction_datapoints s)) ;;
     filter_snapshot ;;
     invoke ExecutorSubmit)
    (logging ERROR "Error starting prediction task").

(** [Streamer.write_trigger(trigger, timestamp)]; [now] is what
    [time.time()] would return.  The three [int(trigger)] of the source
    evaluate the same pure conversion, bound once here. *)
Definition write_trigger (trigger : pyval) (timestamp now : Q)
  : M Streamer unit :=
  if is_empty_str trigger then
    logging ERROR "Trigger value cannot be empty"
  else
    let timestamp := if Qeq_bool timestamp 0 then now else timestamp in
    v <- py_int trigger ;;
    invoke (InsertMarker v) ;;
    s <- get ;;
    if prediction_mode s then
      if (v =? nclasses s) && negb (first_prediction s) then
        predict_class
      else if (v =? nclasses s) && first_prediction s then
        logging DEBUG "Skipping first prediction" ;;
        modify (set_first_prediction false)
      else ret tt
    else ret tt.

(** [Streamer.set_prediction_mode] *)
Definition set_prediction_mode : M Streamer unit :=
  modify (fun s => set_prediction_mode_attr (negb (prediction_mode s)) s) ;;
  s <- get ;;
  if classifier s then invoke (ClassifierSetPredictionMode (prediction_mode s))
  else raise AttributeError.

(** [Streamer.set_train_start] *)
Definition set_train_start (now : Q) : M Streamer unit :=
  modify (set_start_training_time now).

(** [Streamer.train_classifier] *)
Definition train_classifier (now : Q) : M Streamer unit :=
  let end_training_time := now in
  s <- get ;;
  match start_training_time s with
  | None => raise AttributeError
  | Some start =>
      let training_length := (end_training_time - start + 1)%Q in
      let training_interval :=
        py_int_Q (training_length * inject_Z (sampling_rate s))%Q in
      logging INFO "Training duration" ;;
      invoke (GetCurrentBoardData training_interval) ;;
      filter_snapshot ;;
      if classifier s then invoke (ClassifierTrain (over_sample s))
      else raise AttributeError
  end.

(** The value [int(trigger)] of a trigger, where it has one. *)
Definition marker_value (trigger : pyval) : option Z :=
  match trigger with
  | PyInt z => Some z
  | PyStr s => int_of_str s
  end.

(** A marker whose value is the class count [n]: the mid-trial boundary. *)
Definition is_boundary (n : Z) (trigger : pyval) : Prop :=
  is_empty_str trigger = false /\ marker_value trigger = Some n.

(** Markers delivered one after the other, each with its own timestamp
    and clock reading; the calls of each delivery are kept apart. *)
Fixpoint deliver (events : list (pyval * Q * Q)) (s : Streamer)
  : list (list call) * Streamer :=
  match events with
  | [] => ([], s)
  | (trigger, timestamp, now) :: rest =>
      let r := write_trigger trigger timestamp now s in
      let (cs, s') := deliver rest (after r) in
      (calls r :: cs, s')
  end.

(** The signals and the button that reach the session state: the slots
    connected in [__init__] ([new_sample], [set_train_start], [start_train],
    [start_predicting] and [stop_predicting]) and the classifier thread. *)
Inductive event :=
| NewSample (trigger : pyval) (timestamp now : Q)
| SetTrainStart (now : Q)
| StartTrain (now : Q)
| TogglePredicting
| ClassifierCreated.

Definition handle (e : event) : M Streamer unit :=
  match e with
  | NewSample trigger timestamp now => write_trigger trigger timestamp now
  | SetTrainStart now => set_train_start now
  | StartTrain now => train_classifier now
  | TogglePredicting => set_prediction_mode
  | ClassifierCreated => init_classifier
  end.

(** The state after a sequence of events, whether or not a handler raised:
    the event loop goes on to the next event. *)
Fixpoint handle_all (events : list event) (s : Streamer) : Streamer :=
  match events with
  | [] => s
  | e :: rest => handle_all rest (after (handle e s))
  end.

End Router.

(** How many times [predict_class] was entered: it is the one place where
    [write_trigger] pulls a snapshot, and the pull is its first call. *)
Definition is_pull (c : call) : bool :=
  match c with
  | GetCurrentBoardData _ => true
  | _ => false
  end.

Definition requests (cs : list call) : nat :=
  List.length (filter is_pull cs).

(** How many prediction tasks were handed to the worker pool. *)
Definition is_submit (c : call) : bool :=
  match c with
  | ExecutorSubmit => true
  | _ => false
  end.

Definition predictions (cs : list call) : nat :=
  List.length (filter is_submit cs).

(** Collaborators that always return. *)
Definition never_raises (c : call) : option exn := None.

(** A board that refuses the marker 0, the other collaborators returning. *)
Definition refuses_zero_marker (c : call) : option exn :=
  match c with
  | InsertMarker 0 => Some BrainFlowError
  | _ => None
  end.

(** The markers handed to the board. *)
Fixpoint markers (cs : list call) : list Z :=
  match cs with
  | [] => []
  | InsertMarker v :: rest => v :: markers rest
  | _ :: rest => markers rest
  end.

(** An [int()] on text for the examples: an optional minus sign and decimal
    digits, as Python reads such text. *)
Fixpoint digits_value (s : string) (acc : Z) : option Z :=
  match s with
  | EmptyString => Some acc
  | String c r =>
      let d := Z.of_nat (nat_of_ascii c) - 48 in
      if (0 <=? d) && (d <=? 9) then digits_value r (10 * acc + d) else None
  end.

Definition decimal_int (s : string) : option Z :=
  match s with
  | EmptyString => None
  | String "-" EmptyString => None
  | String "-" r => option_map Z.opp (digits_value r 0)
  | _ => digits_value s 0
  end.

(** ** QualityScorer: [get_channel_quality] *)

Module Quality.

Local Open Scope Q_scope.

(** One row [(low, high, color_name, score)] of [self.quality_thresholds]. *)
Definition threshold : Type := Q * Q * string * Q.

(** The default of [config.get('quality_thresholds', ...)]. *)
Definition default_thresholds : list threshold :=
  [ (-(100), -(50), "yellow"%string, 1 # 2);
    (-(50), 50, "green"%string, 1);
    (50, 100, "yellow"%string, 1 # 2) ].

(** [low <= amplitude <= high] *)
Definition in_range (amplitude : Q) (t : threshold) : bool :=
  let '(low, high, _, _) := t in
  Qle_bool low amplitude && Qle_bool amplitude high.

(** The [for ... in self.quality_thresholds] loop with its [break]:
    [color] and [q_score] are the variables the loop assigns. *)
Fixpoint scan_thresholds (thresholds : list threshold) (amplitude : Q)
         (color : string) (q_score : Q) : string * Q :=
  match thresholds with
  | [] => (color, q_score)
  | (low, high, color_name, score) :: rest =>
      if Qle_bool low amplitude && Qle_bool amplitude high
      then (color_name, score)
      else scan_thresholds rest amplitude color q_score
  end.

(** Sorting in ascending order, by insertion. *)
Fixpoint insert_sorted (x : Q) (l : list Q) : list Q :=
  match l with
  | [] => [x]
  | y :: r => if Qle_bool x y then x :: l else y :: insert_sorted x r
  end.

Definition sort (l : list Q) : list Q := fold_right insert_sorted [] l.

(** The interpolation on the sorted array [arr] of [n] values. *)
Definition linear_percentile (arr : list Q) (n : Z) (q : Q) : Q :=
  let virtual_index := inject_Z (n - 1) * (q / 100) in
  let previous := Qfloor virtual_index in
  let next := Z.min (previous + 1) (n - 1) in
  let gamma := virtual_index - inject_Z previous in
  let lo := nth (Z.to_nat previous) arr 0 in
  let hi := nth (Z.to_nat next) arr 0 in
  lo + gamma * (hi - lo).

(** [numpy.percentile(a, q)] for [0 <= q <= 100] on a one-dimensional
    array, with numpy's default linear interpolation: sort, take the virtual
    index [(n - 1) * q / 100] and interpolate between its two neighbours.
    No value on an empty array. *)
Definition np_percentile (a : list Q) (q : Q) : option Q :=
  match a with
  | [] => None
  | _ :: _ => Some (linear_percentile (sort a) (Z.of_nat (List.length a)) q)
  end.

(** [Streamer.get_channel_quality(eeg, threshold)]: the triple
    [(color, amplitude, q_score)]. *)
Definition get_channel_quality (quality_thresholds : list threshold)
           (eeg : list Q) (threshold : Q) : option (string * Q * Q) :=
  match np_percentile eeg threshold with
  | None => None
  | Some amplitude =>
      let '(color, q_score) :=
        scan_thresholds quality_thresholds amplitude "red"%string 0 in
      Some (color, amplitude, q_score)
  end.

(** The label and score [get_channel_quality] returns for an amplitude: the
    loop entered after [q_score = 0] and [color = 'red']. *)
Definition bucket (thresholds : list threshold) (amplitude : Q) : string * Q :=
  scan_thresholds thresholds amplitude "red"%string 0.

(** The bucket as the specification words it: the first row of the table
    whose inclusive range holds the amplitude, else [(red, 0)]. *)
Definition first_match (thresholds : list threshold) (amplitude : Q)
  : string * Q :=
  match find (in_range amplitude) thresholds with
  | Some (_, _, label, score) => (label, score)
  | None => ("red"%string, 0)
  end.

(** The statistic as the specification words it: the 75th percentile of
    the absolute amplitudes. *)
Definition percentile_of_absolute (eeg : list Q) (q : Q) : option Q :=
  np_percentile (map Qabs eeg) q.

End Quality.

(** ** SignalConditioner: [filter_data_buffer] and the two filter stages *)

(** A BrainFlow routine that works in place on a channel vector
    ([DataFilter.detrend], [perform_bandpass], [perform_bandstop]): the
    exception it raises, if any, and what the vector holds afterwards.
    What the routines compute, and when they refuse their arguments, is
    BrainFlow's business: the methods are modelled for every such routine. *)
Definition routine : Type := list Q -> option exn * list Q.

(** A call of a routine on the vector. *)
Definition call_routine (f : routine) : M (list Q) unit :=
  fun ch_data =>
    Run (match fst (f ch_data) with
         | None => Returned tt
         | Some e => Raised e
         end)
        (snd (f ch_data)) [].

(** The widgets [filter_data_buffer] reads. *)
Record Gui := {
  bandpass_checkbox : bool;
  bandpass_box_low : string;
  bandpass_box_high : string;
  notch_checkbox : bool;
  notch_box : string }.

(** [text.split(',')] *)
Fixpoint split_comma (s : string) : list string :=
  match s with
  | EmptyString => [EmptyString]
  | String c r =>
      if Ascii.eqb c "," then EmptyString :: split_comma r
      else match split_comma r with
           | h :: t => String c h :: t
           | [] => [String c EmptyString]
           end
  end.

(** [data[i] = row], nothing out of range. *)
Fixpoint set_row (data : list (list Q)) (i : nat) (row : list Q)
  : list (list Q) :=
  match data, i with
  | [], _ => []
  | _ :: rest, O => row :: rest
  | r :: rest, S j => r :: set_row rest j row
  end.

(** Running a method of one channel on row [i] of the matrix: the channel
    vectors of the source are views into [data], so what the method does to
    its vector is done to the row. *)
Definition on_row {A} (i : nat) (m : M (list Q) A) : M (list (list Q)) A :=
  fun data =>
    match nth_error data i with
    | Some ch_data =>
        let r := m ch_data in
        Run (result r) (set_row data i (after r)) (calls r)
    | None => Run (Raised IndexError) data []
    end.

Section Conditioner.

Local Open Scope py_scope.

(** Python's [float(s)] on text: [None] where it raises [ValueError]. *)
Variable py_float : string -> option Q.
(** BrainFlow's [DataFilter.detrend] with [DetrendOperations.CONSTANT]. *)
Variable detrend : routine.
(** BrainFlow's [DataFilter.perform_bandpass] and [perform_bandstop] with
    arguments [sampling_rate], [start_freq], [stop_freq], [order]; the
    filter type (Butterworth, zero phase) and ripple (0) are fixed.  The
    bounds of a band-stop are handed over as the exact [f - 2] and [f + 2]:
    the rounding of these to binary64 is the same for equal [f] and is
    counted as part of the routine. *)
Variable perform_bandpass : Z -> Q -> Q -> Z -> routine.
Variable perform_bandstop : Z -> Q -> Q -> Z -> routine.

Variable sampling_rate : Z.

(** [float(text)] *)
Definition float_of {W} (text : string) : M W Q :=
  match py_float text with
  | Some x => ret x
  | None => raise ValueError
  end.

(** [self.sampling_rate / 2] *)
Definition nyquist : Q := (inject_Z sampling_rate / 2)%Q.

(** The message both filters log for a frequency above [nyquist]. *)
Definition nyquist_message : string :=
  "Frequency values should be less than half of the sampling rate in respect of Nyquist theorem".

(** [Streamer.apply_bandpass_filter(ch_data, start_freq, stop_freq)]
    with [order=4].  The message of the [except] branch is followed in the
    source by the text of the exception, which the model does not carry. *)
Definition apply_bandpass_filter (start_freq stop_freq : Q)
  : M (list Q) unit :=
  call_routine detrend ;;
  if Qle_bool stop_freq start_freq then
    logging ERROR "Start frequency should be less than stop frequency"
  else if Qltb start_freq 0 || Qltb stop_freq 0 then
    logging ERROR "Frequency values should be positive"
  else if Qltb nyquist start_freq || Qltb nyquist stop_freq then
    logging ERROR nyquist_message
  else
    try_except is_ValueError
      (call_routine (perform_bandpass sampling_rate start_freq stop_freq 4))
      (logging ERROR "Invalid frequency value").

(** The first loop of [apply_notch_filter]: [true] when every frequency
    passed, [false] when the method returned from inside the loop. *)
Fixpoint notch_check (freqs : list string) : M (list Q) bool :=
  match freqs with
  | [] => ret true
  | freq :: rest =>
      f <- float_of freq ;;
      if Qltb f 0 then
        logging ERROR "Frequency values should be positive" ;; ret false
      else if Qltb nyquist f then
        logging ERROR nyquist_message ;; ret false
      else notch_check rest
  end.

(** The second loop, with [bandwidth=2.0] and [order=4]. *)
Fixpoint notch_stops (freqs : list string) : M (list Q) unit :=
  match freqs with
  | [] => ret tt
  | freq :: rest =>
      f <- float_of freq ;;
      let start_freq := (f - 2)%Q in
      let end_freq := (f + 2)%Q in
      call_routine (perform_bandstop sampling_rate start_freq end_freq 4) ;;
      notch_stops rest
  end.

(** [Streamer.apply_notch_filter(ch_data, freqs)] *)
Definition apply_notch_filter (freqs : list string) : M (list Q) unit :=
  ok <- notch_check freqs ;;
  if ok then
    try_except is_ValueError (notch_stops freqs)
      (logging ERROR "Invalid frequency value")
  else ret tt.

(** [float(text) if text != '' else 0] *)
Definition float_or_zero {W} (text : string) : M W Q :=
  match text with
  | EmptyString => ret 0%Q
  | _ => float_of text
  end.

(** The body of the loop of [filter_data_buffer], on one channel. *)
Definition filter_channel (gui : Gui) : M (list Q) unit :=
  (if bandpass_checkbox gui then
     start_freq <- float_or_zero (bandpass_box_low gui) ;;
     stop_freq <- float_or_zero (bandpass_box_high gui) ;;
     apply_bandpass_filter start_freq stop_freq
   else ret tt) ;;
  (if notch_checkbox gui then
     apply_notch_filter (split_comma (notch_box gui))
   else ret tt).

(** [eeg = data[start_eeg:end_eeg]] has this many rows. *)
Definition eeg_rows (start_eeg end_eeg : nat) (data : list (list Q)) : nat :=
  (Nat.min end_eeg (List.length data)
   - Nat.min start_eeg (List.length data))%nat.

(** [ch_data = eeg[count]] followed by the loop body: row [count] of the
    slice is row [start_eeg + count] of [data]. *)
Definition filter_row (start_eeg end_eeg : nat) (gui : Gui) (count : nat)
  : M (list (list Q)) unit :=
  data <- get ;;
  if (count <? eeg_rows start_eeg end_eeg data)%nat then
    on_row (start_eeg + count) (filter_channel gui)
  else raise IndexError.

(** [for count, channel in enumerate(self.eeg_channels)] *)
Fixpoint for_each (counts : list nat) (body : nat -> M (list (list Q)) unit)
  : M (list (list Q)) unit :=
  match counts with
  | [] => ret tt
  | count :: rest => body count ;; for_each rest body
  end.

(** [Streamer.filter_data_buffer(data)]; [start_eeg] and [end_eeg] are
    the entries of [layouts[board_id]], [n_channels] is
    [len(self.eeg_channels)]. *)
Definition filter_data_buffer (start_eeg end_eeg n_channels : nat)
           (gui : Gui) : M (list (list Q)) unit :=
  for_each (seq 0 n_channels) (filter_row start_eeg end_eeg gui).

(** *** What the conditioner is expected to leave in a channel *)

(** The value read from a band-pass box: 0 for an empty box. *)
Definition box_value (text : string) : option Q :=
  match text with
  | EmptyString => Some 0%Q
  | _ => py_float text
  end.

(** [0 <= start_freq < stop_freq <= sampling_rate / 2], as the three tests
    of [apply_bandpass_filter] decide it. *)
Definition bandpass_valid (start_freq stop_freq : Q) : bool :=
  negb (Qle_bool stop_freq start_freq)
  && negb (Qltb start_freq 0 || Qltb stop_freq 0)
  && negb (Qltb nyquist start_freq || Qltb nyquist stop_freq).

(** The error [apply_bandpass_filter] logs for bounds it refuses: that of
    the first of its three tests to fail. *)
Definition refusal (start_freq stop_freq : Q) : string :=
  if Qle_bool stop_freq start_freq then
    "Start frequency should be less than stop frequency"
  else if Qltb start_freq 0 || Qltb stop_freq 0 then
    "Frequency values should be positive"
  else nyquist_message.

(** The band-pass stage proper on a vector, when the filter returns: the
    filter for valid bounds, nothing otherwise. *)
Definition band_stage (start_freq stop_freq : Q) (ch_data : list Q) : list Q :=
  if bandpass_valid start_freq stop_freq
  then snd (perform_bandpass sampling_rate start_freq stop_freq 4 ch_data)
  else ch_data.

(** The notch stage of the loop body. *)
Definition notch_stage (gui : Gui) : M (list Q) unit :=
  if notch_checkbox gui then apply_notch_filter (split_comma (notch_box gui))
  else ret tt.

(** A channel after a loop body that ran to its end: detrended and
    band-passed when the band-pass box is checked, then through the notch
    stage. *)
Definition conditioned (gui : Gui) (ch_data : list Q) : list Q :=
  let banded :=
    if bandpass_checkbox gui then
      match box_value (bandpass_box_low gui),
            box_value (bandpass_box_high gui) with
      | Some start_freq, Some stop_freq =>
          band_stage start_freq stop_freq (snd (detrend ch_data))
      | _, _ => ch_data
      end
    else ch_data in
  after (notch_stage gui banded).

End Conditioner.

(** A [float()] on text for the examples: unsigned decimal digits. *)
Definition decimal_float (s : string) : option Q :=
  match s with
  | EmptyString => None
  | _ => option_map inject_Z (digits_value s 0)
  end.

(** What a run of prediction skipping looks like: nothing for the first
    boundary marker, one request for each later one. *)
Definition skip_first (n : nat) : list nat :=
  match n with
  | O => []
  | S m => 0%nat :: repeat 1%nat m
  end.

(** Two sample vectors hold the same amplitudes. *)
Definition same_samples (a b : list Q) : Prop := Forall2 Qeq a b.

(** A routine that returns and leaves the vector as it is. *)
Definition untouched : routine := fun ch_data => (None, ch_data).

(** A stand-in for the BrainFlow band filters in the examples: the vector
    is left as it is. *)
Definition no_filter (sampling_rate : Z) (start_freq stop_freq : Q) (order : Z)
  : routine := untouched.

(** A band filter for the examples that refuses a band starting below
    0 Hz, as BrainFlow does, and leaves the vector as it is otherwise. *)
Definition strict_filter (sampling_rate : Z) (start_freq stop_freq : Q)
           (order : Z) : routine :=
  fun ch_data =>
    (if Qltb start_freq 0 then Some BrainFlowError else None, ch_data).

(** The mean of the samples. *)
Definition mean (ch_data : list Q) : Q :=
  (fold_right Qplus 0 ch_data / inject_Z (Z.of_nat (List.length ch_data)))%Q.

(** A stand-in for [DataFilter.detrend] in the examples: the mean is
    subtracted from each sample, in exact arithmetic (the vectors of the
    examples have a mean and differences that binary64 holds exactly); an
    empty vector is refused, as BrainFlow does. *)
Definition detrend_constant : routine :=
  fun ch_data =>
    match ch_data with
    | [] => (Some BrainFlowError, [])
    | _ => (None, map (fun x => (x - mean ch_data)%Q) ch_data)
    end.

(** Both stages unchecked, with the texts the boxes start with. *)
Definition gui_unchecked : Gui :=
  {| bandpass_checkbox := false; bandpass_box_low := "1";
     bandpass_box_high := "40"; notch_checkbox := false;
     notch_box := "50, 60" |}.

(** Band-pass checked with bounds in the wrong order. *)
Definition gui_bandpass_reversed : Gui :=
  {| bandpass_checkbox := true; bandpass_box_low := "40";
     bandpass_box_high := "1"; notch_checkbox := false;
     notch_box := "50, 60" |}.

(** Band-pass checked with bounds in the wrong order, and a notch stage
    whose second text is no number. *)
Definition gui_notch_unreadable : Gui :=
  {| bandpass_checkbox := true; bandpass_box_low := "40";
     bandpass_box_high := "1"; notch_checkbox := true;
     notch_box := "50,x" |}.

(** ** Concrete sessions for the examples *)

(** What [__init__] leaves for the default configuration on a 250 Hz
    board. *)
Definition session_new : Streamer :=
  {| on_time := PyZ 250; nclasses := 4; sampling_rate := 250;
     prediction_interval := 2000; prediction_datapoints := 500;
     over_sample := false; classifier := false; prediction_mode := false;
     first_prediction := true; start_training_time := None |}.

(** An on-time of 2.5 ms, written as a [float] in the configuration
    file. *)
Module FloatExamples.
Import PrimFloat.
Definition two_and_a_half : pynum := PyFloat 2.5%float.
End FloatExamples.

(** The same session once the classifier is created. *)
Definition session_idle : Streamer :=
  after (init_classifier session_new).


(** The same session with prediction mode switched on. *)
Definition session_predicting : Streamer :=
  after (set_prediction_mode never_raises session_idle).

(** Three mid-trial boundary markers: from the button, from the marker
    stream as text, and with a timestamp of its own. *)
Definition three_boundaries : list (pyval * Q * Q) :=
  [ (PyInt 4, 0%Q, 10%Q); (PyStr "4", 0%Q, 11%Q); (PyInt 4, 12%Q, 12%Q) ].

(** A session in which prediction was switched on, the first boundary
    marker was skipped, and prediction was switched off again. *)
Definition session_stopped_after_skip : Streamer :=
  handle_all decimal_int never_raises []
    [ClassifierCreated; TogglePredicting; NewSample (PyInt 4) 0%Q 10%Q;
     TogglePredicting]
    session_new.

(** ** WindowBuffer: the two timer slots, the quality report and the
    start/stop button *)

(** What stays fixed while a [Streamer] runs: the collaborators' functions,
    the configuration and the layout of the board. *)
Record Setup := {
  setup_float : string -> option Q;            (* float() on text *)
  setup_detrend : routine;
  setup_bandpass : Z -> Q -> Q -> Z -> routine;
  setup_bandstop : Z -> Q -> Q -> Z -> routine;
  setup_band_powers : list (list Q) -> list (list Q);
    (* extract_band_powers(data, fs, freq_bands, ch_names).to_numpy() *)
  setup_sampling_rate : Z;
  setup_window_size : Z;
  setup_start_eeg : nat;                       (* layouts[board_id]["eeg_start"] *)
  setup_end_eeg : nat;                         (* layouts[board_id]["eeg_end"] *)
  setup_channels : nat;                        (* len(self.eeg_channels) *)
  setup_ts_channel : nat;                      (* board.get_timestamp_channel *)
  setup_thresholds : list Quality.threshold;   (* self.quality_thresholds *)
  setup_plot : bool }.                         (* self.plot *)

(** [self.num_points = self.window_size * self.sampling_rate] *)
Definition num_points (c : Setup) : Z :=
  setup_window_size c * setup_sampling_rate c.

(** [l[start:stop]] for indices that are not negative. *)
Definition slice {A : Type} (start stop : nat) (l : list A) : list A :=
  firstn (stop - start) (skipn start l).

(** [l[i] = x], nothing out of range. *)
Fixpoint set_nth {A : Type} (l : list A) (i : nat) (x : A) : list A :=
  match l, i with
  | [], _ => []
  | _ :: rest, O => x :: rest
  | y :: rest, S j => y :: set_nth rest j x
  end.

(** The values numpy writes into a row of length [n] on [row[:] = values]:
    the values themselves when there are [n] of them, a single value
    repeated, and no assignment otherwise ([ValueError]). *)
Definition broadcast_to (n : nat) (values : list Q) : option (list Q) :=
  if (List.length values =? n)%nat then Some values
  else match values with
       | [v] => Some (repeat v n)
       | _ => None
       end.

(** [np.zeros((rows, columns))] *)
Definition zeros (rows columns : nat) : list (list Q) :=
  repeat (repeat 0%Q columns) rows.

(** [np.max(eeg)] over all entries; no value on an array without entries. *)
Definition Qmax (x y : Q) : Q := if Qle_bool x y then y else x.

Definition matrix_max (m : list (list Q)) : option Q :=
  match List.concat m with
  | [] => None
  | x :: rest => Some (fold_left Qmax rest x)
  end.

(** What [push_lsl_raw_eeg] is handed. *)
Record raw_chunk := {
  chunk_data : list (list Q);
  chunk_start : nat;
  chunk_end : nat;
  chunk_number : Z;
  chunk_timestamps : list Q;
  chunk_flag : bool }.

(** The part of a [Streamer] the data tick works on, with what it has sent
    to the two outlets (oldest first), the board's stream and the label of
    the start/stop button. *)
Record Window := {
  is_streaming : bool;
  chunk_counter : Z;
  filtered_eeg : list (list Q);
  board_streaming : bool;
  start_button : string;
  eeg_outlet : list raw_chunk;
  band_powers_outlet : list (list (list Q) * list Q) }.

Definition switch_stream (on : bool) (label : string) (w : Window) : Window :=
  {| is_streaming := on; chunk_counter := chunk_counter w;
     filtered_eeg := filtered_eeg w; board_streaming := on;
     start_button := label; eeg_outlet := eeg_outlet w;
     band_powers_outlet := band_powers_outlet w |}.

Definition set_chunk_counter (k : Z) (w : Window) : Window :=
  {| is_streaming := is_streaming w; chunk_counter := k;
     filtered_eeg := filtered_eeg w; board_streaming := board_streaming w;
     start_button := start_button w; eeg_outlet := eeg_outlet w;
     band_powers_outlet := band_powers_outlet w |}.

Definition set_filtered_eeg (m : list (list Q)) (w : Window) : Window :=
  {| is_streaming := is_streaming w; chunk_counter := chunk_counter w;
     filtered_eeg := m; board_streaming := board_streaming w;
     start_button := start_button w; eeg_outlet := eeg_outlet w;
     band_powers_outlet := band_powers_outlet w |}.

Definition push_raw_eeg (chunk : raw_chunk) (w : Window) : Window :=
  {| is_streaming := is_streaming w; chunk_counter := chunk_counter w;
     filtered_eeg := filtered_eeg w; board_streaming := board_streaming w;
     start_button := start_button w; eeg_outlet := eeg_outlet w ++ [chunk];
     band_powers_outlet := band_powers_outlet w |}.

Definition push_band_powers (values : list (list Q)) (ts : list Q)
           (w : Window) : Window :=
  {| is_streaming := is_streaming w; chunk_counter := chunk_counter w;
     filtered_eeg := filtered_eeg w; board_streaming := board_streaming w;
     start_button := start_button w; eeg_outlet := eeg_outlet w;
     band_powers_outlet := band_powers_outlet w ++ [(values, ts)] |}.

(** What the plot tick draws on and reports to: the data of each curve,
    the range of the Y axis, the brush of each quality indicator and what
    has been sent to the quality outlet. *)
Record Display := {
  curves : list (list Q);
  y_range : option (Q * Q);
  quality_indicators : list string;
  quality_outlet : list (list Q) }.

Definition set_curves (cs : list (list Q)) (d : Display) : Display :=
  {| curves := cs; y_range := y_range d;
     quality_indicators := quality_indicators d;
     quality_outlet := quality_outlet d |}.

Definition set_y_range (lo hi : Q) (d : Display) : Display :=
  {| curves := curves d; y_range := Some (lo, hi);
     quality_indicators := quality_indicators d;
     quality_outlet := quality_outlet d |}.

Definition set_quality_indicators (bs : list string) (d : Display) : Display :=
  {| curves := curves d; y_range := y_range d;
     quality_indicators := bs;
     quality_outlet := quality_outlet d |}.

Definition push_quality (scores : list Q) (d : Display) : Display :=
  {| curves := curves d; y_range := y_range d;
     quality_indicators := quality_indicators d;
     quality_outlet := quality_outlet d ++ [scores] |}.

Section Ticks.

Local Open Scope py_scope.

Variable c : Setup.

(** [self.filter_data_buffer(data)] on the snapshot just pulled: the
    snapshot as it is afterwards, or the exception. *)
Definition conditioning {W : Type} (gui : Gui) (data : list (list Q))
  : M W (list (list Q)) :=
  fun w =>
    let r := filter_data_buffer (setup_float c) (setup_detrend c)
               (setup_bandpass c) (setup_bandstop c) (setup_sampling_rate c)
               (setup_start_eeg c) (setup_end_eeg c) (setup_channels c)
               gui data in
    match result r with
    | Returned _ => Run (Returned (after r)) w (calls r)
    | Raised e => Run (Raised e) w (calls r)
    end.

(** [l[i]] *)
Definition item {W A : Type} (l : list A) (i : nat) : M W A :=
  match nth_error l i with
  | Some x => ret x
  | None => raise IndexError
  end.

(** [l[-1]] *)
Definition last_item {W A : Type} (l : list A) : M W A :=
  item l (List.length l - 1).

(** [if self.window_size == 0: raise ValueError(...)] *)
Definition window_check {W : Type} : M W unit :=
  if setup_window_size c =? 0 then raise ValueError else ret tt.

(** [self.filtered_eeg[i] = values] *)
Definition assign_filtered (i : nat) (values : list Q) : M Window unit :=
  w <- get ;;
  row <- item (filtered_eeg w) i ;;
  match broadcast_to (List.length row) values with
  | Some written =>
      modify (set_filtered_eeg (set_row (filtered_eeg w) i written))
  | None => raise ValueError
  end.

(** The loop [self.filtered_eeg[count] = eeg[count]] over the channels. *)
Fixpoint copy_channels (eeg : list (list Q)) (counts : list nat)
  : M Window unit :=
  match counts with
  | [] => ret tt
  | count :: rest =>
      ch_data <- item eeg count ;;
      assign_filtered count ch_data ;;
      copy_channels eeg rest
  end.

(** [Streamer.update_data_buffer]; [data] is what the board answers to
    the pull, [gui] and [chunk_checked] what the widgets hold.  The board,
    the band-power extractor, the event loop ([processEvents]) and the two
    LSL helpers are taken to return; what the helpers are handed is appended
    to the outlets of the [Window]. *)
Definition update_data_buffer (gui : Gui) (chunk_checked : bool)
           (data : list (list Q)) : M Window unit :=
  w <- get ;;
  if is_streaming w then
    window_check ;;
    emit (GetCurrentBoardData (num_points c)) ;;
    data <- conditioning gui data ;;
    let eeg := slice (setup_start_eeg c) (setup_end_eeg c) data in
    modify (fun w => set_chunk_counter (chunk_counter w + 1) w) ;;
    copy_channels eeg (seq 0 (setup_channels c)) ;;
    trigger <- last_item data ;;
    ts <- item data (setup_ts_channel c) ;;
    w <- get ;;
    assign_filtered (List.length (filtered_eeg w) - 1) trigger ;;
    w <- get ;;
    let band_powers :=
      setup_band_powers c (firstn (setup_channels c) (filtered_eeg w)) in
    modify (push_raw_eeg
              {| chunk_data := filtered_eeg w;
                 chunk_start := setup_start_eeg c;
                 chunk_end := setup_end_eeg c;
                 chunk_number := chunk_counter w;
                 chunk_timestamps := ts;
                 chunk_flag := chunk_checked |}) ;;
    modify (push_band_powers band_powers ts)
  else ret tt.

(** [Streamer.toggle_stream], the board doing as it is told. *)
Definition toggle_stream : M Window unit :=
  w <- get ;;
  if is_streaming w then modify (switch_stream false "Start")
  else modify (switch_stream true "Stop").

(** [self.quality_indicators[i].setBrush(mkBrush(color))] *)
Definition set_brush (i : nat) (color : string) : M Display unit :=
  d <- get ;;
  _ <- item (quality_indicators d) i ;;
  modify (set_quality_indicators (set_nth (quality_indicators d) i color)).

(** The loop of [update_quality_indicators] over the rows of the slice,
    [q_scores] being the list it appends to.  numpy has no percentile for a
    row without samples (nan or an error, by version): the model stops the
    call there. *)
Fixpoint score_channels (eeg : list (list Q)) (i : nat) (q_scores : list Q)
  : M Display (list Q) :=
  match eeg with
  | [] => ret q_scores
  | amplitude_data :: rest =>
      match Quality.get_channel_quality (setup_thresholds c)
              amplitude_data 75 with
      | None => raise IndexError
      | Some (color, _, q_score) =>
          set_brush i color ;;
          score_channels rest (S i) (q_scores ++ [q_score])
      end
  end.

(** [Streamer.update_quality_indicators(sample, push)].  The rounded
    amplitudes are collected and never used, and [setData([-1], [0])] puts
    every indicator at the same point: neither is kept here. *)
Definition update_quality_indicators (sample : list (list Q)) (push : bool)
  : M Display unit :=
  let eeg := slice (setup_start_eeg c) (setup_end_eeg c) sample in
  q_scores <- score_channels eeg 0 [] ;;
  (if push then modify (push_quality q_scores) else ret tt) ;;
  logging DEBUG "Qualities".

(** [self.offset_amplitude] and [self.trigger_offset] of [init_plot]. *)
Definition offset_amplitude : Q := 200.
Definition trigger_offset : Q := - offset_amplitude.

(** [self.curves[i].setData(values)] *)
Definition set_curve (i : nat) (values : list Q) : M Display unit :=
  d <- get ;;
  _ <- item (curves d) i ;;
  modify (set_curves (set_row (curves d) i values)).

(** [filtered_eeg[i] = values] on the local buffer of [update_plot]. *)
Definition assign_local (buffer : list (list Q)) (i : nat) (values : list Q)
  : M Display (list (list Q)) :=
  row <- item buffer i ;;
  match broadcast_to (List.length row) values with
  | Some written => ret (set_row buffer i written)
  | None => raise ValueError
  end.

(** The loop of [update_plot] over the channels; [filtered_eeg] is the
    local buffer it fills. *)
Fixpoint plot_channels (eeg : list (list Q)) (counts : list nat)
         (filtered_eeg : list (list Q)) : M Display (list (list Q)) :=
  match counts with
  | [] => ret filtered_eeg
  | count :: rest =>
      ch_data <- item eeg count ;;
      filtered_eeg <- assign_local filtered_eeg count ch_data ;;
      (if setup_plot c then
         let ch_data_offset :=
           map (fun x => x + inject_Z (Z.of_nat count) * offset_amplitude)%Q
               ch_data in
         set_curve count ch_data_offset
       else ret tt) ;;
      plot_channels eeg rest filtered_eeg
  end.

(** [Streamer.update_plot]; [streaming] is [self.is_streaming].
    [np.zeros] refuses a negative number of points; the plot widget and the
    event loop are taken to return. *)
Definition update_plot (streaming : bool) (gui : Gui) (data : list (list Q))
  : M Display unit :=
  (if num_points c <? 0 then raise ValueError else ret tt) ;;
  let filtered_eeg :=
    zeros (setup_channels c + 1) (Z.to_nat (num_points c)) in
  if streaming then
    window_check ;;
    emit (GetCurrentBoardData (num_points c)) ;;
    data <- conditioning gui data ;;
    let eeg := slice (setup_start_eeg c) (setup_end_eeg c) data in
    filtered_eeg <- plot_channels eeg (seq 0 (setup_channels c)) filtered_eeg ;;
    last_row <- last_item data ;;
    let trigger := map (fun x => x * 100)%Q last_row in
    (if setup_plot c then
       let trigger_rescaled :=
         map (fun x => x * (offset_amplitude / 5) + trigger_offset)%Q trigger in
       d <- get ;;
       set_curve (List.length (curves d) - 1) trigger_rescaled
     else ret tt) ;;
    let min_display := (trigger_offset - offset_amplitude)%Q in
    match matrix_max eeg with
    | None => raise ValueError
    | Some top =>
        let max_display :=
          ((inject_Z (Z.of_nat (setup_channels c)) - 1) * offset_amplitude
           + top)%Q in
        modify (set_y_range min_display max_display) ;;
        update_quality_indicators filtered_eeg true
    end
  else ret tt.

End Ticks.

(** ** Vocabulary of the further properties *)

Section RouterVocabulary.

Variable int_of_str : string -> option Z.

(** [is_boundary], decided. *)
Definition is_boundaryb (n : Z) (trigger : pyval) : bool :=
  negb (is_empty_str trigger)
  && match marker_value int_of_str trigger with
     | Some v => v =? n
     | None => false
     end.

(** How many of the events are mid-trial boundary markers. *)
Definition boundaries (n : Z) (events : list (pyval * Q * Q)) : nat :=
  List.length (filter (fun ev => is_boundaryb n (fst (fst ev))) events).

(** The one marker a trigger stands for, if any. *)
Definition marker_of (trigger : pyval) : list Z :=
  if is_empty_str trigger then []
  else match marker_value int_of_str trigger with
       | Some v => [v]
       | None => []
       end.

End RouterVocabulary.

(** How many errors were logged. *)
Definition is_error (c : call) : bool :=
  match c with
  | Log ERROR _ => true
  | _ => false
  end.

Definition errors (cs : list call) : nat := List.length (filter is_error cs).

(** A notch frequency the check loop of [apply_notch_filter] lets through. *)
Definition notch_ok (sampling_rate : Z) (f : Q) : Prop :=
  (0 <= f)%Q /\ (f <= nyquist sampling_rate)%Q.

(** The band-stops of the notch stage, one after the other, each 2 Hz to
    either side of its frequency, up to the first that raises. *)
Fixpoint bandstops (perform_bandstop : Z -> Q -> Q -> Z -> routine)
         (sampling_rate : Z) (values : list Q) : routine :=
  fun ch_data =>
    match values with
    | [] => (None, ch_data)
    | f :: rest =>
        let stopped :=
          perform_bandstop sampling_rate (f - 2)%Q (f + 2)%Q 4 ch_data in
        match fst stopped with
        | None => bandstops perform_bandstop sampling_rate rest (snd stopped)
        | Some e => (Some e, snd stopped)
        end
    end.

(** How a method ends when a routine it calls in a [try] with
    [except ValueError] has run: a [ValueError] is logged and swallowed,
    any other exception leaves the method. *)
Definition guarded (outcome : option exn * list Q) : run (list Q) unit :=
  match fst outcome with
  | None => Run (Returned tt) (snd outcome) []
  | Some e =>
      if is_ValueError e
      then Run (Returned tt) (snd outcome) [Log ERROR "Invalid frequency value"]
      else Run (Raised e) (snd outcome) []
  end.

(** The run of [filter_data_buffer] on a snapshot, with the functions and
    the layout of a setup. *)
Definition filtered (c : Setup) (gui : Gui) (data : list (list Q))
  : run (list (list Q)) unit :=
  filter_data_buffer (setup_float c) (setup_detrend c) (setup_bandpass c)
    (setup_bandstop c) (setup_sampling_rate c) (setup_start_eeg c)
    (setup_end_eeg c) (setup_channels c) gui data.

(** The rows the loops of the two ticks read: [eeg[count]] for each channel
    of [eeg = data[start_eeg:end_eeg]]. *)
Definition channel_rows (c : Setup) (data : list (list Q)) : list (list Q) :=
  firstn (setup_channels c)
         (slice (setup_start_eeg c) (setup_end_eeg c) data).

(** The colour and the score [get_channel_quality] gives a row at the
    threshold [update_quality_indicators] uses. *)
Definition row_color (thresholds : list Quality.threshold) (row : list Q)
  : string :=
  match Quality.get_channel_quality thresholds row 75 with
  | Some (color, _, _) => color
  | None => "red"
  end.

Definition row_score (thresholds : list Quality.threshold) (row : list Q) : Q :=
  match Quality.get_channel_quality thresholds row 75 with
  | Some (_, _, q_score) => q_score
  | None => 0
  end.

(** The curve of channel [count]: its samples moved up by [count] offsets. *)
Definition offset_curve (count : nat) (ch_data : list Q) : list Q :=
  map (fun x => x + inject_Z (Z.of_nat count) * offset_amplitude)%Q ch_data.

Fixpoint offset_curves (count : nat) (channels : list (list Q))
  : list (list Q) :=
  match channels with
  | [] => []
  | ch_data :: rest => offset_curve count ch_data :: offset_curves (S count) rest
  end.

(** The curve of the marker row. *)
Definition trigger_curve (last_row : list Q) : list Q :=
  map (fun x => x * (offset_amplitude / 5) + trigger_offset)%Q
      (map (fun x => x * 100)%Q last_row).

(** ** A board and a window for the examples *)

(** Two EEG channels in rows 0 and 1, the timestamps in row 2 and the
    markers in the last row; the stand-in filters, and the rows themselves
    for the band powers. *)
Definition setup_two_channels : Setup :=
  {| setup_float := decimal_float; setup_detrend := detrend_constant;
     setup_bandpass := no_filter;
     setup_bandstop := no_filter; setup_band_powers := fun rows => rows;
     setup_sampling_rate := 3; setup_window_size := 1;
     setup_start_eeg := 0; setup_end_eeg := 2; setup_channels := 2;
     setup_ts_channel := 2;
     setup_thresholds := Quality.default_thresholds; setup_plot := true |}.

(** The same board with a package counter in row 0 and the EEG channels in
    rows 1 and 2. *)
Definition setup_shifted : Setup :=
  {| setup_float := decimal_float; setup_detrend := detrend_constant;
     setup_bandpass := no_filter;
     setup_bandstop := no_filter; setup_band_powers := fun rows => rows;
     setup_sampling_rate := 3; setup_window_size := 1;
     setup_start_eeg := 1; setup_end_eeg := 3; setup_channels := 2;
     setup_ts_channel := 3;
     setup_thresholds := Quality.default_thresholds; setup_plot := true |}.

(** A full window of three samples from the first board. *)
Definition full_window : list (list Q) :=
  [ [10; 20; 30]; [-(75); 75; 500]; [1; 2; 3]; [0; 4; 0] ]%Q.

(** What the first board holds one sample after the start. *)
Definition short_window : list (list Q) :=
  [ [10; 20]; [-(75); 75]; [1; 2]; [0; 4] ]%Q.

(** A full window from the second board. *)
Definition shifted_window : list (list Q) :=
  [ [7; 8; 9]; [10; 20; 30]; [-(75); 75; 500]; [1; 2; 3]; [0; 4; 0] ]%Q.

(** The window buffer as [__init__] leaves it for two channels and three
    points, the stream running. *)
Definition window_started : Window :=
  {| is_streaming := true; chunk_counter := 0; filtered_eeg := zeros 3 3;
     board_streaming := true; start_button := "Stop"; eeg_outlet := [];
     band_powers_outlet := [] |}.

(** The plot as [init_plot] leaves it for two channels: three curves
    without data, two green indicators. *)
Definition display_started : Display :=
  {| curves := [[]; []; []]; y_range := None;
     quality_indicators := ["green"%string; "green"%string];
     quality_outlet := [] |}.

(** * Properties *)

(** ** Numbers *)

(** On a float that is not negative, [int()] is the floor. *)
Lemma py_int_Q_floor (x : Q) : (0 <= x)%Q -> py_int_Q x = Qfloor x.
Proof.
  destruct x as [n d]; unfold Qle, py_int_Q, Qfloor; simpl; intros H.
  apply Z.quot_div_nonneg; lia.
Qed.

Lemma Qltb_lt (x y : Q) : Qltb x y = true <-> (x < y)%Q.
Proof.
  unfold Qltb. rewrite negb_true_iff. split; intros H.
  - apply Qnot_le_lt. intros Hle. apply Qle_bool_iff in Hle. congruence.
  - destruct (Qle_bool y x) eqn:E; [|reflexivity].
    apply Qle_bool_iff in E. exfalso. exact (Qlt_not_le _ _ H E).
Qed.

Lemma Qle_bool_false (x y : Q) : Qle_bool x y = false <-> (y < x)%Q.
Proof.
  rewrite <- Qltb_lt. unfold Qltb. now rewrite negb_true_iff.
Qed.

(** ** TimingCalculator *)

Lemma py_int_Q_opp (x : Q) : py_int_Q (- x) = - py_int_Q x.
Proof.
  destruct x as [n d]. unfold py_int_Q. simpl. apply Z.quot_opp_l. lia.
Qed.

(** [int()] depends on the value only, not on the fraction that writes it. *)
Lemma py_int_Q_comp (x y : Q) : (x == y)%Q -> py_int_Q x = py_int_Q y.
Proof.
  intros H. destruct (Qlt_le_dec x 0) as [Hneg | Hpos].
  - assert (Hx : (0 <= - x)%Q) by lra.
    assert (Hy : (0 <= - y)%Q) by lra.
    assert (E : py_int_Q (- x) = py_int_Q (- y)).
    { rewrite (py_int_Q_floor _ Hx), (py_int_Q_floor _ Hy).
      apply Qfloor_comp. now rewrite H. }
    rewrite !py_int_Q_opp in E. lia.
  - assert (Hy : (0 <= y)%Q) by lra.
    rewrite (py_int_Q_floor _ Hpos), (py_int_Q_floor _ Hy).
    now apply Qfloor_comp.
Qed.

Lemma py_int_Q_inject (z : Z) : py_int_Q (inject_Z z) = z.
Proof. unfold py_int_Q. simpl. apply Z.quot_1_r. Qed.

(** [int(x)] is the truncation of the exact value of [x]. *)
Lemma int_of_num_value (x : pynum) (q : Q) :
  value x = Some q -> int_of_num x = Some (py_int_Q q).
Proof.
  destruct x as [z | f]; unfold value, int_of_num, int_of_float.
  - intros H. injection H as <-. now rewrite py_int_Q_inject.
  - destruct (FloatOps.Prim2SF f) as [sign | sign | | sign m e];
      try discriminate.
    + intros H. injection H as <-. reflexivity.
    + cbv zeta. intros H. injection H as <-. f_equal.
      rewrite (py_int_Q_comp _ _ (Qred_correct _)).
      destruct (Z.leb_spec 0 e) as [He | He].
      * destruct sign;
          rewrite ?py_int_Q_opp, py_int_Q_inject; reflexivity.
      * assert (Hp : 0 < 2 ^ (- e)) by (apply Z.pow_pos_nonneg; lia).
        assert (E : py_int_Q (Zpos m # Z.to_pos (2 ^ (- e)))
                    = Zpos m / 2 ^ (- e)).
        { unfold py_int_Q. simpl. rewrite Z2Pos.id by exact Hp.
          apply Z.quot_div_nonneg; lia. }
        destruct sign; rewrite ?py_int_Q_opp, E; reflexivity.
Qed.

Lemma prediction_interval_integer (k n : Z) :
  Timing.prediction_interval (PyZ k) n = Some (2 * (k + k * (n - 1))).
Proof.
  unfold Timing.prediction_interval, Timing.off_time.
  cbn -[Z.mul Z.add Z.sub]. f_equal. lia.
Qed.

(** C2, corrected.  For an [int] on-time [k >= 0] ms, a class count
    [n >= 1] and a sampling rate [fs >= 0], the product of interval and rate
    staying below 2^52: the off-time is [k * (n - 1)], the prediction
    interval is [2 * (on_time + off_time)], and the number of datapoints is
    the floor of [prediction_interval * fs / 1000]; these are the attributes
    [__init__] leaves.  For any on-time, [int] or [float], the interval is
    twice the truncation of the sum [on_time + off_time] as the machine
    computes it.  With on-time 250, 4 classes and 250 Hz this is off-time
    750, interval 2000, datapoints 500. *)
Theorem timing_arithmetic :
  (forall k n fs : Z,
      0 <= k -> 1 <= n -> 0 <= fs ->
      let interval := 2 * (k + k * (n - 1)) in
      interval * fs < 2 ^ 52 ->
      Timing.off_time (PyZ k) n = Some (PyZ (k * (n - 1)))
      /\ Timing.prediction_interval (PyZ k) n = Some interval
      /\ Timing.prediction_datapoints interval fs
         = Qfloor (inject_Z interval * inject_Z fs / 1000)%Q
      /\ Timing.prediction_datapoints interval fs = (interval * fs) / 1000
      /\ exists s : Streamer,
          init (PyZ k) n fs = Some s
          /\ prediction_interval s = interval
          /\ prediction_datapoints s = (interval * fs) / 1000)
  /\ (forall (on : pynum) (n : Z) (off total : pynum) (q : Q),
         Timing.off_time on n = Some off ->
         add_num on off = Some total ->
         value total = Some q ->
         Timing.prediction_interval on n = Some (2 * py_int_Q q))
  /\ (Timing.off_time (PyZ 250) 4 = Some (PyZ 750)
      /\ Timing.prediction_interval (PyZ 250) 4 = Some 2000
      /\ Timing.prediction_datapoints 2000 250 = 500
      /\ init (PyZ 250) 4 250 = Some session_new).
Proof.
  split; [|split; [|repeat split; reflexivity]].
  - intros k n fs Hk Hn Hfs interval _.
    assert (Hi : Timing.prediction_interval (PyZ k) n = Some interval)
      by apply prediction_interval_integer.
    assert (Hpos : 0 <= interval * fs) by (unfold interval; nia).
    assert (Hd : Timing.prediction_datapoints interval fs
                 = (interval * fs) / 1000).
    { unfold Timing.prediction_datapoints.
      rewrite py_int_Q_floor.
      - symmetry. apply Zdiv_Qdiv.
      - apply Qle_shift_div_l; [reflexivity|].
        rewrite Qmult_0_l. unfold Qle. cbn -[Z.mul]. lia. }
    split; [reflexivity|]. split; [exact Hi|]. split; [|split].
    + rewrite Hd, <- inject_Z_mult. apply Zdiv_Qdiv.
    + exact Hd.
    + unfold init. rewrite Hi. eexists. split; [reflexivity|].
      split; [reflexivity | exact Hd].
  - intros on n off total q Hoff Hsum Hq.
    unfold Timing.prediction_interval. rewrite Hoff, Hsum.
    rewrite (int_of_num_value _ _ Hq). cbn [option_map]. f_equal. lia.
Qed.

Lemma timing_arithmetic_witness :
  0 <= 250 /\ 1 <= 4 /\ 0 <= 250
  /\ 2 * (250 + 250 * (4 - 1)) * 250 < 2 ^ 52
  /\ Timing.prediction_interval (PyZ 250) 4 = Some (2 * (250 + 250 * (4 - 1)))
  /\ Timing.prediction_datapoints (2 * (250 + 250 * (4 - 1))) 250
     = (2 * (250 + 250 * (4 - 1)) * 250) / 1000.
Proof.
  assert (H1 : 0 <= 250) by lia.
  assert (H2 : 1 <= 4) by lia.
  assert (H3 : 2 * (250 + 250 * (4 - 1)) * 250 < 2 ^ 52) by reflexivity.
  split; [exact H1|]. split; [exact H2|]. split; [exact H1|].
  split; [exact H3|].
  destruct (proj1 timing_arithmetic 250 4 250 H1 H2 H1 H3)
    as [_ [Hi [_ [Hd _]]]].
  split; [exact Hi | exact Hd].
Defined.

(** C2 as stated fails for an on-time that is not an integer: [__init__]
    truncates the sum before it doubles it.  With an on-time of 2.5 ms and
    3 classes the off-time is 5.0 and the sum 7.5, both exact in binary64;
    the interval is [int(7.5) * 2 = 14], where [2 * (2.5 + 5.0)] is 15. *)
Lemma fractional_on_time_is_truncated :
  value FloatExamples.two_and_a_half = Some (5 # 2)
  /\ option_map value (Timing.off_time FloatExamples.two_and_a_half 3)
     = Some (Some 5%Q)
  /\ Timing.prediction_interval FloatExamples.two_and_a_half 3 = Some 14
  /\ ~ (inject_Z 14 == 2 * ((5 # 2) + 5))%Q.
Proof.
  split; [vm_compute; reflexivity|]. split; [vm_compute; reflexivity|].
  split; [vm_compute; reflexivity|].
  intros H. vm_compute in H. discriminate H.
Qed.

(** ** TriggerRouter *)

Section RouterFacts.

Variable int_of_str : string -> option Z.
Variable raises : call -> option exn.
Variable conditioner_errors : list string.

(** Case analysis on what the collaborators do with the calls in sight. *)
Ltac collaborators :=
  repeat match goal with
         | |- context [raises ?c] => destruct (raises c); simpl
         end.

Lemma py_int_value (trigger : pyval) (v : Z) :
  marker_value int_of_str trigger = Some v ->
  py_int int_of_str trigger = ret v.
Proof.
  unfold py_int. destruct trigger as [z|str]; simpl; intros H.
  - now injection H as ->.
  - now rewrite H.
Qed.

(** Counting in a trace made of parts; the errors the conditioner logs
    are neither pulls, nor tasks, nor markers. *)
Lemma requests_app (a b : list call) :
  requests (a ++ b) = (requests a + requests b)%nat.
Proof. unfold requests. now rewrite filter_app, length_app. Qed.

Lemma predictions_app (a b : list call) :
  predictions (a ++ b) = (predictions a + predictions b)%nat.
Proof. unfold predictions. now rewrite filter_app, length_app. Qed.

Lemma markers_app (a b : list call) : markers (a ++ b) = markers a ++ markers b.
Proof.
  induction a as [|c a IH]; [reflexivity|].
  destruct c; simpl; now rewrite IH.
Qed.

Lemma requests_logs (msgs : list string) :
  requests (map (Log ERROR) msgs) = 0%nat.
Proof. induction msgs as [|m msgs IH]; [reflexivity | exact IH]. Qed.

Lemma predictions_logs (msgs : list string) :
  predictions (map (Log ERROR) msgs) = 0%nat.
Proof. induction msgs as [|m msgs IH]; [reflexivity | exact IH]. Qed.

Lemma markers_logs (msgs : list string) : markers (map (Log ERROR) msgs) = [].
Proof. induction msgs as [|m msgs IH]; [reflexivity | exact IH]. Qed.

(** The run of [predict_class], by what the collaborators do. *)
Lemma predict_class_trace (s : Streamer) :
  predict_class raises conditioner_errors s
  = Run (Returned tt) s
        (GetCurrentBoardData (prediction_datapoints s)
         :: match raises (GetCurrentBoardData (prediction_datapoints s)) with
            | Some _ => [Log ERROR "Error starting prediction task"]
            | None =>
                FilterDataBuffer
                :: map (Log ERROR) conditioner_errors
                   ++ match raises FilterDataBuffer with
                      | Some _ => [Log ERROR "Error starting prediction task"]
                      | None =>
                          ExecutorSubmit
                          :: match raises ExecutorSubmit with
                             | Some _ =>
                                 [Log ERROR "Error starting prediction task"]
                             | None => []
                             end
                      end
            end).
Proof.
  unfold predict_class, try_except, bind, get, invoke, filter_snapshot,
    logging, emit; simpl.
  destruct (raises (GetCurrentBoardData (prediction_datapoints s))); simpl;
    [reflexivity|].
  destruct (raises FilterDataBuffer); simpl; [reflexivity|].
  destruct (raises ExecutorSubmit); simpl; rewrite <- ?app_assoc;
    reflexivity.
Qed.

(** [predict_class] never raises and leaves the session state alone; it
    pulls one snapshot, and hands one task to the pool when the pull and
    the conditioning return. *)
Lemma predict_class_run (s : Streamer) :
  result (predict_class raises conditioner_errors s) = Returned tt
  /\ after (predict_class raises conditioner_errors s) = s
  /\ requests (calls (predict_class raises conditioner_errors s)) = 1%nat
  /\ markers (calls (predict_class raises conditioner_errors s)) = []
  /\ (raises (GetCurrentBoardData (prediction_datapoints s)) = None ->
      raises FilterDataBuffer = None ->
      predictions (calls (predict_class raises conditioner_errors s)) = 1%nat).
Proof.
  rewrite predict_class_trace. cbn [result after calls].
  split; [reflexivity|]. split; [reflexivity|].
  destruct (raises (GetCurrentBoardData (prediction_datapoints s))).
  - repeat split. intros H; discriminate H.
  - change (GetCurrentBoardData (prediction_datapoints s) :: FilterDataBuffer
            :: ?l) with ([GetCurrentBoardData (prediction_datapoints s);
                          FilterDataBuffer] ++ l).
    split; [|split].
    + rewrite !requests_app, requests_logs.
      destruct (raises FilterDataBuffer); [reflexivity|].
      destruct (raises ExecutorSubmit); reflexivity.
    + rewrite !markers_app, markers_logs.
      destruct (raises FilterDataBuffer); [reflexivity|].
      destruct (raises ExecutorSubmit); reflexivity.
    + intros _ Hf. rewrite Hf, !predictions_app, predictions_logs.
      destruct (raises ExecutorSubmit); reflexivity.
Qed.

(** The first boundary marker while predicting: skipped, flag cleared. *)
Lemma write_trigger_first (s : Streamer) (trigger : pyval) (timestamp now : Q) :
  is_boundary int_of_str (nclasses s) trigger ->
  raises (InsertMarker (nclasses s)) = None ->
  prediction_mode s = true -> first_prediction s = true ->
  write_trigger int_of_str raises conditioner_errors trigger timestamp now s
  = Run (Returned tt) (set_first_prediction false s)
        [InsertMarker (nclasses s); Log DEBUG "Skipping first prediction"].
Proof.
  intros [Hne Hval] Hacc Hpm Hfp. unfold write_trigger.
  rewrite Hne, (py_int_value trigger _ Hval).
  unfold bind, ret, get, invoke, logging, emit, modify; simpl.
  rewrite Hacc; simpl. rewrite Z.eqb_refl, Hpm, Hfp. reflexivity.
Qed.

(** A later boundary marker while predicting: one run of [predict_class]. *)
Lemma write_trigger_later (s : Streamer) (trigger : pyval) (timestamp now : Q) :
  is_boundary int_of_str (nclasses s) trigger ->
  raises (InsertMarker (nclasses s)) = None ->
  prediction_mode s = true -> first_prediction s = false ->
  write_trigger int_of_str raises conditioner_errors trigger timestamp now s
  = Run (Returned tt) s
        (InsertMarker (nclasses s) :: calls (predict_class raises conditioner_errors s)).
Proof.
  intros [Hne Hval] Hacc Hpm Hfp. unfold write_trigger.
  rewrite Hne, (py_int_value trigger _ Hval).
  destruct (predict_class_run s) as [Hr [Ha _]].
  unfold bind, ret, get, invoke. cbn -[predict_class Z.eqb].
  rewrite Hacc. cbn -[predict_class Z.eqb].
  rewrite Z.eqb_refl, Hpm, Hfp. cbn -[predict_class].
  rewrite Hr, Ha. reflexivity.
Qed.

(** A boundary marker while prediction mode is off: only recorded. *)
Lemma write_trigger_off (s : Streamer) (trigger : pyval) (timestamp now : Q) :
  is_boundary int_of_str (nclasses s) trigger ->
  raises (InsertMarker (nclasses s)) = None ->
  prediction_mode s = false ->
  write_trigger int_of_str raises conditioner_errors trigger timestamp now s
  = Run (Returned tt) s [InsertMarker (nclasses s)].
Proof.
  intros [Hne Hval] Hacc Hpm. unfold write_trigger.
  rewrite Hne, (py_int_value trigger _ Hval).
  unfold bind, ret, get, invoke, logging, emit, modify; simpl.
  rewrite Hacc; simpl. rewrite Hpm. reflexivity.
Qed.

(** Once the first boundary is behind, every boundary marker is a request. *)
Lemma deliver_predicting (events : list (pyval * Q * Q)) (s : Streamer) :
  prediction_mode s = true -> first_prediction s = false ->
  raises (InsertMarker (nclasses s)) = None ->
  Forall (fun ev => is_boundary int_of_str (nclasses s) (fst (fst ev))) events ->
  map requests (fst (deliver int_of_str raises conditioner_errors events s))
    = repeat 1%nat (List.length events)
  /\ (raises (GetCurrentBoardData (prediction_datapoints s)) = None ->
      raises FilterDataBuffer = None ->
      map predictions (fst (deliver int_of_str raises conditioner_errors events s))
      = repeat 1%nat (List.length events))
  /\ snd (deliver int_of_str raises conditioner_errors events s) = s.
Proof.
  intros Hpm Hfp Hacc Hall.
  destruct (predict_class_run s) as [_ [_ [Hreq [_ Hsub]]]].
  induction Hall as [|[[trigger timestamp] now] rest Hb _ IH].
  - repeat split.
  - simpl in Hb. simpl deliver.
    rewrite (write_trigger_later s trigger timestamp now Hb Hacc Hpm Hfp).
    cbn [after calls].
    destruct (deliver int_of_str raises conditioner_errors rest s) as [cs s'] eqn:E.
    cbn [fst snd] in IH |- *. destruct IH as [IH1 [IH2 IH3]].
    cbn [map List.length repeat].
    split; [|split].
    + rewrite IH1. f_equal. exact Hreq.
    + intros Hg Hf. rewrite (IH2 Hg Hf). f_equal. exact (Hsub Hg Hf).
    + exact IH3.
Qed.

(** While prediction mode is off a boundary marker is only recorded. *)
Lemma deliver_not_predicting (events : list (pyval * Q * Q)) (s : Streamer) :
  prediction_mode s = false ->
  raises (InsertMarker (nclasses s)) = None ->
  Forall (fun ev => is_boundary int_of_str (nclasses s) (fst (fst ev))) events ->
  map requests (fst (deliver int_of_str raises conditioner_errors events s))
    = repeat 0%nat (List.length events)
  /\ map predictions (fst (deliver int_of_str raises conditioner_errors events s))
     = repeat 0%nat (List.length events)
  /\ snd (deliver int_of_str raises conditioner_errors events s) = s.
Proof.
  intros Hpm Hacc Hall.
  induction Hall as [|[[trigger timestamp] now] rest Hb _ IH].
  - repeat split.
  - simpl in Hb. simpl deliver.
    rewrite (write_trigger_off s trigger timestamp now Hb Hacc Hpm).
    cbn [after calls].
    destruct (deliver int_of_str raises conditioner_errors rest s) as [cs s'] eqn:E.
    cbn [fst snd] in IH |- *. destruct IH as [IH1 [IH2 IH3]].
    cbn [map List.length repeat].
    split; [|split].
    + now rewrite IH1.
    + now rewrite IH2.
    + exact IH3.
Qed.

(** C1. Skip-first prediction semantics.  For every sequence of markers
    whose value is the class count, delivered through [write_trigger] to a
    board that takes the marker: when prediction mode is on and
    [first_prediction] is true, the first marker makes no prediction request
    and clears the flag, and each later one makes exactly one request (one
    run of [predict_class], which hands one task to the pool when the pull
    and the conditioning return); when prediction mode is off no marker
    makes a request and the session state stays as it was. *)
Theorem skip_first_prediction (s : Streamer) (events : list (pyval * Q * Q)) :
  Forall (fun ev => is_boundary int_of_str (nclasses s) (fst (fst ev))) events ->
  raises (InsertMarker (nclasses s)) = None ->
  (prediction_mode s = true -> first_prediction s = true ->
   map requests (fst (deliver int_of_str raises conditioner_errors events s))
     = skip_first (List.length events)
   /\ (raises (GetCurrentBoardData (prediction_datapoints s)) = None ->
       raises FilterDataBuffer = None ->
       map predictions (fst (deliver int_of_str raises conditioner_errors events s))
       = skip_first (List.length events))
   /\ (events <> [] ->
       first_prediction (snd (deliver int_of_str raises conditioner_errors events s)) = false)
   /\ prediction_mode (snd (deliver int_of_str raises conditioner_errors events s)) = true)
  /\ (prediction_mode s = false ->
      map requests (fst (deliver int_of_str raises conditioner_errors events s))
        = repeat 0%nat (List.length events)
      /\ map predictions (fst (deliver int_of_str raises conditioner_errors events s))
         = repeat 0%nat (List.length events)
      /\ snd (deliver int_of_str raises conditioner_errors events s) = s).
Proof.
  intros Hall Hacc. split.
  - intros Hpm Hfp. destruct Hall as [|[[trigger timestamp] now] rest Hb Hrest].
    + repeat split; [intros H; now elim H | exact Hpm].
    + simpl in Hb. simpl deliver.
      rewrite (write_trigger_first s trigger timestamp now Hb Hacc Hpm Hfp).
      cbn [after calls].
      destruct (deliver_predicting rest (set_first_prediction false s))
        as [H1 [H2 H3]]; [exact Hpm | reflexivity | exact Hacc | exact Hrest |].
      destruct (deliver int_of_str raises conditioner_errors rest (set_first_prediction false s))
        as [cs s'] eqn:E.
      cbn [fst snd] in H1, H2, H3 |- *. subst s'.
      cbn [map List.length skip_first].
      split; [|split; [|split]].
      * now rewrite H1.
      * intros Hg Hf. now rewrite (H2 Hg Hf).
      * reflexivity.
      * exact Hpm.
  - intros Hpm. now apply deliver_not_predicting.
Qed.

(** [set_prediction_mode] touches [prediction_mode] and nothing else. *)
Lemma set_prediction_mode_after (s : Streamer) :
  after (set_prediction_mode raises s)
  = set_prediction_mode_attr (negb (prediction_mode s)) s.
Proof.
  unfold set_prediction_mode, bind, modify, get, invoke, raise; simpl.
  destruct (classifier s); simpl; [|reflexivity].
  collaborators; reflexivity.
Qed.

(** [write_trigger] only ever clears [first_prediction]. *)
Lemma write_trigger_first_prediction
      (trigger : pyval) (timestamp now : Q) (s : Streamer) :
  first_prediction s = false ->
  first_prediction
    (after (write_trigger int_of_str raises conditioner_errors trigger timestamp now s)) = false.
Proof.
  intros Hfp. unfold write_trigger, py_int.
  destruct (is_empty_str trigger); [exact Hfp|].
  destruct (predict_class_run s) as [_ [Ha _]].
  destruct trigger as [z|str];
    [|destruct (int_of_str str) as [z|]; [|exact Hfp]];
    unfold bind, ret, get, invoke, logging, emit, modify;
    cbn -[predict_class Z.eqb];
    (destruct (raises (InsertMarker z)); cbn -[predict_class Z.eqb];
     [exact Hfp|]);
    rewrite Hfp; cbn -[predict_class Z.eqb];
    (destruct (prediction_mode s); [|exact Hfp]);
    (destruct (z =? nclasses s); cbn -[predict_class]; [|exact Hfp]);
    now rewrite Ha.
Qed.

(** No handler sets [first_prediction]: once cleared it stays cleared. *)
Lemma handle_first_prediction (e : event) (s : Streamer) :
  first_prediction s = false ->
  first_prediction (after (handle int_of_str raises conditioner_errors e s)) = false.
Proof.
  intros Hfp. destruct e as [trigger timestamp now|now|now| |]; cbn [handle].
  - now apply write_trigger_first_prediction.
  - exact Hfp.
  - unfold train_classifier, bind, get, logging, emit, invoke, raise; simpl.
    destruct (start_training_time s); simpl; [|exact Hfp].
    collaborators; try exact Hfp;
      destruct (classifier s); simpl; try exact Hfp;
      collaborators; exact Hfp.
  - rewrite set_prediction_mode_after. exact Hfp.
  - exact Hfp.
Qed.

Lemma handle_all_first_prediction (events : list event) (s : Streamer) :
  first_prediction s = false ->
  first_prediction (handle_all int_of_str raises conditioner_errors events s) = false.
Proof.
  revert s. induction events as [|e rest IH]; intros s Hfp; simpl.
  - exact Hfp.
  - apply IH. now apply handle_first_prediction.
Qed.

(** C3, as the code has it.  [set_prediction_mode] flips [prediction_mode]
    and leaves [first_prediction] as it was, so on entering prediction mode
    the flag is true only if it was true before; no handler ever sets it
    back: once the first boundary marker has been skipped, the flag is false
    after every later sequence of events, re-enabling included. *)
Theorem set_prediction_mode_keeps_first_prediction (s : Streamer) :
  prediction_mode (after (set_prediction_mode raises s))
  = negb (prediction_mode s)
  /\ first_prediction (after (set_prediction_mode raises s))
     = first_prediction s
  /\ (forall events : list event,
        first_prediction s = false ->
        first_prediction (handle_all int_of_str raises conditioner_errors events s) = false).
Proof.
  rewrite set_prediction_mode_after. repeat split.
  intros events Hfp. now apply handle_all_first_prediction.
Qed.

(** C9, as the code has it.  An empty trigger is dropped: the call returns
    with the state as it was, no marker inserted, one error logged.  A
    trigger whose value is zero is not rejected: [insert_marker(0)] is called
    on the board.  If the board raises there, the exception leaves
    [write_trigger] with the state as it was; if it returns, the state stays
    as it was when the class count is not zero. *)
Theorem empty_trigger_dropped (s : Streamer) (timestamp now : Q) :
  write_trigger int_of_str raises conditioner_errors (PyStr EmptyString) timestamp now s
  = Run (Returned tt) s [Log ERROR "Trigger value cannot be empty"]
  /\ (forall trigger : pyval,
        is_empty_str trigger = false ->
        marker_value int_of_str trigger = Some 0 ->
        markers (calls (write_trigger int_of_str raises conditioner_errors trigger timestamp now s))
        = [0]
        /\ (forall e : exn,
              raises (InsertMarker 0) = Some e ->
              write_trigger int_of_str raises conditioner_errors trigger timestamp now s
              = Run (Raised e) s [InsertMarker 0])
        /\ (raises (InsertMarker 0) = None -> nclasses s <> 0 ->
            write_trigger int_of_str raises conditioner_errors trigger timestamp now s
            = Run (Returned tt) s [InsertMarker 0])).
Proof.
  split; [reflexivity|].
  intros trigger Hne Hval. unfold write_trigger.
  rewrite Hne, (py_int_value trigger _ Hval).
  destruct (predict_class_run s) as [Hr [Ha [_ [Hm _]]]].
  unfold bind, ret, get, invoke, logging, emit, modify.
  cbn -[predict_class Z.eqb].
  destruct (raises (InsertMarker 0)) as [e|] eqn:Hacc;
    cbn -[predict_class Z.eqb].
  - split; [reflexivity|]. split; [|intros H; discriminate H].
    intros e' He'. now injection He' as ->.
  - split; [|split; [intros e H; discriminate H|]].
    + destruct (prediction_mode s); [|reflexivity].
      destruct (0 =? nclasses s); cbn -[predict_class]; [|reflexivity].
      destruct (first_prediction s); cbn -[predict_class].
      * reflexivity.
      * exact (f_equal (cons 0) Hm).
    + intros _ Hn.
      assert (E : (0 =? nclasses s) = false) by (apply Z.eqb_neq; lia).
      rewrite E. cbn [andb].
      destruct (prediction_mode s); reflexivity.
Qed.

(** C10. The timestamp argument of [write_trigger] has no effect: whatever
    the two timestamps (and whatever the clock reads when the default 0 is
    replaced), the outcome, the session state and the calls made, marker and
    prediction request included, are the same. *)
Theorem timestamp_unobservable
        (trigger : pyval) (timestamp1 timestamp2 now1 now2 : Q) (s : Streamer) :
  write_trigger int_of_str raises conditioner_errors trigger timestamp1 now1 s
  = write_trigger int_of_str raises conditioner_errors trigger timestamp2 now2 s.
Proof.
  unfold write_trigger. destruct (is_empty_str trigger); reflexivity.
Qed.

(** C8. Training pull length.  With a sampling rate [fs >= 0]: after
    [set_train_start] at [t0], [train_classifier] at [t1 > t0] asks the
    board for [floor((t1 - t0 + 1) * fs)] samples; when the pull and the
    conditioning return and the classifier is in place, the samples are
    conditioned and passed to its [train].  Five seconds after the start at
    250 Hz that is 1500 samples. *)
Theorem training_pull_length (s : Streamer) (t0 t1 : Q) :
  (t0 < t1)%Q -> 0 <= sampling_rate s ->
  let r := train_classifier raises conditioner_errors t1 (after (set_train_start t0 s)) in
  let pulled := Qfloor ((t1 - t0 + 1) * inject_Z (sampling_rate s))%Q in
  firstn 2 (calls r)
  = [Log INFO "Training duration"; GetCurrentBoardData pulled]
  /\ (classifier s = true ->
      raises (GetCurrentBoardData pulled) = None ->
      raises FilterDataBuffer = None ->
      raises (ClassifierTrain (over_sample s)) = None ->
      r = Run (Returned tt) (set_start_training_time t0 s)
              ([Log INFO "Training duration"; GetCurrentBoardData pulled;
                FilterDataBuffer]
               ++ map (Log ERROR) conditioner_errors
               ++ [ClassifierTrain (over_sample s)]))
  /\ ((t1 == t0 + 5)%Q -> sampling_rate s = 250 -> pulled = 1500).
Proof.
  intros Hlt Hfs r pulled.
  assert (Hfloor : py_int_Q ((t1 - t0 + 1) * inject_Z (sampling_rate s))%Q
                   = pulled).
  { apply py_int_Q_floor. apply Qmult_le_0_compat.
    - lra.
    - unfold Qle; simpl. lia. }
  split; [|split].
  - unfold r, train_classifier, set_train_start, bind, get, modify, logging,
      emit, invoke, filter_snapshot, raise; simpl. rewrite Hfloor.
    destruct (raises (GetCurrentBoardData pulled)); simpl; [reflexivity|].
    destruct (raises FilterDataBuffer); simpl; [reflexivity|].
    destruct (classifier s); simpl; [|reflexivity].
    destruct (raises (ClassifierTrain (over_sample s))); reflexivity.
  - intros Hc Hg Hf Ht.
    unfold r, train_classifier, set_train_start, bind, get, modify, logging,
      emit, invoke, filter_snapshot; simpl.
    rewrite Hfloor, Hg. simpl. rewrite Hf. simpl.
    rewrite Hc. simpl. rewrite Ht. reflexivity.
  - intros Ht Hr. unfold pulled. rewrite Hr.
    assert (E : ((t1 - t0 + 1) * inject_Z 250 == inject_Z 1500)%Q).
    { rewrite Ht. unfold inject_Z. field. }
    rewrite E. apply Qfloor_Z.
Qed.

End RouterFacts.

(** *** Examples of the router *)

Lemma skip_first_prediction_witness :
  Forall (fun ev => is_boundary decimal_int (nclasses session_predicting)
                      (fst (fst ev)))
         three_boundaries
  /\ never_raises (InsertMarker (nclasses session_predicting)) = None
  /\ prediction_mode session_predicting = true
  /\ first_prediction session_predicting = true
  /\ map requests
       (fst (deliver decimal_int never_raises [] three_boundaries
               session_predicting))
     = [0; 1; 1]%nat
  /\ map predictions
       (fst (deliver decimal_int never_raises [] three_boundaries
               session_predicting))
     = [0; 1; 1]%nat.
Proof.
  assert (H : Forall (fun ev => is_boundary decimal_int
                                 (nclasses session_predicting) (fst (fst ev)))
                     three_boundaries)
    by (repeat constructor).
  pose proof (proj1 (skip_first_prediction decimal_int never_raises []
                       session_predicting three_boundaries H eq_refl)
                    eq_refl eq_refl) as [Hreq [Hsub _]].
  split; [exact H|]. split; [reflexivity|].
  split; [reflexivity|]. split; [reflexivity|].
  split; [exact Hreq | exact (Hsub eq_refl eq_refl)].
Defined.

(** C3 as stated fails: prediction mode is off, [set_prediction_mode]
    switches it on, and [first_prediction] is false afterwards; the next
    boundary marker is not skipped but sends a prediction request. *)
Lemma reenabling_does_not_reset_first_prediction :
  prediction_mode session_stopped_after_skip = false
  /\ prediction_mode
       (after (set_prediction_mode never_raises session_stopped_after_skip))
     = true
  /\ first_prediction
       (after (set_prediction_mode never_raises session_stopped_after_skip))
     = false
  /\ predictions
       (calls (write_trigger decimal_int never_raises [] (PyInt 4) 0 13
                 (after (set_prediction_mode never_raises
                           session_stopped_after_skip))))
     = 1%nat.
Proof. repeat split. Qed.

Lemma set_prediction_mode_keeps_first_prediction_witness :
  first_prediction session_stopped_after_skip = false
  /\ first_prediction
       (handle_all decimal_int never_raises []
          [TogglePredicting; NewSample (PyInt 4) 0 13]
          session_stopped_after_skip) = false.
Proof.
  split; [reflexivity|].
  apply (set_prediction_mode_keeps_first_prediction decimal_int never_raises []
           session_stopped_after_skip).
  reflexivity.
Defined.

(** C9 as stated fails for the zero trigger: it is not dropped.  With a
    board that takes the marker, the marker 0 is inserted; with a board that
    refuses it, [insert_marker(0)] is called all the same and its exception
    leaves [write_trigger]. *)
Lemma zero_trigger_is_inserted :
  write_trigger decimal_int never_raises [] (PyInt 0) 0 10 session_idle
  = Run (Returned tt) session_idle [InsertMarker 0]
  /\ write_trigger decimal_int never_raises [] (PyStr "0") 0 10 session_idle
     = Run (Returned tt) session_idle [InsertMarker 0]
  /\ write_trigger decimal_int refuses_zero_marker [] (PyInt 0) 0 10 session_idle
     = Run (Raised BrainFlowError) session_idle [InsertMarker 0].
Proof. repeat split. Qed.

Lemma empty_trigger_dropped_witness :
  is_empty_str (PyInt 0) = false
  /\ marker_value decimal_int (PyInt 0) = Some 0
  /\ never_raises (InsertMarker 0) = None
  /\ nclasses session_predicting <> 0
  /\ write_trigger decimal_int never_raises [] (PyInt 0) 0 10 session_predicting
     = Run (Returned tt) session_predicting [InsertMarker 0].
Proof.
  assert (Hn : nclasses session_predicting <> 0) by (simpl; lia).
  split; [reflexivity|]. split; [reflexivity|].
  split; [reflexivity|]. split; [exact Hn|].
  exact (proj2 (proj2 (proj2 (empty_trigger_dropped decimal_int never_raises []
                                session_predicting 0 10)
                             (PyInt 0) eq_refl eq_refl))
               eq_refl Hn).
Defined.

Lemma training_pull_length_witness :
  (10 < 15)%Q /\ 0 <= sampling_rate session_idle
  /\ firstn 2 (calls (train_classifier never_raises [] 15
                        (after (set_train_start 10 session_idle))))
     = [Log INFO "Training duration"; GetCurrentBoardData 1500].
Proof.
  assert (H1 : (10 < 15)%Q) by reflexivity.
  assert (H2 : 0 <= sampling_rate session_idle) by (simpl; lia).
  split; [exact H1|]. split; [exact H2|].
  rewrite (proj1 (training_pull_length never_raises [] session_idle 10 15 H1 H2)).
  reflexivity.
Defined.

(** ** QualityScorer *)

Section QualityFacts.

Local Open Scope Q_scope.

(** The loop with its [break] finds what [find] finds. *)
Lemma bucket_first_match (thresholds : list Quality.threshold) (amplitude : Q) :
  Quality.bucket thresholds amplitude
  = Quality.first_match thresholds amplitude.
Proof.
  unfold Quality.bucket, Quality.first_match.
  induction thresholds as [|[[[low high] label] score] rest IH]; simpl.
  - reflexivity.
  - destruct (Qle_bool low amplitude && Qle_bool amplitude high);
      [reflexivity | exact IH].
Qed.

Lemma in_range_spec (amplitude low high : Q) (label : string) (score : Q) :
  Quality.in_range amplitude (low, high, label, score) = true
  <-> low <= amplitude /\ amplitude <= high.
Proof.
  unfold Quality.in_range. rewrite andb_true_iff, !Qle_bool_iff. tauto.
Qed.

Lemma first_match_prefix (pre post : list Quality.threshold)
      (low high : Q) (label : string) (score amplitude : Q) :
  (forall t, In t pre -> Quality.in_range amplitude t = false) ->
  low <= amplitude /\ amplitude <= high ->
  Quality.first_match (pre ++ (low, high, label, score) :: post) amplitude
  = (label, score).
Proof.
  intros Hpre Hin. unfold Quality.first_match.
  induction pre as [|t pre IH]; simpl.
  - apply (in_range_spec amplitude low high label score) in Hin.
    unfold Quality.in_range in Hin. rewrite Hin. reflexivity.
  - rewrite (Hpre t (or_introl eq_refl)).
    apply IH. intros t' Ht'. apply Hpre. now right.
Qed.

Lemma first_match_none (thresholds : list Quality.threshold) (amplitude : Q) :
  (forall t, In t thresholds -> Quality.in_range amplitude t = false) ->
  Quality.first_match thresholds amplitude = ("red"%string, 0).
Proof.
  intros Hnone. unfold Quality.first_match.
  destruct (find (Quality.in_range amplitude) thresholds) as [t|] eqn:E;
    [|reflexivity].
  apply find_some in E. destruct E as [Hin Ht].
  rewrite (Hnone t Hin) in Ht. discriminate.
Qed.

Lemma get_channel_quality_bucket (thresholds : list Quality.threshold)
      (eeg : list Q) (q amplitude : Q) :
  Quality.np_percentile eeg q = Some amplitude ->
  Quality.get_channel_quality thresholds eeg q
  = Some (fst (Quality.bucket thresholds amplitude), amplitude,
          snd (Quality.bucket thresholds amplitude)).
Proof.
  intros Hp. unfold Quality.get_channel_quality. rewrite Hp.
  fold (Quality.bucket thresholds amplitude).
  destruct (Quality.bucket thresholds amplitude); reflexivity.
Qed.

(** C4. Quality bucket lookup is first-match-wins with fallback (red, 0).
    For every threshold table and amplitude, the loop of
    [get_channel_quality] yields the label and score of the first row
    [(low, high, label, score)] with [low <= amplitude <= high], and
    [(red, 0)] when no row matches; these are the label and score the method
    returns next to the amplitude it computed.  With the default table the
    amplitude 0 gives (green, 1.0), -75 gives (yellow, 0.5) and 500 gives
    (red, 0). *)
Theorem quality_first_match_wins
        (thresholds : list Quality.threshold) (amplitude : Q) :
  Quality.bucket thresholds amplitude
  = Quality.first_match thresholds amplitude
  /\ (forall pre post low high label score,
        thresholds = pre ++ (low, high, label, score) :: post ->
        (forall t, In t pre -> Quality.in_range amplitude t = false) ->
        low <= amplitude /\ amplitude <= high ->
        Quality.bucket thresholds amplitude = (label, score))
  /\ ((forall t, In t thresholds -> Quality.in_range amplitude t = false) ->
      Quality.bucket thresholds amplitude = ("red"%string, 0))
  /\ (forall (eeg : list Q) (q : Q),
        Quality.np_percentile eeg q = Some amplitude ->
        Quality.get_channel_quality thresholds eeg q
        = Some (fst (Quality.bucket thresholds amplitude), amplitude,
                snd (Quality.bucket thresholds amplitude)))
  /\ (thresholds = Quality.default_thresholds ->
      (amplitude == 0 ->
       Quality.bucket thresholds amplitude = ("green"%string, 1))
      /\ (amplitude == -(75) ->
          Quality.bucket thresholds amplitude = ("yellow"%string, 1 # 2))
      /\ (amplitude == 500 ->
          Quality.bucket thresholds amplitude = ("red"%string, 0))).
Proof.
  split; [apply bucket_first_match|].
  split; [|split; [|split]].
  - intros pre post low high label score -> Hpre Hin.
    rewrite bucket_first_match. now apply first_match_prefix.
  - rewrite bucket_first_match. apply first_match_none.
  - intros eeg q Hp. now apply get_channel_quality_bucket.
  - rewrite bucket_first_match.
    intros ->. split; [|split]; intros Ha.
    + apply (first_match_prefix [(-(100), -(50), "yellow"%string, 1 # 2)]
               [(50, 100, "yellow"%string, 1 # 2)] (-(50)) 50 "green" 1
               amplitude).
      * intros t [<-|[]]. unfold Quality.in_range.
        apply andb_false_iff. right. apply Qle_bool_false. rewrite Ha. reflexivity.
      * rewrite Ha. split; discriminate.
    + apply (first_match_prefix [] [(-(50), 50, "green"%string, 1);
                                    (50, 100, "yellow"%string, 1 # 2)]
               (-(100)) (-(50)) "yellow" (1 # 2) amplitude).
      * intros t [].
      * rewrite Ha. split; discriminate.
    + apply first_match_none.
      unfold Quality.default_thresholds.
      intros t [<-|[<-|[<-|[]]]]; unfold Quality.in_range;
        apply andb_false_iff; right; apply Qle_bool_false; rewrite Ha;
        reflexivity.
Qed.

(** *** The percentile stays within the samples *)

Lemma insert_sorted_Forall (P : Q -> Prop) (x : Q) (l : list Q) :
  P x -> Forall P l -> Forall P (Quality.insert_sorted x l).
Proof.
  intros Hx Hl. induction Hl as [|y r Hy Hr IH]; simpl.
  - now constructor.
  - destruct (Qle_bool x y); repeat constructor; assumption.
Qed.

Lemma sort_Forall (P : Q -> Prop) (l : list Q) :
  Forall P l -> Forall P (Quality.sort l).
Proof.
  intros Hl. induction Hl as [|x r Hx Hr IH]; simpl.
  - constructor.
  - now apply insert_sorted_Forall.
Qed.

Lemma insert_sorted_length (x : Q) (l : list Q) :
  List.length (Quality.insert_sorted x l) = S (List.length l).
Proof.
  induction l as [|y r IH]; simpl; [reflexivity|].
  destruct (Qle_bool x y); simpl; [reflexivity | now rewrite IH].
Qed.

Lemma sort_length (l : list Q) : List.length (Quality.sort l) = List.length l.
Proof.
  induction l as [|x r IH]; simpl; [reflexivity|].
  now rewrite insert_sorted_length, IH.
Qed.

(** The sort puts the samples in ascending order and keeps them all. *)
Lemma insert_sorted_permutation (x : Q) (l : list Q) :
  Permutation (x :: l) (Quality.insert_sorted x l).
Proof.
  induction l as [|y r IH]; simpl; [reflexivity|].
  destruct (Qle_bool x y); [reflexivity|].
  rewrite perm_swap. now constructor.
Qed.

Lemma sort_permutation (l : list Q) : Permutation l (Quality.sort l).
Proof.
  induction l as [|x r IH]; simpl; [constructor|].
  rewrite <- insert_sorted_permutation. now constructor.
Qed.

Lemma insert_sorted_sorted (x : Q) (l : list Q) :
  StronglySorted Qle l -> StronglySorted Qle (Quality.insert_sorted x l).
Proof.
  intros Hs. induction Hs as [|y r Hr IH Hy]; simpl.
  - repeat constructor.
  - destruct (Qle_bool x y) eqn:E.
    + apply Qle_bool_iff in E. constructor; [now constructor|].
      constructor; [exact E|].
      eapply Forall_impl; [|exact Hy].
      intros z Hz. now apply Qle_trans with y.
    + apply Qle_bool_false in E. constructor; [exact IH|].
      apply insert_sorted_Forall; [now apply Qlt_le_weak | exact Hy].
Qed.

Lemma sort_sorted (l : list Q) : StronglySorted Qle (Quality.sort l).
Proof.
  induction l as [|x r IH]; simpl; [constructor|].
  now apply insert_sorted_sorted.
Qed.

Lemma nth_Forall (P : Q -> Prop) (l : list Q) (i : nat) (d : Q) :
  Forall P l -> (i < List.length l)%nat -> P (nth i l d).
Proof.
  intros Hl. revert i. induction Hl as [|x r Hx Hr IH]; intros i Hi; simpl in *.
  - lia.
  - destruct i as [|j]; [exact Hx | apply IH; lia].
Qed.

(** Linear interpolation between two values stays between the bounds of
    both. *)
Lemma lerp_bounds (lo hi a b g : Q) :
  lo <= a /\ a <= hi -> lo <= b /\ b <= hi -> 0 <= g -> g <= 1 ->
  lo <= a + g * (b - a) /\ a + g * (b - a) <= hi.
Proof. intros [? ?] [? ?] ? ?. split; nra. Qed.

(** The two neighbours of the virtual index are indices of the array. *)
Lemma virtual_index_bounds (n : Z) (q : Q) :
  (1 <= n)%Z -> 0 <= q -> q <= 100 ->
  let virtual_index := inject_Z (n - 1) * (q / 100) in
  (0 <= Qfloor virtual_index <= n - 1)%Z
  /\ 0 <= virtual_index - inject_Z (Qfloor virtual_index)
  /\ virtual_index - inject_Z (Qfloor virtual_index) <= 1.
Proof.
  intros Hn Hq0 Hq100 virtual_index.
  assert (Hn' : 0 <= inject_Z (n - 1)).
  { change 0 with (inject_Z 0). rewrite <- Zle_Qle. lia. }
  assert (Hf0 : 0 <= q / 100) by (apply Qle_shift_div_l; [reflexivity | lra]).
  assert (Hf1 : q / 100 <= 1) by (apply Qle_shift_div_r; [reflexivity | lra]).
  assert (H0 : 0 <= virtual_index) by (unfold virtual_index; nra).
  assert (H1 : virtual_index <= inject_Z (n - 1)) by (unfold virtual_index; nra).
  split; [split|split].
  - change 0%Z with (Qfloor (inject_Z 0)). now apply Qfloor_resp_le.
  - rewrite <- (Qfloor_Z (n - 1)). now apply Qfloor_resp_le.
  - pose proof (Qfloor_le virtual_index). lra.
  - pose proof (Qlt_floor virtual_index) as Hlt.
    rewrite inject_Z_plus in Hlt. change (inject_Z 1) with 1 in Hlt. lra.
Qed.

Lemma linear_percentile_bounds (arr : list Q) (n : Z) (q lo hi : Q) :
  (1 <= n)%Z -> List.length arr = Z.to_nat n ->
  0 <= q -> q <= 100 ->
  Forall (fun x => lo <= x /\ x <= hi) arr ->
  lo <= Quality.linear_percentile arr n q
  /\ Quality.linear_percentile arr n q <= hi.
Proof.
  intros Hn Hlen Hq0 Hq100 Hall.
  destruct (virtual_index_bounds n q Hn Hq0 Hq100) as [[Hp0 Hp1] [Hg0 Hg1]].
  cbv zeta in Hp0, Hp1, Hg0, Hg1.
  unfold Quality.linear_percentile.
  apply lerp_bounds; try assumption.
  - apply (nth_Forall _ _ _ _ Hall). rewrite Hlen. lia.
  - apply (nth_Forall _ _ _ _ Hall). rewrite Hlen. lia.
Qed.

Lemma np_percentile_bounds (eeg : list Q) (q amplitude lo hi : Q) :
  0 <= q -> q <= 100 ->
  Quality.np_percentile eeg q = Some amplitude ->
  Forall (fun x => lo <= x /\ x <= hi) eeg ->
  lo <= amplitude /\ amplitude <= hi.
Proof.
  intros Hq0 Hq100 Hp Hall. unfold Quality.np_percentile in Hp.
  destruct eeg as [|x r]; [discriminate|].
  injection Hp as <-.
  apply linear_percentile_bounds; try assumption.
  - change (1 <= Z.of_nat (S (List.length r)))%Z. lia.
  - exact (eq_trans (sort_length (x :: r)) (eq_sym (Nat2Z.id _))).
  - exact (sort_Forall _ (x :: r) Hall).
Qed.

(** C5, as the code has it.  The amplitude [get_channel_quality] compares
    with the threshold table is [numpy.percentile(eeg, 75)] of the samples
    as they are, sign included: no absolute value is taken.  It is the
    amplitude the method returns, it picks the bucket, and it lies between
    any two bounds of the signed samples (so a channel of negative samples
    has a negative amplitude). *)
Theorem amplitude_is_signed_percentile
        (thresholds : list Quality.threshold) (eeg : list Q) :
  eeg <> [] ->
  exists amplitude : Q,
    Quality.np_percentile eeg 75 = Some amplitude
    /\ Quality.get_channel_quality thresholds eeg 75
       = Some (fst (Quality.bucket thresholds amplitude), amplitude,
               snd (Quality.bucket thresholds amplitude))
    /\ (forall lo hi : Q,
          Forall (fun x => lo <= x /\ x <= hi) eeg ->
          lo <= amplitude /\ amplitude <= hi).
Proof.
  intros Hne.
  destruct (Quality.np_percentile eeg 75) as [amplitude|] eqn:Hp.
  - exists amplitude. split; [reflexivity|]. split.
    + now apply get_channel_quality_bucket.
    + intros lo hi Hall.
      apply (np_percentile_bounds eeg 75 amplitude lo hi); try assumption;
        discriminate.
  - destruct eeg; [now elim Hne | discriminate].
Qed.

End QualityFacts.

(** *** Examples of the quality scorer *)

Lemma quality_first_match_wins_witness :
  Quality.np_percentile [3; 1; 2; 5; 4]%Q 75 = Some (400 # 100)
  /\ (-(50) <= 400 # 100)%Q /\ (400 # 100 <= 50)%Q
  /\ Quality.bucket Quality.default_thresholds (400 # 100)
     = ("green"%string, 1%Q)
  /\ Quality.get_channel_quality Quality.default_thresholds
       [3; 1; 2; 5; 4]%Q 75
     = Some ("green"%string, 400 # 100, 1%Q).
Proof.
  assert (Hp : Quality.np_percentile [3; 1; 2; 5; 4]%Q 75 = Some (400 # 100))
    by reflexivity.
  assert (Hlow : (-(50) <= 400 # 100)%Q) by (unfold Qle; simpl; lia).
  assert (Hhigh : (400 # 100 <= 50)%Q) by (unfold Qle; simpl; lia).
  pose proof (quality_first_match_wins Quality.default_thresholds (400 # 100))
    as [_ [Hfirst [_ [Hget _]]]].
  split; [exact Hp|]. split; [exact Hlow|]. split; [exact Hhigh|]. split.
  - apply (Hfirst [(-(100), -(50), "yellow"%string, 1 # 2)]%Q
                  [(50, 100, "yellow"%string, 1 # 2)]%Q (-(50))%Q 50%Q).
    + reflexivity.
    + intros t [<-|[]]. reflexivity.
    + split; assumption.
  - rewrite (Hget [3; 1; 2; 5; 4]%Q 75%Q Hp). reflexivity.
Defined.

(** C5 as stated fails: on a channel with one large negative sample the
    amplitude the scorer compares is 10 (bucket green), while the 75th
    percentile of the absolute values is 57.5 (bucket yellow). *)
Lemma amplitude_is_not_absolute_percentile :
  Quality.get_channel_quality Quality.default_thresholds
    [-(200); 10; 10; 10]%Q 75
  = Some ("green"%string, 1000 # 100, 1%Q)
  /\ Quality.percentile_of_absolute [-(200); 10; 10; 10]%Q 75
     = Some (5750 # 100)
  /\ ~ (1000 # 100 == 5750 # 100)%Q
  /\ Quality.bucket Quality.default_thresholds (5750 # 100)
     = ("yellow"%string, 1 # 2).
Proof. repeat split. discriminate. Qed.

Lemma amplitude_is_signed_percentile_witness :
  [-(60); -(70); -(80); -(90)]%Q <> []
  /\ exists amplitude : Q,
      Quality.np_percentile [-(60); -(70); -(80); -(90)]%Q 75 = Some amplitude
      /\ (-(90) <= amplitude)%Q /\ (amplitude <= -(60))%Q.
Proof.
  assert (Hne : [-(60); -(70); -(80); -(90)]%Q <> []) by discriminate.
  split; [exact Hne|].
  destruct (amplitude_is_signed_percentile Quality.default_thresholds
              [-(60); -(70); -(80); -(90)]%Q Hne) as [amplitude [Hp [_ Hb]]].
  exists amplitude. split; [exact Hp|].
  apply Hb. repeat constructor; discriminate.
Defined.

(** ** SignalConditioner *)

Section MonadFacts.

Context {W A B : Type}.

Lemma bind_returned (m : M W A) (f : A -> M W B) (w : W) (a : A) :
  result (m w) = Returned a ->
  bind m f w
  = Run (result (f a (after (m w)))) (after (f a (after (m w))))
        (calls (m w) ++ calls (f a (after (m w)))).
Proof. intros H. unfold bind. now rewrite H. Qed.

End MonadFacts.

Lemma set_row_length (data : list (list Q)) (i : nat) (row : list Q) :
  List.length (set_row data i row) = List.length data.
Proof.
  revert i. induction data as [|r rest IH]; intros [|j]; simpl; auto.
Qed.

Lemma nth_error_set_row (data : list (list Q)) (i j : nat) (row : list Q) :
  (i < List.length data)%nat ->
  nth_error (set_row data i row) j
  = if (i =? j)%nat then Some row else nth_error data j.
Proof.
  revert i j. induction data as [|r rest IH]; intros i j Hi; simpl in Hi.
  - lia.
  - destruct i as [|i], j as [|j]; simpl; try reflexivity.
    apply IH. lia.
Qed.


Section MonadResults.

Context {W A B : Type}.

(** A sequence that returned: its first part returned, and the sequence
    ends as its second part does. *)
Lemma bind_result (m : M W A) (f : A -> M W B) (w : W) (b : B) :
  result (bind m f w) = Returned b ->
  exists a : A,
    result (m w) = Returned a
    /\ result (f a (after (m w))) = Returned b
    /\ after (bind m f w) = after (f a (after (m w))).
Proof.
  unfold bind. destruct (result (m w)) as [a|e] eqn:E; cbn.
  - intros H. exists a. repeat split. exact H.
  - discriminate.
Qed.

(** A sequence depends on its first part through its run only. *)
Lemma bind_same_run (m m' : M W A) (f : A -> M W B) (w w' : W) :
  m w = m' w' -> bind m f w = bind m' f w'.
Proof. intros H. unfold bind. now rewrite H. Qed.

Lemma bind_run_raised (m : M W A) (f : A -> M W B) (w w' : W) (e : exn)
      (cs : list call) :
  m w = Run (Raised e) w' cs -> bind m f w = Run (Raised e) w' cs.
Proof. intros H. unfold bind. now rewrite H. Qed.

End MonadResults.

Lemma set_row_same (data : list (list Q)) (i : nat) (row : list Q) :
  nth_error data i = Some row -> set_row data i row = data.
Proof.
  revert i. induction data as [|r rest IH]; intros [|i] H; simpl in *.
  - discriminate.
  - discriminate.
  - now injection H as ->.
  - now rewrite IH.
Qed.

Section ConditionerFacts.

Variable py_float : string -> option Q.
Variable detrend : routine.
Variable perform_bandpass : Z -> Q -> Q -> Z -> routine.
Variable perform_bandstop : Z -> Q -> Q -> Z -> routine.
Variable sampling_rate : Z.

Lemma bandpass_valid_false (start_freq stop_freq : Q) :
  (stop_freq <= start_freq \/ start_freq < 0 \/ stop_freq < 0
   \/ nyquist sampling_rate < start_freq
   \/ nyquist sampling_rate < stop_freq)%Q ->
  bandpass_valid sampling_rate start_freq stop_freq = false.
Proof.
  unfold bandpass_valid.
  intros [H|[H|[H|[H|H]]]].
  - apply Qle_bool_iff in H. rewrite H. reflexivity.
  - apply Qltb_lt in H. rewrite H. simpl. now rewrite andb_false_r.
  - apply Qltb_lt in H. rewrite H, orb_true_r. simpl. now rewrite andb_false_r.
  - apply Qltb_lt in H. rewrite H. simpl. now rewrite andb_false_r.
  - apply Qltb_lt in H. rewrite H, orb_true_r. simpl. now rewrite andb_false_r.
Qed.

(** [apply_bandpass_filter], by what the detrend does, what the bounds are
    and what the filter does. *)
Lemma apply_bandpass_filter_run (d : routine) (start_freq stop_freq : Q)
      (ch_data : list Q) :
  apply_bandpass_filter d perform_bandpass sampling_rate
    start_freq stop_freq ch_data
  = match fst (d ch_data) with
    | Some e => Run (Raised e) (snd (d ch_data)) []
    | None =>
        if bandpass_valid sampling_rate start_freq stop_freq
        then guarded (perform_bandpass sampling_rate start_freq stop_freq 4
                        (snd (d ch_data)))
        else Run (Returned tt) (snd (d ch_data))
                 [Log ERROR (refusal start_freq stop_freq)]
    end.
Proof.
  unfold apply_bandpass_filter, bandpass_valid, refusal, guarded, bind,
    call_routine, logging, emit, try_except.
  cbn [result after calls app].
  destruct (fst (d ch_data)) as [e|]; [reflexivity|].
  destruct (Qle_bool stop_freq start_freq); cbn; [reflexivity|].
  destruct (Qltb start_freq 0 || Qltb stop_freq 0); cbn; [reflexivity|].
  destruct (Qltb (nyquist sampling_rate) start_freq
            || Qltb (nyquist sampling_rate) stop_freq); cbn; [reflexivity|].
  destruct (fst (perform_bandpass sampling_rate start_freq stop_freq 4
                   (snd (d ch_data)))) as [[]|]; reflexivity.
Qed.

(** C6, as the code has it.  For bounds with [start_freq >= stop_freq], or
    one of them negative, or one of them above half the sampling rate,
    [apply_bandpass_filter] does two things: it calls the detrend on the
    channel, and, if that call returns, it logs one error and returns.  If
    the detrend raises, its exception leaves the method and nothing is
    logged.  Either way the channel holds what the detrend left in it, and
    the band-pass filter has no part in the outcome. *)
Theorem invalid_bandpass_only_detrends
        (start_freq stop_freq : Q) (ch_data : list Q) :
  (stop_freq <= start_freq \/ start_freq < 0 \/ stop_freq < 0
   \/ nyquist sampling_rate < start_freq
   \/ nyquist sampling_rate < stop_freq)%Q ->
  apply_bandpass_filter detrend perform_bandpass sampling_rate
    start_freq stop_freq ch_data
  = match fst (detrend ch_data) with
    | None =>
        Run (Returned tt) (snd (detrend ch_data))
            [Log ERROR (refusal start_freq stop_freq)]
    | Some e => Run (Raised e) (snd (detrend ch_data)) []
    end.
Proof.
  intros Hbad. rewrite apply_bandpass_filter_run.
  rewrite (bandpass_valid_false start_freq stop_freq Hbad).
  destruct (fst (detrend ch_data)); reflexivity.
Qed.

(** Reading a band-pass box. *)
Lemma box_read (text : string) (ch_data : list Q) :
  float_or_zero py_float text ch_data
  = match box_value py_float text with
    | Some x => Run (Returned x) ch_data []
    | None => Run (Raised ValueError) ch_data []
    end.
Proof.
  unfold float_or_zero, float_of.
  destruct text as [|c r]; simpl; [reflexivity|].
  destruct (py_float (String c r)); reflexivity.
Qed.

(** The band-pass part of the loop body. *)
Lemma bandpass_part_run (gui : Gui) (d : routine) (ch_data : list Q) :
  bind (float_or_zero py_float (bandpass_box_low gui))
       (fun start_freq =>
          bind (float_or_zero py_float (bandpass_box_high gui))
               (fun stop_freq =>
                  apply_bandpass_filter d perform_bandpass sampling_rate
                    start_freq stop_freq)) ch_data
  = match box_value py_float (bandpass_box_low gui),
          box_value py_float (bandpass_box_high gui) with
    | Some start_freq, Some stop_freq =>
        apply_bandpass_filter d perform_bandpass sampling_rate
          start_freq stop_freq ch_data
    | _, _ => Run (Raised ValueError) ch_data []
    end.
Proof.
  unfold bind. rewrite box_read.
  destruct (box_value py_float (bandpass_box_low gui)) as [start_freq|];
    [|reflexivity].
  cbn [result after calls app]. rewrite ?box_read.
  destruct (box_value py_float (bandpass_box_high gui)) as [stop_freq|];
    [|reflexivity].
  cbn [result after calls app].
  destruct (apply_bandpass_filter d perform_bandpass sampling_rate
              start_freq stop_freq ch_data); reflexivity.
Qed.

(** The loop body is its band-pass part followed by the notch stage. *)
Lemma filter_channel_parts (gui : Gui) (d : routine) :
  filter_channel py_float d perform_bandpass perform_bandstop sampling_rate gui
  = bind (if bandpass_checkbox gui then
            bind (float_or_zero py_float (bandpass_box_low gui))
                 (fun start_freq =>
                    bind (float_or_zero py_float (bandpass_box_high gui))
                         (fun stop_freq =>
                            apply_bandpass_filter d perform_bandpass
                              sampling_rate start_freq stop_freq))
          else ret tt)
         (fun _ => notch_stage py_float perform_bandstop sampling_rate gui).
Proof. reflexivity. Qed.

(** With the band-pass box unchecked the loop body never calls the
    detrend: it is the same for every detrend routine. *)
Lemma filter_channel_unchecked (gui : Gui) (other : routine) :
  bandpass_checkbox gui = false ->
  filter_channel py_float other perform_bandpass perform_bandstop
    sampling_rate gui
  = filter_channel py_float detrend perform_bandpass perform_bandstop
      sampling_rate gui.
Proof. intros Hb. rewrite !filter_channel_parts, Hb. reflexivity. Qed.

(** With the band-pass box checked and its boxes read, the detrend is the
    first call on the channel: what follows is the loop body without it, on
    the vector the detrend left. *)
Lemma filter_channel_detrends_first
      (gui : Gui) (start_freq stop_freq : Q) (ch_data : list Q) :
  bandpass_checkbox gui = true ->
  box_value py_float (bandpass_box_low gui) = Some start_freq ->
  box_value py_float (bandpass_box_high gui) = Some stop_freq ->
  filter_channel py_float detrend perform_bandpass perform_bandstop
    sampling_rate gui ch_data
  = match fst (detrend ch_data) with
    | Some e => Run (Raised e) (snd (detrend ch_data)) []
    | None =>
        filter_channel py_float untouched perform_bandpass perform_bandstop
          sampling_rate gui (snd (detrend ch_data))
    end.
Proof.
  intros Hb El Eh. rewrite !filter_channel_parts, Hb.
  destruct (fst (detrend ch_data)) as [e|] eqn:Ed.
  - apply bind_run_raised.
    rewrite bandpass_part_run, El, Eh, apply_bandpass_filter_run, Ed.
    reflexivity.
  - apply bind_same_run.
    rewrite !bandpass_part_run, El, Eh, !apply_bandpass_filter_run, Ed.
    reflexivity.
Qed.

(** A loop body that returned has left the conditioned vector. *)
Lemma filter_channel_returned (gui : Gui) (ch_data : list Q) :
  result (filter_channel py_float detrend perform_bandpass perform_bandstop
            sampling_rate gui ch_data) = Returned tt ->
  after (filter_channel py_float detrend perform_bandpass perform_bandstop
           sampling_rate gui ch_data)
  = conditioned py_float detrend perform_bandpass perform_bandstop
      sampling_rate gui ch_data.
Proof.
  rewrite filter_channel_parts. intros H.
  apply bind_result in H. destruct H as [u [Hm [_ Ha]]].
  rewrite Ha. unfold conditioned. f_equal. f_equal.
  destruct (bandpass_checkbox gui); [|reflexivity].
  rewrite bandpass_part_run in Hm |- *.
  destruct (box_value py_float (bandpass_box_low gui)) as [start_freq|];
    [|discriminate Hm].
  destruct (box_value py_float (bandpass_box_high gui)) as [stop_freq|];
    [|discriminate Hm].
  rewrite apply_bandpass_filter_run in Hm |- *. unfold band_stage.
  destruct (fst (detrend ch_data)); [discriminate Hm|].
  destruct (bandpass_valid sampling_rate start_freq stop_freq);
    [|reflexivity].
  unfold guarded in *.
  destruct (fst (perform_bandpass sampling_rate start_freq stop_freq 4
                   (snd (detrend ch_data)))) as [e|]; [|reflexivity].
  destruct (is_ValueError e); [reflexivity | discriminate Hm].
Qed.

(** One turn of the loop of [filter_data_buffer] that returned. *)
Lemma filter_row_returned (start_eeg end_eeg count : nat) (gui : Gui)
      (data : list (list Q)) :
  result (filter_row py_float detrend perform_bandpass perform_bandstop
            sampling_rate start_eeg end_eeg gui count data) = Returned tt ->
  exists ch_data,
    nth_error data (start_eeg + count) = Some ch_data
    /\ after (filter_row py_float detrend perform_bandpass perform_bandstop
                sampling_rate start_eeg end_eeg gui count data)
       = set_row data (start_eeg + count)
           (conditioned py_float detrend perform_bandpass perform_bandstop
              sampling_rate gui ch_data).
Proof.
  unfold filter_row, bind, get, raise. cbn [result after calls].
  destruct (count <? eeg_rows start_eeg end_eeg data)%nat;
    [|discriminate].
  unfold on_row.
  destruct (nth_error data (start_eeg + count)) as [ch_data|];
    [|discriminate].
  cbn [result after calls]. intros H. exists ch_data.
  split; [reflexivity|]. f_equal. now apply filter_channel_returned.
Qed.

(** The loop over the channels [k, k + n), when it returned. *)
Lemma for_each_returned (start_eeg end_eeg : nat) (gui : Gui) (n : nat) :
  forall (k : nat) (data : list (list Q)),
    let r := for_each (seq k n)
               (filter_row py_float detrend perform_bandpass perform_bandstop
                  sampling_rate start_eeg end_eeg gui) data in
    result r = Returned tt ->
    List.length (after r) = List.length data
    /\ forall i : nat,
        nth_error (after r) i
        = if ((start_eeg + k <=? i) && (i <? start_eeg + k + n))%nat
          then option_map (conditioned py_float detrend perform_bandpass
                             perform_bandstop sampling_rate gui)
                          (nth_error data i)
          else nth_error data i.
Proof.
  induction n as [|n IH]; intros k data r Hr.
  - subst r. simpl. split; [reflexivity|]. intros i.
    destruct (Nat.leb_spec (start_eeg + k) i),
             (Nat.ltb_spec i (start_eeg + k + 0));
      simpl; try reflexivity; lia.
  - subst r. cbn [seq for_each] in Hr |- *.
    apply bind_result in Hr. destruct Hr as [[] [Hrow [Hrest Ha]]].
    destruct (filter_row_returned start_eeg end_eeg k gui data Hrow)
      as [ch_data [Hch Hafter]].
    rewrite Ha. rewrite Hafter in Hrest |- *.
    set (data' := set_row data (start_eeg + k)
                    (conditioned py_float detrend perform_bandpass
                       perform_bandstop sampling_rate gui ch_data)) in *.
    assert (Hlen : List.length data' = List.length data)
      by apply set_row_length.
    assert (Hin : (start_eeg + k < List.length data)%nat)
      by (apply nth_error_Some; now rewrite Hch).
    destruct (IH (S k) data' Hrest) as [IHl IHn].
    split; [now rewrite IHl|].
    intros i. rewrite IHn. unfold data'.
    rewrite nth_error_set_row by exact Hin.
    destruct (Nat.eqb_spec (start_eeg + k) i) as [<-|Hne].
    + rewrite Hch.
      destruct (Nat.leb_spec (start_eeg + S k) (start_eeg + k)),
               (Nat.ltb_spec (start_eeg + k) (start_eeg + S k + n)),
               (Nat.leb_spec (start_eeg + k) (start_eeg + k)),
               (Nat.ltb_spec (start_eeg + k) (start_eeg + k + S n));
        simpl; try reflexivity; lia.
    + destruct (Nat.leb_spec (start_eeg + S k) i),
               (Nat.ltb_spec i (start_eeg + S k + n)),
               (Nat.leb_spec (start_eeg + k) i),
               (Nat.ltb_spec i (start_eeg + k + S n));
        simpl; try reflexivity; lia.
Qed.

(** With both boxes unchecked the loop leaves the snapshot as it is,
    however it ends. *)
Lemma for_each_unchecked (start_eeg end_eeg : nat) (gui : Gui)
      (counts : list nat) :
  bandpass_checkbox gui = false -> notch_checkbox gui = false ->
  forall data : list (list Q),
    after (for_each counts
             (filter_row py_float detrend perform_bandpass perform_bandstop
                sampling_rate start_eeg end_eeg gui) data) = data.
Proof.
  intros Hb Hn.
  assert (Hrow : forall count data,
             after (filter_row py_float detrend perform_bandpass
                      perform_bandstop sampling_rate start_eeg end_eeg gui
                      count data) = data).
  { intros count data. unfold filter_row, bind, get, raise.
    cbn [result after calls].
    destruct (count <? eeg_rows start_eeg end_eeg data)%nat; [|reflexivity].
    unfold on_row.
    destruct (nth_error data (start_eeg + count)) as [ch_data|] eqn:E;
      [|reflexivity].
    rewrite filter_channel_parts, Hb. unfold notch_stage. rewrite Hn.
    cbn. now apply set_row_same. }
  induction counts as [|count rest IH]; intros data; [reflexivity|].
  cbn [for_each]. unfold bind.
  destruct (result (filter_row py_float detrend perform_bandpass
                      perform_bandstop sampling_rate start_eeg end_eeg gui
                      count data)); cbn [after]; rewrite ?IH; apply Hrow.
Qed.

(** One turn of the loop touches no row but its own, however it ends. *)
Lemma filter_row_other_rows (start_eeg end_eeg count : nat) (gui : Gui)
      (data : list (list Q)) (i : nat) :
  i <> (start_eeg + count)%nat ->
  nth_error (after (filter_row py_float detrend perform_bandpass
                      perform_bandstop sampling_rate start_eeg end_eeg gui
                      count data)) i
  = nth_error data i.
Proof.
  intros Hi. unfold filter_row, bind, get, raise. cbn [result after calls].
  destruct (count <? eeg_rows start_eeg end_eeg data)%nat; [|reflexivity].
  unfold on_row.
  destruct (nth_error data (start_eeg + count)) as [ch_data|] eqn:E;
    [|reflexivity].
  cbn [result after calls].
  rewrite nth_error_set_row by (apply nth_error_Some; now rewrite E).
  destruct (Nat.eqb_spec (start_eeg + count) i); [now subst | reflexivity].
Qed.

(** The loop over the channels [k, k + n), when it raised: it stopped at
    one channel [c]; the channels before [c] are conditioned, the rows
    after it are as they were. *)
Lemma for_each_raised (start_eeg end_eeg : nat) (gui : Gui) (n : nat) :
  forall (k : nat) (data : list (list Q)) (e : exn),
    let r := for_each (seq k n)
               (filter_row py_float detrend perform_bandpass perform_bandstop
                  sampling_rate start_eeg end_eeg gui) data in
    result r = Raised e ->
    exists c : nat,
      (k <= c < k + n)%nat
      /\ result (filter_row py_float detrend perform_bandpass
                   perform_bandstop sampling_rate start_eeg end_eeg gui c
                   (after (for_each (seq k (c - k))
                             (filter_row py_float detrend perform_bandpass
                                perform_bandstop sampling_rate start_eeg
                                end_eeg gui) data)))
         = Raised e
      /\ forall i : nat,
          i <> (start_eeg + c)%nat ->
          nth_error (after r) i
          = if ((start_eeg + k <=? i) && (i <? start_eeg + c))%nat
            then option_map (conditioned py_float detrend perform_bandpass
                               perform_bandstop sampling_rate gui)
                            (nth_error data i)
            else nth_error data i.
Proof.
  induction n as [|n IH]; intros k data e r Hr; subst r.
  - discriminate Hr.
  - cbn [seq for_each] in Hr |- *.
    set (body := filter_row py_float detrend perform_bandpass perform_bandstop
                   sampling_rate start_eeg end_eeg gui) in *.
    destruct (result (body k data)) as [[]|e'] eqn:Hrow.
    + rewrite (bind_returned (body k) _ data tt Hrow) in Hr |- *.
      cbn [result after] in Hr |- *.
      destruct (filter_row_returned start_eeg end_eeg k gui data Hrow)
        as [ch_data [Hch Hafter]].
      fold body in Hafter.
      destruct (IH (S k) (after (body k data)) e Hr) as [c [Hc [Hstop Hrows]]].
      exists c. split; [lia|]. split.
      * replace (c - k)%nat with (S (c - S k)) by lia.
        cbn [seq for_each].
        rewrite (bind_returned (body k) _ data tt Hrow). cbn [after].
        exact Hstop.
      * intros i Hi. rewrite (Hrows i Hi). rewrite Hafter.
        rewrite nth_error_set_row
          by (apply nth_error_Some; now rewrite Hch).
        destruct (Nat.eqb_spec (start_eeg + k) i) as [<-|Hne].
        -- rewrite Hch.
           destruct (Nat.leb_spec (start_eeg + S k) (start_eeg + k)),
                    (Nat.ltb_spec (start_eeg + k) (start_eeg + c)),
                    (Nat.leb_spec (start_eeg + k) (start_eeg + k));
             simpl; try reflexivity; lia.
        -- destruct (Nat.leb_spec (start_eeg + S k) i),
                    (Nat.ltb_spec i (start_eeg + c)),
                    (Nat.leb_spec (start_eeg + k) i);
             simpl; try reflexivity; lia.
    + assert (Hrun : bind (body k)
                       (fun _ => for_each (seq (S k) n) body) data
                     = Run (Raised e') (after (body k data))
                           (calls (body k data))).
      { unfold bind. now rewrite Hrow. }
      rewrite Hrun in Hr |- *. cbn [result after] in Hr |- *.
      injection Hr as ->.
      exists k. split; [lia|]. split.
      * rewrite Nat.sub_diag. exact Hrow.
      * intros i Hi. unfold body.
        rewrite (filter_row_other_rows start_eeg end_eeg k gui data i Hi).
        destruct (Nat.leb_spec (start_eeg + k) i),
                 (Nat.ltb_spec i (start_eeg + k));
          simpl; try reflexivity; lia.
Qed.

Lemma nth_error_same (data data' : list (list Q)) :
  (forall i : nat, nth_error data' i = nth_error data i) -> data' = data.
Proof.
  revert data'. induction data as [|r rest IH]; intros [|r' rest'] H.
  - reflexivity.
  - specialize (H 0%nat). discriminate.
  - specialize (H 0%nat). discriminate.
  - f_equal.
    + specialize (H 0%nat). now injection H.
    + apply IH. intros i. exact (H (S i)).
Qed.

(** C7, as the code has it.  The detrend belongs to
    [apply_bandpass_filter], which [filter_data_buffer] calls on a channel
    only when the band-pass box is checked.  With the box unchecked the
    call never reaches the detrend: it runs the same for every detrend
    routine.  With the box checked and its two texts read, the detrend is
    the first thing done to each channel the loop reaches; if it raises,
    the exception leaves the loop body at once, and otherwise the rest of
    the body works on what the detrend left.  The loop stops at the first
    exception, at some channel [c]: the channels before [c] hold their
    conditioned vector and every row after [c] is as it was read.  When the
    call returns, every EEG row holds its conditioned vector and the other
    rows are untouched: with band-pass checked that vector is what the
    detrend left, band-passed if the bounds are valid, then put through the
    notch stage; with band-pass unchecked it is the input put through the
    notch stage only, and with both stages unchecked the snapshot is left
    as it was. *)
Theorem detrend_follows_bandpass_checkbox
        (gui : Gui) (start_eeg end_eeg n_channels : nat) (data : list (list Q)) :
  let run := fun d : routine =>
               filter_data_buffer py_float d perform_bandpass perform_bandstop
                 sampling_rate start_eeg end_eeg n_channels gui data in
  let body := fun d : routine =>
                filter_channel py_float d perform_bandpass perform_bandstop
                  sampling_rate gui in
  let conditioned := conditioned py_float detrend perform_bandpass
                       perform_bandstop sampling_rate gui in
  (bandpass_checkbox gui = false ->
   forall other : routine, run other = run detrend)
  /\ (bandpass_checkbox gui = true ->
      forall (ch_data : list Q) (start_freq stop_freq : Q),
        box_value py_float (bandpass_box_low gui) = Some start_freq ->
        box_value py_float (bandpass_box_high gui) = Some stop_freq ->
        body detrend ch_data
        = match fst (detrend ch_data) with
          | Some e => Run (Raised e) (snd (detrend ch_data)) []
          | None => body untouched (snd (detrend ch_data))
          end)
  /\ (result (run detrend) = Returned tt ->
      forall i : nat,
        nth_error (after (run detrend)) i
        = if ((start_eeg <=? i) && (i <? start_eeg + n_channels))%nat
          then option_map conditioned (nth_error data i)
          else nth_error data i)
  /\ (bandpass_checkbox gui = true ->
      forall (ch_data : list Q) (start_freq stop_freq : Q),
        box_value py_float (bandpass_box_low gui) = Some start_freq ->
        box_value py_float (bandpass_box_high gui) = Some stop_freq ->
        conditioned ch_data
        = after (notch_stage py_float perform_bandstop sampling_rate gui
                   (band_stage perform_bandpass sampling_rate
                      start_freq stop_freq (snd (detrend ch_data)))))
  /\ (bandpass_checkbox gui = false ->
      forall ch_data : list Q,
        conditioned ch_data
        = after (notch_stage py_float perform_bandstop sampling_rate gui ch_data))
  /\ (bandpass_checkbox gui = false -> notch_checkbox gui = false ->
      after (run detrend) = data)
  /\ (forall e : exn,
        result (run detrend) = Raised e ->
        exists c : nat,
          (c < n_channels)%nat
          /\ forall i : nat,
              i <> (start_eeg + c)%nat ->
              nth_error (after (run detrend)) i
              = if ((start_eeg <=? i) && (i <? start_eeg + c))%nat
                then option_map conditioned (nth_error data i)
                else nth_error data i).
Proof.
  intros run body cond.
  split; [|split; [|split; [|split; [|split; [|split]]]]].
  - intros Hb other. unfold run, filter_data_buffer, filter_row.
    now rewrite (filter_channel_unchecked gui other Hb).
  - intros Hb ch_data start_freq stop_freq El Eh.
    exact (filter_channel_detrends_first gui start_freq stop_freq ch_data
             Hb El Eh).
  - intros Hr i.
    destruct (for_each_returned start_eeg end_eeg gui n_channels 0%nat data Hr)
      as [_ Hn].
    rewrite Nat.add_0_r in Hn. exact (Hn i).
  - intros Hb ch_data start_freq stop_freq El Eh.
    unfold cond, conditioned. now rewrite Hb, El, Eh.
  - intros Hb ch_data. unfold cond, conditioned. now rewrite Hb.
  - intros Hb Hnotch.
    exact (for_each_unchecked start_eeg end_eeg gui (seq 0 n_channels)
             Hb Hnotch data).
  - intros e Hr.
    destruct (for_each_raised start_eeg end_eeg gui n_channels 0%nat data e Hr)
      as [c [Hc [_ Hrows]]].
    exists c. split; [lia|].
    intros i Hi. rewrite Nat.add_0_r in Hrows. exact (Hrows i Hi).
Qed.

End ConditionerFacts.

(** *** Examples of the conditioner *)

(** C6 as stated fails: with the bounds in the wrong order, or with one
    above half the sampling rate, the channel does not keep its input. *)
Lemma invalid_bandpass_still_detrends :
  ~ same_samples
      (after (apply_bandpass_filter detrend_constant no_filter 250 40 1
                [1; 3]%Q))
      [1; 3]%Q
  /\ ~ same_samples
        (after (apply_bandpass_filter detrend_constant no_filter 250 1 200
                  [1; 3]%Q))
        [1; 3]%Q.
Proof.
  split; intros H; inversion H as [|x y l l' Hq Hrest]; subst;
    vm_compute in Hq; discriminate.
Qed.

(** Bounds in the wrong order on a channel of two samples, and on a channel
    without samples, which the detrend refuses. *)
Lemma invalid_bandpass_only_detrends_witness :
  (1 <= 40)%Q
  /\ apply_bandpass_filter detrend_constant no_filter 250 40 1 [1; 3]%Q
     = Run (Returned tt) (snd (detrend_constant [1; 3]%Q))
           [Log ERROR "Start frequency should be less than stop frequency"]
  /\ apply_bandpass_filter detrend_constant no_filter 250 40 1 []
     = Run (Raised BrainFlowError) [] [].
Proof.
  assert (H : (1 <= 40)%Q) by (unfold Qle; simpl; lia).
  split; [exact H|]. split.
  - exact (invalid_bandpass_only_detrends detrend_constant no_filter 250 40 1
             [1; 3]%Q (or_introl H)).
  - exact (invalid_bandpass_only_detrends detrend_constant no_filter 250 40 1
             [] (or_introl H)).
Defined.

(** C7 as stated fails: with the band-pass box unchecked the snapshot
    leaves [filter_data_buffer] as it came, and that is not its detrended
    form. *)
Lemma unchecked_bandpass_skips_detrend :
  filter_data_buffer decimal_float detrend_constant no_filter no_filter 250
    0 1 1 gui_unchecked [[1; 3]%Q]
  = Run (Returned tt) [[1; 3]%Q] []
  /\ ~ same_samples [1; 3]%Q (snd (detrend_constant [1; 3]%Q)).
Proof.
  split; [reflexivity|].
  intros H; inversion H as [|x y l l' Hq Hrest]; subst.
  vm_compute in Hq. discriminate.
Qed.

(** Band-pass checked with bounds in the wrong order: the call returns and
    both EEG rows are detrended; with a notch text that is no number the
    first channel is detrended, [ValueError] leaves the call and the
    second channel is as it was read. *)
Lemma detrend_follows_bandpass_checkbox_witness :
  result (filter_data_buffer decimal_float detrend_constant no_filter
            no_filter 250 1 3 2 gui_bandpass_reversed
            [[7]; [1; 3]; [2; 6]; [9]]%Q) = Returned tt
  /\ after (filter_data_buffer decimal_float detrend_constant no_filter
              no_filter 250 1 3 2 gui_bandpass_reversed
              [[7]; [1; 3]; [2; 6]; [9]]%Q)
     = [ [7]%Q; snd (detrend_constant [1; 3]%Q);
         snd (detrend_constant [2; 6]%Q); [9]%Q ]
  /\ filter_data_buffer decimal_float detrend_constant no_filter no_filter
       250 0 2 2 gui_notch_unreadable [[1; 3]; [2; 6]]%Q
     = Run (Raised ValueError)
           [snd (detrend_constant [1; 3]%Q); [2; 6]%Q]
           [Log ERROR "Start frequency should be less than stop frequency"].
Proof.
  assert (Hr : result (filter_data_buffer decimal_float detrend_constant
                         no_filter no_filter 250 1 3 2 gui_bandpass_reversed
                         [[7]; [1; 3]; [2; 6]; [9]]%Q) = Returned tt)
    by reflexivity.
  split; [exact Hr|]. split; [|reflexivity].
  apply nth_error_same. intros i.
  rewrite (proj1 (proj2 (proj2 (detrend_follows_bandpass_checkbox
                                  decimal_float detrend_constant no_filter
                                  no_filter 250 gui_bandpass_reversed 1 3 2
                                  [[7]; [1; 3]; [2; 6]; [9]]%Q))) Hr i).
  destruct i as [|[|[|[|i]]]]; reflexivity.
Defined.

(** * Further properties *)

(** ** TriggerRouter, beyond the boundary markers *)

Section RouterMore.

Variable int_of_str : string -> option Z.
Variable raises : call -> option exn.
Variable conditioner_errors : list string.

Lemma is_boundaryb_true (n : Z) (trigger : pyval) :
  is_boundaryb int_of_str n trigger = true ->
  is_boundary int_of_str n trigger.
Proof.
  unfold is_boundaryb, is_boundary. intros H.
  apply andb_true_iff in H. destruct H as [H1 H2].
  apply negb_true_iff in H1. split; [exact H1|].
  destruct (marker_value int_of_str trigger) as [v|]; [|discriminate].
  apply Z.eqb_eq in H2. now subst.
Qed.

Lemma write_trigger_other
      (s : Streamer) (trigger : pyval) (v : Z) (timestamp now : Q) :
  is_empty_str trigger = false ->
  marker_value int_of_str trigger = Some v ->
  v <> nclasses s ->
  raises (InsertMarker v) = None ->
  write_trigger int_of_str raises conditioner_errors trigger timestamp now s
  = Run (Returned tt) s [InsertMarker v].
Proof.
  intros Hne Hval Hv Hacc. unfold write_trigger.
  rewrite Hne, (py_int_value int_of_str trigger _ Hval).
  unfold bind, ret, get, invoke, logging, emit, modify.
  cbn -[predict_class Z.eqb]. rewrite Hacc. cbn -[predict_class Z.eqb].
  assert (E : (v =? nclasses s) = false) by (now apply Z.eqb_neq).
  rewrite E. cbn [andb]. destruct (prediction_mode s); reflexivity.
Qed.

(** A marker with a value other than the class count is handed to the
    board and nothing else happens, in or out of prediction mode. *)
Theorem other_marker_only_recorded
        (s : Streamer) (trigger : pyval) (v : Z) (timestamp now : Q) :
  is_empty_str trigger = false ->
  marker_value int_of_str trigger = Some v ->
  v <> nclasses s ->
  raises (InsertMarker v) = None ->
  write_trigger int_of_str raises conditioner_errors trigger timestamp now s
  = Run (Returned tt) s [InsertMarker v].
Proof. exact (write_trigger_other s trigger v timestamp now). Qed.

(** Whatever the trigger and whatever the collaborators do, the markers
    [write_trigger] hands to the board are the one marker the trigger
    stands for: none for an empty or unreadable trigger, its value once
    otherwise. *)
Theorem marker_recorded_once
        (s : Streamer) (trigger : pyval) (timestamp now : Q) :
  markers (calls (write_trigger int_of_str raises conditioner_errors trigger timestamp now s))
  = marker_of int_of_str trigger.
Proof.
  unfold write_trigger, marker_of.
  destruct (is_empty_str trigger); [reflexivity|].
  destruct (predict_class_run raises conditioner_errors s) as [_ [_ [_ [Hm _]]]].
  unfold py_int, marker_value.
  destruct trigger as [z|str];
    [|destruct (int_of_str str) as [z|]; [|reflexivity]];
    unfold bind, ret, get, invoke, logging, emit, modify;
    cbn -[predict_class Z.eqb];
    (destruct (raises (InsertMarker z)); cbn -[predict_class Z.eqb];
     [reflexivity|]);
    (destruct (prediction_mode s); [|reflexivity]);
    (destruct (z =? nclasses s); cbn -[predict_class]; [|reflexivity]);
    (destruct (first_prediction s); cbn -[predict_class];
     [reflexivity | exact (f_equal (cons z) Hm)]).
Qed.

Lemma write_trigger_after
      (s : Streamer) (trigger : pyval) (timestamp now : Q) :
  after (write_trigger int_of_str raises conditioner_errors trigger timestamp now s) = s
  \/ after (write_trigger int_of_str raises conditioner_errors trigger timestamp now s)
     = set_first_prediction false s.
Proof.
  unfold write_trigger.
  destruct (is_empty_str trigger); [now left|].
  destruct (predict_class_run raises conditioner_errors s) as [_ [Ha _]].
  unfold py_int.
  destruct trigger as [z|str];
    [|destruct (int_of_str str) as [z|]; [|now left]];
    unfold bind, ret, get, invoke, logging, emit, modify;
    cbn -[predict_class Z.eqb];
    (destruct (raises (InsertMarker z)); cbn -[predict_class Z.eqb];
     [now left|]);
    (destruct (prediction_mode s); [|now left]);
    (destruct (z =? nclasses s); cbn -[predict_class]; [|now left]);
    (destruct (first_prediction s); cbn -[predict_class];
     [now right | now left]).
Qed.

(** [write_trigger] changes nothing of the session but the
    [first_prediction] flag, which it can only clear. *)
Theorem write_trigger_frame
        (s : Streamer) (trigger : pyval) (timestamp now : Q) :
  after (write_trigger int_of_str raises conditioner_errors trigger timestamp now s) = s
  \/ after (write_trigger int_of_str raises conditioner_errors trigger timestamp now s)
     = set_first_prediction false s.
Proof. exact (write_trigger_after s trigger timestamp now). Qed.

(** One delivery, by what the trigger is. *)
Lemma write_trigger_step (s : Streamer) (trigger : pyval) (timestamp now : Q) :
  (forall v, raises (InsertMarker v) = None) ->
  let r := write_trigger int_of_str raises conditioner_errors trigger timestamp now s in
  if is_boundaryb int_of_str (nclasses s) trigger then
    requests (calls r)
    = (if prediction_mode s && negb (first_prediction s) then 1 else 0)%nat
    /\ after r = (if prediction_mode s && first_prediction s
                  then set_first_prediction false s else s)
  else requests (calls r) = 0%nat /\ after r = s.
Proof.
  intros Hacc r.
  destruct (is_boundaryb int_of_str (nclasses s) trigger) eqn:Hb.
  - apply is_boundaryb_true in Hb. unfold r.
    destruct (prediction_mode s) eqn:Hpm.
    + destruct (first_prediction s) eqn:Hfp.
      * rewrite (write_trigger_first int_of_str raises conditioner_errors s trigger timestamp now
                   Hb (Hacc _) Hpm Hfp). split; reflexivity.
      * rewrite (write_trigger_later int_of_str raises conditioner_errors s trigger timestamp now
                   Hb (Hacc _) Hpm Hfp).
        destruct (predict_class_run raises conditioner_errors s) as [_ [_ [Hreq _]]].
        split; [exact Hreq | reflexivity].
    + rewrite (write_trigger_off int_of_str raises conditioner_errors s trigger timestamp now
                 Hb (Hacc _) Hpm). split; reflexivity.
  - unfold is_boundaryb in Hb. unfold r, write_trigger.
    destruct (is_empty_str trigger) eqn:Hne; [split; reflexivity|].
    cbn [negb andb] in Hb.
    destruct (marker_value int_of_str trigger) as [v|] eqn:Hval.
    + assert (Hv : v <> nclasses s) by (now apply Z.eqb_neq).
      pose proof (write_trigger_other s trigger v timestamp now
                    Hne Hval Hv (Hacc v)) as H.
      unfold write_trigger in H. rewrite Hne in H. rewrite H.
      split; reflexivity.
    + unfold py_int. destruct trigger as [z|str]; [discriminate Hval|].
      simpl in Hval. rewrite Hval. split; reflexivity.
Qed.

(** Over any sequence of triggers delivered to a board that takes every
    marker, boundary markers mixed with others, empty and unreadable ones:
    prediction mode off, no prediction is requested; prediction mode on,
    one is requested per boundary marker, less the first one when
    [first_prediction] is still set. *)
Theorem requests_count (events : list (pyval * Q * Q)) (s : Streamer) :
  (forall v, raises (InsertMarker v) = None) ->
  list_sum (map requests (fst (deliver int_of_str raises conditioner_errors events s)))
  = if prediction_mode s then
      if first_prediction s
      then Nat.pred (boundaries int_of_str (nclasses s) events)
      else boundaries int_of_str (nclasses s) events
    else 0%nat.
Proof.
  intros Hacc. revert s.
  induction events as [|[[trigger timestamp] now] rest IH]; intros s.
  - simpl. destruct (prediction_mode s), (first_prediction s); reflexivity.
  - pose proof (write_trigger_step s trigger timestamp now Hacc) as Hstep.
    cbv zeta in Hstep. simpl deliver.
    specialize (IH (after (write_trigger int_of_str raises conditioner_errors trigger
                             timestamp now s))).
    destruct (deliver int_of_str raises conditioner_errors rest
                (after (write_trigger int_of_str raises conditioner_errors trigger
                          timestamp now s))) as [cs s'] eqn:E.
    cbn [fst snd map list_sum fold_right] in IH |- *.
    unfold boundaries in IH |- *. cbn [filter fst].
    destruct (is_boundaryb int_of_str (nclasses s) trigger);
      destruct Hstep as [Hreq Haft]; rewrite Hreq; rewrite Haft in IH.
    + destruct (prediction_mode s) eqn:Hpm; cbn [andb] in *.
      * destruct (first_prediction s) eqn:Hfp; cbn [negb] in *;
          simpl in IH; rewrite Hpm in IH; rewrite ?Hfp in IH;
          simpl; now rewrite IH.
      * rewrite Hpm in IH. simpl. exact IH.
    + simpl. exact IH.
Qed.

(** Toggling prediction mode before the classifier thread has created the
    classifier raises [AttributeError], but only after the flag has been
    flipped: the session is left in the other mode and the classifier was
    told nothing. *)
Theorem set_prediction_mode_without_classifier (s : Streamer) :
  classifier s = false ->
  set_prediction_mode raises s
  = Run (Raised AttributeError)
        (set_prediction_mode_attr (negb (prediction_mode s)) s) [].
Proof.
  intros Hc. unfold set_prediction_mode, bind, modify, get, raise.
  cbn. now rewrite Hc.
Qed.

(** Toggling twice brings the session back to where it was, whatever the
    classifier does with the two notifications; when it takes them, it is
    told the other mode and then the first one again. *)
Theorem set_prediction_mode_twice (s : Streamer) :
  after (set_prediction_mode raises (after (set_prediction_mode raises s))) = s
  /\ (classifier s = true ->
      (forall mode, raises (ClassifierSetPredictionMode mode) = None) ->
      calls (set_prediction_mode raises s)
      = [ClassifierSetPredictionMode (negb (prediction_mode s))]
      /\ calls (set_prediction_mode raises (after (set_prediction_mode raises s)))
         = [ClassifierSetPredictionMode (prediction_mode s)]).
Proof.
  split.
  - rewrite !set_prediction_mode_after. destruct s as [a b c d e f g pm fp t].
    cbn. now rewrite negb_involutive.
  - intros Hc Hacc. rewrite set_prediction_mode_after.
    unfold set_prediction_mode, bind, modify, get, invoke.
    cbn. rewrite Hc. rewrite !Hacc. cbn. rewrite negb_involutive.
    split; reflexivity.
Qed.

(** [train_classifier] before any [set_train_start]: [AttributeError] on
    the missing start time, before anything is logged or pulled. *)
Theorem train_without_start (s : Streamer) (now : Q) :
  start_training_time s = None ->
  train_classifier raises conditioner_errors now s = Run (Raised AttributeError) s [].
Proof.
  intros H. unfold train_classifier, bind, get, raise. cbn. now rewrite H.
Qed.

(** [train_classifier] while the classifier is still missing: the snapshot
    is pulled and conditioned all the same, and only then the call fails
    with [AttributeError]; nothing is trained and the session is unchanged. *)
Theorem train_without_classifier (s : Streamer) (start now : Q) :
  start_training_time s = Some start ->
  classifier s = false ->
  (forall n, raises (GetCurrentBoardData n) = None) ->
  raises FilterDataBuffer = None ->
  exists n : Z,
    train_classifier raises conditioner_errors now s
    = Run (Raised AttributeError) s
          ([Log INFO "Training duration"; GetCurrentBoardData n;
            FilterDataBuffer]
           ++ map (Log ERROR) conditioner_errors).
Proof.
  intros Hs Hc Hg Hf.
  exists (py_int_Q ((now - start + 1) * inject_Z (sampling_rate s))%Q).
  unfold train_classifier, bind, get, logging, emit, invoke, filter_snapshot,
    raise.
  cbn. rewrite Hs. cbn. rewrite Hg. cbn. rewrite Hf. cbn. rewrite Hc. cbn.
  now rewrite app_nil_r.
Qed.

(** The one-second margin: when the clock has not gone back since
    [set_train_start], the training pull asks for at least one second of
    samples. *)
Theorem training_pull_margin (s : Streamer) (t0 t1 : Q) :
  (t0 <= t1)%Q -> 0 <= sampling_rate s ->
  exists n : Z,
    nth_error (calls (train_classifier raises conditioner_errors t1 (after (set_train_start t0 s)))) 1
    = Some (GetCurrentBoardData n)
    /\ sampling_rate s <= n.
Proof.
  intros Hle Hfs.
  exists (py_int_Q ((t1 - t0 + 1) * inject_Z (sampling_rate s))%Q). split.
  - unfold train_classifier, set_train_start, bind, get, modify, logging,
      emit, invoke, filter_snapshot, raise. cbn.
    destruct (raises (GetCurrentBoardData _)); cbn; [reflexivity|].
    destruct (raises FilterDataBuffer); cbn; [reflexivity|].
    destruct (classifier s); cbn; [|reflexivity].
    destruct (raises (ClassifierTrain (over_sample s))); reflexivity.
  - assert (Hfs' : (0 <= inject_Z (sampling_rate s))%Q).
    { change 0%Q with (inject_Z 0). rewrite <- Zle_Qle. exact Hfs. }
    rewrite py_int_Q_floor by (apply Qmult_le_0_compat; [lra | exact Hfs']).
    rewrite <- (Qfloor_Z (sampling_rate s)) at 1.
    apply Qfloor_resp_le. nra.
Qed.

Lemma errors_app (a b : list call) :
  errors (a ++ b) = (errors a + errors b)%nat.
Proof. unfold errors. now rewrite filter_app, length_app. Qed.

Lemma errors_logs (msgs : list string) :
  errors (map (Log ERROR) msgs) = List.length msgs.
Proof.
  induction msgs as [|m msgs IH]; [reflexivity|].
  unfold errors in *. simpl. now rewrite IH.
Qed.

(** [predict_class] never lets an exception out and never touches the
    session.  A task is handed to the pool exactly when the pull and the
    conditioning return.  The errors in its log are those the conditioner
    logged while it ran, and one of its own exactly when the pull, the
    conditioning or the submission raised. *)
Theorem predict_class_swallows (s : Streamer) :
  let r := predict_class raises conditioner_errors s in
  let pull := raises (GetCurrentBoardData (prediction_datapoints s)) in
  result r = Returned tt
  /\ after r = s
  /\ predictions (calls r)
     = match pull, raises FilterDataBuffer with
       | None, None => 1%nat
       | _, _ => 0%nat
       end
  /\ errors (calls r)
     = match pull with
       | Some _ => 1%nat
       | None =>
           (List.length conditioner_errors
            + match raises FilterDataBuffer, raises ExecutorSubmit with
              | None, None => 0
              | _, _ => 1
              end)%nat
       end.
Proof.
  cbv zeta. rewrite predict_class_trace. cbn [result after calls].
  split; [reflexivity|]. split; [reflexivity|].
  destruct (raises (GetCurrentBoardData (prediction_datapoints s)));
    [split; reflexivity|].
  change (GetCurrentBoardData (prediction_datapoints s) :: FilterDataBuffer
          :: ?l) with ([GetCurrentBoardData (prediction_datapoints s);
                        FilterDataBuffer] ++ l).
  rewrite !predictions_app, !errors_app, predictions_logs, errors_logs.
  destruct (raises FilterDataBuffer); [split; cbn; lia|].
  destruct (raises ExecutorSubmit); split; cbn; lia.
Qed.



End RouterMore.

(** ** QualityScorer, the default table as a whole *)

(** With the default table the bucket is a function of the amplitude alone,
    with the shared bounds going to the earlier row: yellow on [-100, -50],
    green on (-50, 50], yellow on (50, 100], red elsewhere. *)
Theorem default_bucket (amplitude : Q) :
  ((-(100) <= amplitude /\ amplitude <= -(50))%Q ->
   Quality.bucket Quality.default_thresholds amplitude
   = ("yellow"%string, 1 # 2))
  /\ ((-(50) < amplitude /\ amplitude <= 50)%Q ->
      Quality.bucket Quality.default_thresholds amplitude
      = ("green"%string, 1%Q))
  /\ ((50 < amplitude /\ amplitude <= 100)%Q ->
      Quality.bucket Quality.default_thresholds amplitude
      = ("yellow"%string, 1 # 2))
  /\ ((amplitude < -(100) \/ 100 < amplitude)%Q ->
      Quality.bucket Quality.default_thresholds amplitude
      = ("red"%string, 0%Q)).
Proof.
  unfold Quality.bucket, Quality.default_thresholds, Quality.scan_thresholds.
  destruct (Qle_bool (-(100)) amplitude) eqn:E1;
    destruct (Qle_bool amplitude (-(50))) eqn:E2;
    destruct (Qle_bool (-(50)) amplitude) eqn:E3;
    destruct (Qle_bool amplitude 50) eqn:E4;
    destruct (Qle_bool 50 amplitude) eqn:E5;
    destruct (Qle_bool amplitude 100) eqn:E6;
    cbn [andb];
    try apply Qle_bool_iff in E1; try apply Qle_bool_false in E1;
    try apply Qle_bool_iff in E2; try apply Qle_bool_false in E2;
    try apply Qle_bool_iff in E3; try apply Qle_bool_false in E3;
    try apply Qle_bool_iff in E4; try apply Qle_bool_false in E4;
    try apply Qle_bool_iff in E5; try apply Qle_bool_false in E5;
    try apply Qle_bool_iff in E6; try apply Qle_bool_false in E6;
    (split; [|split; [|split]]);
    (intros H; try reflexivity; exfalso; lra).
Qed.

(** ** SignalConditioner, the rest of the two stages *)

Section MonadMore.

Context {W A B : Type}.

Lemma bind_ret (a : A) (f : A -> M W B) (w : W) : bind (ret a) f w = f a w.
Proof. unfold bind, ret. cbn. destruct (f a w); reflexivity. Qed.

Lemma bind_modify (g : W -> W) (f : unit -> M W B) (w : W) :
  bind (modify g) f w = f tt (g w).
Proof. unfold bind, modify. cbn. destruct (f tt (g w)); reflexivity. Qed.

End MonadMore.

Section ConditionerMore.

Variable py_float : string -> option Q.
Variable detrend : routine.
Variable perform_bandpass : Z -> Q -> Q -> Z -> routine.
Variable perform_bandstop : Z -> Q -> Q -> Z -> routine.
Variable sampling_rate : Z.

(** With [0 <= start_freq < stop_freq <= sampling_rate / 2] the method
    calls the detrend and then the band-pass filter on what the detrend
    left, and logs nothing of its own.  An exception of the detrend leaves
    the method before the filter is called; a [ValueError] of the filter is
    logged and swallowed, any other exception of the filter leaves the
    method. *)
Theorem valid_bandpass_filters_detrended
        (start_freq stop_freq : Q) (ch_data : list Q) :
  (0 <= start_freq)%Q -> (start_freq < stop_freq)%Q ->
  (stop_freq <= nyquist sampling_rate)%Q ->
  apply_bandpass_filter detrend perform_bandpass sampling_rate
    start_freq stop_freq ch_data
  = match fst (detrend ch_data) with
    | Some e => Run (Raised e) (snd (detrend ch_data)) []
    | None =>
        guarded (perform_bandpass sampling_rate start_freq stop_freq 4
                   (snd (detrend ch_data)))
    end.
Proof.
  intros H0 Hlt Hny.
  assert (E1 : Qle_bool stop_freq start_freq = false)
    by (now apply Qle_bool_false).
  assert (E2 : Qltb start_freq 0 = false).
  { unfold Qltb. apply negb_false_iff. now apply Qle_bool_iff. }
  assert (E3 : Qltb stop_freq 0 = false).
  { unfold Qltb. apply negb_false_iff. apply Qle_bool_iff. lra. }
  assert (E4 : Qltb (nyquist sampling_rate) start_freq = false).
  { unfold Qltb. apply negb_false_iff. apply Qle_bool_iff. lra. }
  assert (E5 : Qltb (nyquist sampling_rate) stop_freq = false).
  { unfold Qltb. apply negb_false_iff. now apply Qle_bool_iff. }
  unfold apply_bandpass_filter, guarded, bind, call_routine, logging, emit,
    try_except.
  cbn [result after calls app].
  destruct (fst (detrend ch_data)) as [e|]; [reflexivity|].
  rewrite E1, E2, E3, E4, E5. cbn.
  destruct (fst (perform_bandpass sampling_rate start_freq stop_freq 4
                   (snd (detrend ch_data)))) as [[]|]; reflexivity.
Qed.

(** *** The notch stage *)

Lemma notch_check_valid (freqs : list string) (values : list Q)
      (ch_data : list Q) :
  map py_float freqs = map Some values ->
  Forall (notch_ok sampling_rate) values ->
  notch_check py_float sampling_rate freqs ch_data
  = Run (Returned true) ch_data [].
Proof.
  revert values. induction freqs as [|freq rest IH]; intros values Hmap Hok.
  - reflexivity.
  - destruct values as [|f values]; [discriminate Hmap|].
    cbn [map] in Hmap. injection Hmap as Hf Hrest.
    inversion Hok as [|? ? [H0 Hny] Hok']; subst.
    cbn [notch_check]. unfold float_of. rewrite Hf. rewrite bind_ret.
    assert (E1 : Qltb f 0 = false).
    { unfold Qltb. apply negb_false_iff. now apply Qle_bool_iff. }
    assert (E2 : Qltb (nyquist sampling_rate) f = false).
    { unfold Qltb. apply negb_false_iff. now apply Qle_bool_iff. }
    rewrite E1, E2. now apply (IH values).
Qed.

Lemma notch_check_invalid (freqs : list string) (values : list Q)
      (ch_data : list Q) :
  map py_float freqs = map Some values ->
  Exists (fun f => ~ notch_ok sampling_rate f) values ->
  exists msg : string,
    notch_check py_float sampling_rate freqs ch_data
    = Run (Returned false) ch_data [Log ERROR msg].
Proof.
  revert values. induction freqs as [|freq rest IH]; intros values Hmap Hbad.
  - destruct values; [inversion Hbad | discriminate Hmap].
  - destruct values as [|f values]; [discriminate Hmap|].
    cbn [map] in Hmap. injection Hmap as Hf Hrest.
    cbn [notch_check]. unfold float_of. rewrite Hf. rewrite bind_ret.
    destruct (Qltb f 0) eqn:E1; [eexists; reflexivity|].
    destruct (Qltb (nyquist sampling_rate) f) eqn:E2; [eexists; reflexivity|].
    apply (IH values Hrest).
    inversion Hbad as [? ? Hf'|? ? Hrest']; subst; [|exact Hrest'].
    exfalso. apply Hf'. unfold Qltb in E1, E2.
    apply negb_false_iff in E1, E2. apply Qle_bool_iff in E1, E2.
    now split.
Qed.

Lemma notch_check_unreadable (pre post : list string) (bad : string)
      (values : list Q) (ch_data : list Q) :
  map py_float pre = map Some values ->
  Forall (notch_ok sampling_rate) values ->
  py_float bad = None ->
  notch_check py_float sampling_rate (pre ++ bad :: post) ch_data
  = Run (Raised ValueError) ch_data [].
Proof.
  revert values. induction pre as [|freq rest IH]; intros values Hmap Hok Hbad.
  - cbn [app notch_check]. unfold float_of. rewrite Hbad. reflexivity.
  - destruct values as [|f values]; [discriminate Hmap|].
    cbn [map] in Hmap. injection Hmap as Hf Hrest.
    inversion Hok as [|? ? [H0 Hny] Hok']; subst.
    cbn [app notch_check]. unfold float_of. rewrite Hf. rewrite bind_ret.
    assert (E1 : Qltb f 0 = false).
    { unfold Qltb. apply negb_false_iff. now apply Qle_bool_iff. }
    assert (E2 : Qltb (nyquist sampling_rate) f = false).
    { unfold Qltb. apply negb_false_iff. now apply Qle_bool_iff. }
    rewrite E1, E2. now apply (IH values).
Qed.

Lemma notch_stops_run (freqs : list string) (values : list Q)
      (ch_data : list Q) :
  map py_float freqs = map Some values ->
  notch_stops py_float perform_bandstop sampling_rate freqs ch_data
  = call_routine (bandstops perform_bandstop sampling_rate values) ch_data.
Proof.
  revert values ch_data.
  induction freqs as [|freq rest IH]; intros values ch_data Hmap.
  - destruct values; [reflexivity | discriminate Hmap].
  - destruct values as [|f values]; [discriminate Hmap|].
    cbn [map] in Hmap. injection Hmap as Hf Hrest.
    cbn [notch_stops]. unfold float_of. rewrite Hf, bind_ret.
    specialize (IH values
                   (snd (perform_bandstop sampling_rate (f - 2)%Q (f + 2)%Q 4
                           ch_data)) Hrest).
    unfold bind, call_routine in *. cbn [bandstops result after calls].
    destruct (fst (perform_bandstop sampling_rate (f - 2)%Q (f + 2)%Q 4
                     ch_data)) as [e|]; [reflexivity|].
    rewrite IH. reflexivity.
Qed.

(** When every notch frequency reads as a number within
    [0, sampling_rate / 2], the band-stops are called one after the other
    in the order of the text, each from 2 Hz below to 2 Hz above its
    frequency, and the method logs nothing of its own.  The first band-stop
    that raises ends the stage with those before it applied: a
    [ValueError] is logged and swallowed, any other exception (BrainFlow's
    for a band that starts below 0 Hz, say) leaves the method. *)
Theorem valid_notch_applies_bandstops
        (freqs : list string) (values : list Q) (ch_data : list Q) :
  map py_float freqs = map Some values ->
  Forall (notch_ok sampling_rate) values ->
  apply_notch_filter py_float perform_bandstop sampling_rate freqs ch_data
  = guarded (bandstops perform_bandstop sampling_rate values ch_data).
Proof.
  intros Hmap Hok. unfold apply_notch_filter.
  rewrite (bind_returned _ _ ch_data true)
    by (now rewrite (notch_check_valid freqs values ch_data Hmap Hok)).
  rewrite (notch_check_valid freqs values ch_data Hmap Hok).
  cbn [result after calls]. unfold try_except.
  rewrite (notch_stops_run freqs values ch_data Hmap).
  unfold call_routine, guarded, logging, emit. cbn [result after calls app].
  destruct (fst (bandstops perform_bandstop sampling_rate values ch_data))
    as [[]|]; reflexivity.
Qed.

(** One notch frequency that is negative or above half the sampling rate
    switches the whole notch stage off: no band-stop is applied, not even
    for the valid frequencies before it, the channel keeps its input as it
    is (the notch stage does not detrend), and one error is logged. *)
Theorem invalid_notch_leaves_channel
        (freqs : list string) (values : list Q) (ch_data : list Q) :
  map py_float freqs = map Some values ->
  Exists (fun f => ~ notch_ok sampling_rate f) values ->
  exists msg : string,
    apply_notch_filter py_float perform_bandstop sampling_rate freqs ch_data
    = Run (Returned tt) ch_data [Log ERROR msg].
Proof.
  intros Hmap Hbad.
  destruct (notch_check_invalid freqs values ch_data Hmap Hbad) as [msg Hc].
  exists msg. unfold apply_notch_filter.
  rewrite (bind_returned _ _ ch_data false) by (now rewrite Hc).
  rewrite Hc. reflexivity.
Qed.

(** A notch text with an entry that is no number, after entries that are
    valid frequencies: [ValueError] leaves [apply_notch_filter] (the check
    loop is outside the [try]), nothing is logged and the channel keeps its
    input. *)
Theorem unreadable_notch_raises
        (pre post : list string) (bad : string) (values : list Q)
        (ch_data : list Q) :
  map py_float pre = map Some values ->
  Forall (notch_ok sampling_rate) values ->
  py_float bad = None ->
  apply_notch_filter py_float perform_bandstop sampling_rate
    (pre ++ bad :: post) ch_data
  = Run (Raised ValueError) ch_data [].
Proof.
  intros Hmap Hok Hbad. unfold apply_notch_filter, bind.
  now rewrite (notch_check_unreadable pre post bad values ch_data Hmap Hok Hbad).
Qed.

End ConditionerMore.

(** *** What [filter_data_buffer] leaves alone, and where it stops *)

Section MonadSteps.

Context {W A B : Type}.

Lemma bind_get (f : W -> M W B) (w : W) : bind get f w = f w w.
Proof. unfold bind, get. cbn. destruct (f w w); reflexivity. Qed.

Lemma bind_raises (m : M W A) (f : A -> M W B) (w : W) (e : exn) :
  result (m w) = Raised e ->
  bind m f w = Run (Raised e) (after (m w)) (calls (m w)).
Proof. intros H. unfold bind. now rewrite H. Qed.

End MonadSteps.

Section BufferFrame.

Variable py_float : string -> option Q.
Variable detrend : routine.
Variable perform_bandpass : Z -> Q -> Q -> Z -> routine.
Variable perform_bandstop : Z -> Q -> Q -> Z -> routine.
Variable sampling_rate : Z.

Lemma on_row_frame {A : Type} (i : nat) (m : M (list Q) A)
      (data : list (list Q)) :
  List.length (after (on_row i m data)) = List.length data
  /\ forall j : nat, j <> i ->
       nth_error (after (on_row i m data)) j = nth_error data j.
Proof.
  unfold on_row. destruct (nth_error data i) as [ch_data|] eqn:E.
  - cbn [after]. split; [apply set_row_length|].
    intros j Hj. rewrite nth_error_set_row.
    + destruct (Nat.eqb_spec i j); [now subst | reflexivity].
    + apply nth_error_Some. now rewrite E.
  - split; reflexivity.
Qed.

Lemma filter_row_frame (start_eeg end_eeg count : nat) (gui : Gui)
      (data : list (list Q)) :
  let r := filter_row py_float detrend perform_bandpass perform_bandstop
             sampling_rate start_eeg end_eeg gui count data in
  List.length (after r) = List.length data
  /\ forall j : nat, j <> (start_eeg + count)%nat ->
       nth_error (after r) j = nth_error data j.
Proof.
  cbv zeta. unfold filter_row. rewrite bind_get.
  destruct (count <? eeg_rows start_eeg end_eeg data)%nat.
  - apply on_row_frame.
  - split; reflexivity.
Qed.

Lemma for_each_frame (start_eeg end_eeg : nat) (gui : Gui)
      (counts : list nat) (j : nat) (data : list (list Q)) :
  let r := for_each counts
             (filter_row py_float detrend perform_bandpass perform_bandstop
                sampling_rate start_eeg end_eeg gui) data in
  List.length (after r) = List.length data
  /\ ((forall count, In count counts -> j <> (start_eeg + count)%nat) ->
      nth_error (after r) j = nth_error data j).
Proof.
  revert data. induction counts as [|count rest IH]; intros data; cbv zeta.
  - split; reflexivity.
  - cbn [for_each].
    destruct (filter_row_frame start_eeg end_eeg count gui data) as [Hl Hn].
    cbv zeta in Hl, Hn.
    set (body := filter_row py_float detrend perform_bandpass perform_bandstop
                   sampling_rate start_eeg end_eeg gui) in *.
    destruct (result (body count data)) as [u|e] eqn:Hr.
    + rewrite (bind_returned (body count) _ data u Hr). cbn [after].
      destruct (IH (after (body count data))) as [IHl IHn].
      cbv zeta in IHl, IHn. split.
      * now rewrite IHl.
      * intros Hj. rewrite IHn by (intros c Hc; apply Hj; now right).
        apply Hn. apply Hj. now left.
    + rewrite (bind_raises (body count) _ data e Hr). cbn [after]. split.
      * exact Hl.
      * intros Hj. apply Hn. apply Hj. now left.
Qed.

(** Whatever the boxes hold and however the call ends, [filter_data_buffer]
    keeps the number of rows of the snapshot and touches no row outside the
    EEG rows [start_eeg, start_eeg + n_channels): timestamps, markers and
    the other rows stay as the board gave them. *)
Theorem filter_data_buffer_frame
        (gui : Gui) (start_eeg end_eeg n_channels : nat)
        (data : list (list Q)) :
  let r := filter_data_buffer py_float detrend perform_bandpass perform_bandstop
             sampling_rate start_eeg end_eeg n_channels gui data in
  List.length (after r) = List.length data
  /\ forall j : nat,
       (j < start_eeg \/ start_eeg + n_channels <= j)%nat ->
       nth_error (after r) j = nth_error data j.
Proof.
  cbv zeta. unfold filter_data_buffer. split.
  - apply (for_each_frame start_eeg end_eeg gui (seq 0 n_channels) 0%nat data).
  - intros j Hj.
    apply (for_each_frame start_eeg end_eeg gui (seq 0 n_channels) j data).
    intros count Hc. apply in_seq in Hc. lia.
Qed.

Lemma for_each_app (a b : list nat) (body : nat -> M (list (list Q)) unit)
      (data : list (list Q)) :
  result (for_each a body data) = Returned tt ->
  result (for_each (a ++ b) body data)
  = result (for_each b body (after (for_each a body data)))
  /\ after (for_each (a ++ b) body data)
     = after (for_each b body (after (for_each a body data))).
Proof.
  revert data. induction a as [|count rest IH]; intros data Hr.
  - split; reflexivity.
  - cbn [for_each app] in Hr |- *.
    destruct (result (body count data)) as [u|e] eqn:Hc.
    + rewrite (bind_returned (body count) _ data u Hc) in Hr.
      repeat rewrite (bind_returned (body count) _ data u Hc).
      cbn [result after] in Hr |- *. now apply IH.
    + rewrite (bind_raises (body count) _ data e Hc) in Hr. discriminate Hr.
Qed.

(** The loop over the channels [k, k + n) returns when their rows are
    there and the loop body returns on each. *)
Lemma for_each_returns (start_eeg end_eeg : nat) (gui : Gui) (n : nat) :
  forall (k : nat) (data : list (list Q)),
    (start_eeg + k + n <= Nat.min end_eeg (List.length data))%nat ->
    (forall (i : nat) (ch_data : list Q),
        (start_eeg + k <= i < start_eeg + k + n)%nat ->
        nth_error data i = Some ch_data ->
        result (filter_channel py_float detrend perform_bandpass
                  perform_bandstop sampling_rate gui ch_data) = Returned tt) ->
    result (for_each (seq k n)
              (filter_row py_float detrend perform_bandpass perform_bandstop
                 sampling_rate start_eeg end_eeg gui) data) = Returned tt.
Proof.
  induction n as [|n IH]; intros k data Hfit Hrows; [reflexivity|].
  cbn [seq for_each].
  set (body := filter_row py_float detrend perform_bandpass perform_bandstop
                 sampling_rate start_eeg end_eeg gui).
  destruct (nth_error data (start_eeg + k)) as [ch_data|] eqn:E.
  2:{ apply nth_error_None in E. lia. }
  assert (Hrow : result (body k data) = Returned tt).
  { unfold body, filter_row. rewrite bind_get.
    assert (Hin : (k <? eeg_rows start_eeg end_eeg data)%nat = true)
      by (apply Nat.ltb_lt; unfold eeg_rows; lia).
    rewrite Hin. unfold on_row. rewrite E. cbn [result].
    apply (Hrows (start_eeg + k)%nat); [lia | exact E]. }
  rewrite (bind_returned (body k) _ data tt Hrow). cbn [result].
  destruct (filter_row_frame start_eeg end_eeg k gui data) as [Hl Hn].
  cbv zeta in Hl, Hn. fold body in Hl, Hn.
  apply IH.
  - rewrite Hl. lia.
  - intros i ch Hi Hch. rewrite Hn in Hch by lia.
    apply (Hrows i); [lia | exact Hch].
Qed.

(** When the layout leaves fewer rows in [data[start_eeg:end_eeg]] than
    there are EEG channels, and the loop body returns on each row the slice
    does have, [filter_data_buffer] ends in [IndexError], but not before it
    has conditioned those rows in place: the snapshot is left half
    processed. *)
Theorem short_layout_raises_after_conditioning
        (gui : Gui) (start_eeg end_eeg n_channels : nat)
        (data : list (list Q)) :
  (forall (i : nat) (ch_data : list Q),
      (start_eeg <= i < start_eeg + eeg_rows start_eeg end_eeg data)%nat ->
      nth_error data i = Some ch_data ->
      result (filter_channel py_float detrend perform_bandpass
                perform_bandstop sampling_rate gui ch_data) = Returned tt) ->
  (eeg_rows start_eeg end_eeg data < n_channels)%nat ->
  let r := filter_data_buffer py_float detrend perform_bandpass
             perform_bandstop sampling_rate start_eeg end_eeg n_channels
             gui data in
  result r = Raised IndexError
  /\ forall i : nat,
       nth_error (after r) i
       = if ((start_eeg <=? i)
             && (i <? start_eeg + eeg_rows start_eeg end_eeg data))%nat
         then option_map (conditioned py_float detrend perform_bandpass
                            perform_bandstop sampling_rate gui)
                         (nth_error data i)
         else nth_error data i.
Proof.
  intros Hrows Hshort. cbv zeta. unfold filter_data_buffer.
  set (m := eeg_rows start_eeg end_eeg data) in *.
  set (body := filter_row py_float detrend perform_bandpass perform_bandstop
                 sampling_rate start_eeg end_eeg gui).
  assert (Hseq : seq 0 n_channels = seq 0 m ++ seq m (S (n_channels - m - 1))).
  { replace n_channels with (m + S (n_channels - m - 1))%nat at 1 by lia.
    now rewrite seq_app. }
  rewrite Hseq.
  assert (Hr : result (for_each (seq 0 m) body data) = Returned tt).
  { destruct (Nat.eq_dec m 0) as [Hm|Hm]; [now rewrite Hm|].
    apply for_each_returns.
    - unfold m, eeg_rows in *. lia.
    - intros i ch Hi Hch. apply (Hrows i); [lia | exact Hch]. }
  destruct (for_each_returned py_float detrend perform_bandpass
              perform_bandstop sampling_rate start_eeg end_eeg gui m 0%nat
              data Hr) as [Hl Hn].
  rewrite Nat.add_0_r in Hn. fold body in Hl, Hn.
  destruct (for_each_app (seq 0 m) (seq m (S (n_channels - m - 1))) body data Hr)
    as [Er Ea].
  rewrite Er, Ea.
  set (data' := after (for_each (seq 0 m) body data)) in *.
  assert (Hbody : body m data' = Run (Raised IndexError) data' []).
  { unfold body, filter_row. rewrite bind_get.
    assert (E : (m <? eeg_rows start_eeg end_eeg data')%nat = false).
    { apply Nat.ltb_ge. unfold eeg_rows. rewrite Hl.
      fold (eeg_rows start_eeg end_eeg data). fold m. lia. }
    now rewrite E. }
  cbn [seq for_each].
  rewrite (bind_raises (body m) _ data' IndexError) by (now rewrite Hbody).
  rewrite Hbody. cbn [result after]. split; [reflexivity | exact Hn].
Qed.

End BufferFrame.


(** ** WindowBuffer: the data tick *)

Section MonadRuns.

Context {W A B : Type}.

Lemma bind_run (m : M W A) (f : A -> M W B) (w w' : W) (a : A)
      (cs : list call) :
  m w = Run (Returned a) w' cs ->
  bind m f w = Run (result (f a w')) (after (f a w')) (cs ++ calls (f a w')).
Proof. intros H. unfold bind. now rewrite H. Qed.

Lemma bind_stop (m : M W A) (f : A -> M W B) (w w' : W) (e : exn)
      (cs : list call) :
  m w = Run (Raised e) w' cs -> bind m f w = Run (Raised e) w' cs.
Proof. intros H. unfold bind. now rewrite H. Qed.

Lemma run_eta (r : run W B) : Run (result r) (after r) (calls r) = r.
Proof. now destruct r. Qed.

End MonadRuns.

Lemma nth_error_ext {A : Type} (l l' : list A) :
  (forall i : nat, nth_error l i = nth_error l' i) -> l = l'.
Proof.
  revert l'. induction l as [|x l IH]; intros [|x' l'] H.
  - reflexivity.
  - specialize (H 0%nat). discriminate.
  - specialize (H 0%nat). discriminate.
  - f_equal.
    + specialize (H 0%nat). now injection H.
    + apply IH. intros i. exact (H (S i)).
Qed.

Lemma broadcast_same (values : list Q) :
  broadcast_to (List.length values) values = Some values.
Proof. unfold broadcast_to. now rewrite Nat.eqb_refl. Qed.

Lemma broadcast_mismatch (n : nat) (values : list Q) :
  List.length values <> n -> List.length values <> 1%nat ->
  broadcast_to n values = None.
Proof.
  intros Hn H1. unfold broadcast_to.
  destruct (Nat.eqb_spec (List.length values) n) as [E|_]; [contradiction|].
  destruct values as [|v [|v' rest]]; try reflexivity.
  now contradiction H1.
Qed.

Lemma assign_filtered_run (i : nat) (values row : list Q) (w : Window) :
  nth_error (filtered_eeg w) i = Some row ->
  List.length values = List.length row ->
  assign_filtered i values w
  = Run (Returned tt) (set_filtered_eeg (set_row (filtered_eeg w) i values) w) [].
Proof.
  intros Hrow Hlen. unfold assign_filtered, item.
  rewrite bind_get, Hrow, bind_ret, <- Hlen, broadcast_same.
  reflexivity.
Qed.

Lemma assign_filtered_mismatch (i : nat) (values row : list Q) (w : Window) :
  nth_error (filtered_eeg w) i = Some row ->
  List.length values <> List.length row ->
  List.length values <> 1%nat ->
  assign_filtered i values w = Run (Raised ValueError) w [].
Proof.
  intros Hrow Hlen H1. unfold assign_filtered, item.
  rewrite bind_get, Hrow, bind_ret, (broadcast_mismatch _ _ Hlen H1).
  reflexivity.
Qed.

Lemma set_filtered_eeg_same (w : Window) : set_filtered_eeg (filtered_eeg w) w = w.
Proof. now destruct w. Qed.

(** The loop of the tick over the channels [k, k + m). *)
Lemma copy_channels_run (eeg : list (list Q)) (m : nat) :
  forall (k : nat) (w : Window),
    (k + m <= List.length eeg)%nat ->
    (k + m <= List.length (filtered_eeg w))%nat ->
    (forall (i : nat) (row src : list Q),
        (k <= i < k + m)%nat ->
        nth_error (filtered_eeg w) i = Some row ->
        nth_error eeg i = Some src ->
        List.length src = List.length row) ->
    exists buffer : list (list Q),
      copy_channels eeg (seq k m) w
      = Run (Returned tt) (set_filtered_eeg buffer w) []
      /\ List.length buffer = List.length (filtered_eeg w)
      /\ forall i : nat,
          nth_error buffer i
          = if ((k <=? i) && (i <? k + m))%nat then nth_error eeg i
            else nth_error (filtered_eeg w) i.
Proof.
  induction m as [|m IH]; intros k w He Hb Hlen.
  - exists (filtered_eeg w). cbn [seq copy_channels].
    rewrite set_filtered_eeg_same. repeat split.
    intros i.
    destruct (Nat.leb_spec k i), (Nat.ltb_spec i (k + 0));
      simpl; try reflexivity; lia.
  - destruct (nth_error eeg k) as [src|] eqn:Esrc.
    2:{ apply nth_error_None in Esrc. lia. }
    destruct (nth_error (filtered_eeg w) k) as [row|] eqn:Erow.
    2:{ apply nth_error_None in Erow. lia. }
    assert (Hsrc : List.length src = List.length row)
      by (apply (Hlen k); [lia | exact Erow | exact Esrc]).
    set (w1 := set_filtered_eeg (set_row (filtered_eeg w) k src) w).
    destruct (IH (S k) w1) as [buffer [Hrun [Hl Hn]]].
    + lia.
    + unfold w1. cbn [filtered_eeg set_filtered_eeg].
      rewrite set_row_length. lia.
    + intros i row' src' Hi Hrow' Hsrc'.
      unfold w1 in Hrow'. cbn [filtered_eeg set_filtered_eeg] in Hrow'.
      rewrite nth_error_set_row in Hrow' by lia.
      destruct (Nat.eqb_spec k i); [lia|].
      apply (Hlen i); [lia | exact Hrow' | exact Hsrc'].
    + exists buffer. split; [|split].
      * cbn [seq copy_channels]. unfold item. rewrite Esrc, bind_ret.
        rewrite (bind_run _ _ w w1 tt []
                   (assign_filtered_run k src row w Erow Hsrc)).
        rewrite Hrun. reflexivity.
      * rewrite Hl. unfold w1. cbn [filtered_eeg set_filtered_eeg].
        apply set_row_length.
      * intros i. rewrite Hn. unfold w1.
        cbn [filtered_eeg set_filtered_eeg].
        rewrite nth_error_set_row by lia.
        destruct (Nat.eqb_spec k i) as [<-|Hne].
        -- rewrite Esrc.
           destruct (Nat.leb_spec (S k) k), (Nat.ltb_spec k (S k + m)),
                    (Nat.leb_spec k k), (Nat.ltb_spec k (k + S m));
             simpl; try reflexivity; lia.
        -- destruct (Nat.leb_spec (S k) i), (Nat.ltb_spec i (S k + m)),
                    (Nat.leb_spec k i), (Nat.ltb_spec i (k + S m));
             simpl; try reflexivity; lia.
Qed.

Section TickFacts.

Variable c : Setup.

Lemma window_check_run {W : Type} (w : W) :
  setup_window_size c <> 0 -> window_check c w = Run (Returned tt) w [].
Proof.
  intros H. unfold window_check.
  destruct (Z.eqb_spec (setup_window_size c) 0); [contradiction | reflexivity].
Qed.

Lemma conditioning_returned {W : Type} (gui : Gui) (data : list (list Q))
      (w : W) :
  result (filtered c gui data) = Returned tt ->
  conditioning c gui data w
  = Run (Returned (after (filtered c gui data))) w
        (calls (filtered c gui data)).
Proof.
  intros H. unfold conditioning. fold (filtered c gui data). now rewrite H.
Qed.

Lemma conditioning_raised {W : Type} (gui : Gui) (data : list (list Q))
      (w : W) (e : exn) :
  result (filtered c gui data) = Raised e ->
  conditioning c gui data w
  = Run (Raised e) w (calls (filtered c gui data)).
Proof.
  intros H. unfold conditioning. fold (filtered c gui data). now rewrite H.
Qed.

Lemma Forall_nth_error {A : Type} (P : A -> Prop) (l : list A) (i : nat)
      (x : A) :
  Forall P l -> nth_error l i = Some x -> P x.
Proof.
  intros H E. apply nth_error_In in E.
  rewrite Forall_forall in H. now apply H.
Qed.

Lemma nth_error_firstn_lt {A : Type} (l : list A) (n i : nat) :
  (i < n)%nat -> nth_error (firstn n l) i = nth_error l i.
Proof.
  revert l i. induction n as [|n IH]; intros l i Hi; [lia|].
  destruct l as [|x l]; [now destruct i|].
  destruct i as [|i]; [reflexivity|]. simpl. apply IH. lia.
Qed.

(** A tick on a running stream whose snapshot passes the conditioner and
    has every row the tick reads, each as long as the rows of the window
    buffer: the chunk counter goes up by one, the buffer holds the
    conditioned EEG rows followed by the last row of the snapshot, and one
    chunk is sent to each outlet, the EEG chunk being the buffer numbered
    with the new counter and stamped with the timestamp row, the band
    powers being those of the EEG rows of the buffer.  The board was asked
    once, for [num_points] samples. *)
Theorem tick_publishes_window
        (gui : Gui) (chunk_checked : bool) (data : list (list Q)) (w : Window)
        (trigger ts : list Q) (p : nat) :
  let data' := after (filtered c gui data) in
  let eeg := channel_rows c data' in
  is_streaming w = true ->
  setup_window_size c <> 0 ->
  result (filtered c gui data) = Returned tt ->
  List.length eeg = setup_channels c ->
  Forall (fun row => List.length row = p) eeg ->
  List.length (filtered_eeg w) = S (setup_channels c) ->
  Forall (fun row => List.length row = p) (filtered_eeg w) ->
  nth_error data' (List.length data' - 1) = Some trigger ->
  List.length trigger = p ->
  nth_error data' (setup_ts_channel c) = Some ts ->
  update_data_buffer c gui chunk_checked data w
  = Run (Returned tt)
        (push_band_powers (setup_band_powers c eeg) ts
           (push_raw_eeg
              {| chunk_data := eeg ++ [trigger];
                 chunk_start := setup_start_eeg c;
                 chunk_end := setup_end_eeg c;
                 chunk_number := chunk_counter w + 1;
                 chunk_timestamps := ts;
                 chunk_flag := chunk_checked |}
              (set_filtered_eeg (eeg ++ [trigger])
                 (set_chunk_counter (chunk_counter w + 1) w))))
        (GetCurrentBoardData (num_points c) :: calls (filtered c gui data)).
Proof.
  intros data' eeg Hs Hw Hr He Hep Hb Hbp Htrig Htp Hts.
  set (n := setup_channels c) in *.
  set (full := slice (setup_start_eeg c) (setup_end_eeg c) data').
  assert (Hfull : (n <= List.length full)%nat).
  { unfold eeg, channel_rows in He. fold full n in He.
    rewrite length_firstn in He. lia. }
  set (w1 := set_chunk_counter (chunk_counter w + 1) w).
  destruct (copy_channels_run full n 0 w1) as [buffer [Hcopy [Hbl Hbn]]].
  - simpl. exact Hfull.
  - unfold w1. cbn [filtered_eeg set_chunk_counter]. lia.
  - intros i row src Hi Hrow Hsrc.
    unfold w1 in Hrow. cbn [filtered_eeg set_chunk_counter] in Hrow.
    rewrite (Forall_nth_error _ _ _ _ Hbp Hrow).
    apply (Forall_nth_error _ eeg i src Hep).
    unfold eeg, channel_rows. fold full n.
    rewrite nth_error_firstn_lt by lia. exact Hsrc.
  - unfold w1 in Hbl, Hbn. cbn [filtered_eeg set_chunk_counter] in Hbl, Hbn.
    destruct (nth_error buffer n) as [row|] eqn:Erow.
    2:{ apply nth_error_None in Erow. lia. }
    assert (Hrow : List.length trigger = List.length row).
    { rewrite Htp. symmetry. apply (Forall_nth_error _ _ n row Hbp).
      rewrite <- Erow, Hbn.
      destruct (Nat.leb_spec 0 n), (Nat.ltb_spec n (0 + n));
        simpl; try reflexivity; lia. }
    assert (Hfinal : set_row buffer n trigger = eeg ++ [trigger]).
    { apply nth_error_ext. intros i.
      rewrite nth_error_set_row by lia.
      destruct (Nat.eqb_spec n i) as [<-|Hne].
      - rewrite nth_error_app2 by lia. rewrite He, Nat.sub_diag. reflexivity.
      - rewrite Hbn.
        destruct (Nat.leb_spec 0 i), (Nat.ltb_spec i (0 + n)); simpl;
          try lia.
        + rewrite nth_error_app1 by lia.
          unfold eeg, channel_rows. fold full n.
          now rewrite nth_error_firstn_lt by lia.
        + assert (E1 : nth_error (filtered_eeg w) i = None)
            by (apply nth_error_None; lia).
          assert (E2 : nth_error (eeg ++ [trigger]) i = None)
            by (apply nth_error_None; rewrite length_app; simpl; lia).
          now rewrite E1, E2. }
    unfold update_data_buffer. rewrite bind_get, Hs.
    rewrite (bind_run _ _ w w tt [] (window_check_run w Hw)).
    rewrite (bind_run _ _ w w tt [GetCurrentBoardData (num_points c)] eq_refl).
    rewrite (bind_run _ _ w w _ _ (conditioning_returned gui data w Hr)).
    fold data'. fold full. rewrite bind_modify. fold w1. fold n.
    rewrite (bind_run _ _ w1 _ tt [] Hcopy).
    unfold last_item, item. rewrite Htrig, Hts, !bind_ret, bind_get.
    cbn [filtered_eeg set_filtered_eeg]. rewrite Hbl, Hb.
    replace (S n - 1)%nat with n by lia.
    rewrite (bind_run _ _ _ _ tt []
               (assign_filtered_run n trigger row (set_filtered_eeg buffer w1)
                  Erow Hrow)).
    cbn [filtered_eeg set_filtered_eeg]. rewrite Hfinal.
    rewrite bind_get, bind_modify.
    unfold modify. cbn [result after calls filtered_eeg set_filtered_eeg
                        chunk_counter set_chunk_counter app].
    rewrite app_nil_r.
    replace (firstn n (eeg ++ [trigger])) with eeg.
    + reflexivity.
    + rewrite firstn_app, He, Nat.sub_diag. simpl. rewrite app_nil_r.
      symmetry. apply firstn_all2. lia.
Qed.

(** A tick whose snapshot the conditioner rejects (a checked box holding a
    text that is no number, an EEG row the snapshot does not have) ends
    with the conditioner's exception after the pull: the chunk counter, the
    window buffer and both outlets are as they were. *)
Theorem tick_aborted_by_conditioner
        (gui : Gui) (chunk_checked : bool) (data : list (list Q)) (w : Window)
        (e : exn) :
  is_streaming w = true ->
  setup_window_size c <> 0 ->
  result (filtered c gui data) = Raised e ->
  update_data_buffer c gui chunk_checked data w
  = Run (Raised e) w
        (GetCurrentBoardData (num_points c) :: calls (filtered c gui data)).
Proof.
  intros Hs Hw Hr. unfold update_data_buffer. rewrite bind_get, Hs.
  rewrite (bind_run _ _ w w tt [] (window_check_run w Hw)).
  rewrite (bind_run _ _ w w tt [GetCurrentBoardData (num_points c)] eq_refl).
  rewrite (bind_stop _ _ w w e _ (conditioning_raised gui data w e Hr)).
  reflexivity.
Qed.

(** A snapshot whose first EEG row has neither the length of the rows of
    the window buffer nor length one (a read shorter than the window) ends
    the tick with [ValueError] at the first copy: nothing is published and
    the buffer is as it was, but the chunk counter has already gone up. *)
Theorem short_read_costs_a_chunk_number
        (gui : Gui) (chunk_checked : bool) (data : list (list Q)) (w : Window)
        (src row : list Q) :
  let data' := after (filtered c gui data) in
  is_streaming w = true ->
  setup_window_size c <> 0 ->
  result (filtered c gui data) = Returned tt ->
  (1 <= setup_channels c)%nat ->
  nth_error (slice (setup_start_eeg c) (setup_end_eeg c) data') 0 = Some src ->
  nth_error (filtered_eeg w) 0 = Some row ->
  List.length src <> List.length row ->
  List.length src <> 1%nat ->
  update_data_buffer c gui chunk_checked data w
  = Run (Raised ValueError) (set_chunk_counter (chunk_counter w + 1) w)
        (GetCurrentBoardData (num_points c) :: calls (filtered c gui data)).
Proof.
  intros data' Hs Hw Hr Hn Hsrc Hrow Hlen H1.
  unfold update_data_buffer. rewrite bind_get, Hs.
  rewrite (bind_run _ _ w w tt [] (window_check_run w Hw)).
  rewrite (bind_run _ _ w w tt [GetCurrentBoardData (num_points c)] eq_refl).
  rewrite (bind_run _ _ w w _ _ (conditioning_returned gui data w Hr)).
  fold data'. rewrite bind_modify.
  destruct (setup_channels c) as [|m]; [lia|].
  set (w1 := set_chunk_counter (chunk_counter w + 1) w).
  set (full := slice (setup_start_eeg c) (setup_end_eeg c) data') in *.
  assert (Hfail : assign_filtered 0 src w1 = Run (Raised ValueError) w1 [])
    by (apply (assign_filtered_mismatch 0 src row w1); assumption).
  assert (Hcopy : copy_channels full (seq 0 (S m)) w1
                  = Run (Raised ValueError) w1 []).
  { cbn [seq copy_channels]. unfold item. rewrite Hsrc, bind_ret.
    now rewrite (bind_stop _ _ w1 w1 ValueError [] Hfail). }
  rewrite (bind_stop _ _ w1 w1 ValueError [] Hcopy).
  cbn [result after calls app]. now rewrite app_nil_r.
Qed.

(** Once the stream has been stopped with the button, the data tick does
    nothing at all and the plot tick neither pulls nor draws; the button
    reads Start, and pressing it again sets the stream running with the
    counter, the buffer and the outlets as they were. *)
Theorem stopped_stream_is_silent
        (gui : Gui) (chunk_checked : bool) (data : list (list Q)) (w : Window)
        (d : Display) :
  is_streaming w = true ->
  0 <= num_points c ->
  let stopped := after (toggle_stream w) in
  stopped = switch_stream false "Start" w
  /\ update_data_buffer c gui chunk_checked data stopped
     = Run (Returned tt) stopped []
  /\ update_plot c (is_streaming stopped) gui data d = Run (Returned tt) d []
  /\ after (toggle_stream stopped) = switch_stream true "Stop" w.
Proof.
  intros Hs Hp stopped.
  assert (E : stopped = switch_stream false "Start" w).
  { unfold stopped, toggle_stream. rewrite bind_get, Hs. reflexivity. }
  rewrite E. split; [reflexivity|]. split; [reflexivity|]. split.
  - unfold update_plot. cbn [is_streaming switch_stream].
    destruct (Z.ltb_spec (num_points c) 0); [lia | reflexivity].
  - reflexivity.
Qed.

End TickFacts.

(** ** WindowBuffer: the quality report *)

Lemma set_nth_length {A : Type} (l : list A) (i : nat) (x : A) :
  List.length (set_nth l i x) = List.length l.
Proof.
  revert i. induction l as [|y l IH]; intros [|j]; simpl; auto.
Qed.

Lemma nth_error_set_nth {A : Type} (l : list A) (i j : nat) (x : A) :
  (i < List.length l)%nat ->
  nth_error (set_nth l i x) j
  = if (i =? j)%nat then Some x else nth_error l j.
Proof.
  revert i j. induction l as [|y l IH]; intros i j Hi; simpl in Hi.
  - lia.
  - destruct i as [|i], j as [|j]; simpl; try reflexivity.
    apply IH. lia.
Qed.

Lemma set_quality_indicators_same (d : Display) :
  set_quality_indicators (quality_indicators d) d = d.
Proof. now destruct d. Qed.

Lemma set_brush_run (i : nat) (color : string) (d : Display) :
  (i < List.length (quality_indicators d))%nat ->
  set_brush i color d
  = Run (Returned tt)
        (set_quality_indicators (set_nth (quality_indicators d) i color) d) [].
Proof.
  intros Hi. unfold set_brush, item. rewrite bind_get.
  destruct (nth_error (quality_indicators d) i) eqn:E.
  - now rewrite bind_ret.
  - apply nth_error_None in E. lia.
Qed.

Lemma set_brush_out (i : nat) (color : string) (d : Display) :
  (List.length (quality_indicators d) <= i)%nat ->
  set_brush i color d = Run (Raised IndexError) d [].
Proof.
  intros Hi. unfold set_brush, item. rewrite bind_get.
  apply nth_error_None in Hi. rewrite Hi. reflexivity.
Qed.

Lemma row_quality (thresholds : list Quality.threshold) (row : list Q) :
  row <> [] ->
  exists amplitude : Q,
    Quality.get_channel_quality thresholds row 75
    = Some (row_color thresholds row, amplitude, row_score thresholds row).
Proof.
  intros Hrow. unfold row_color, row_score.
  destruct (Quality.get_channel_quality thresholds row 75)
    as [[[color amplitude] q_score]|] eqn:E.
  - now exists amplitude.
  - exfalso. unfold Quality.get_channel_quality in E.
    destruct row as [|x rest]; [now apply Hrow|].
    unfold Quality.np_percentile in E.
    destruct (Quality.scan_thresholds thresholds _ _ _); discriminate.
Qed.

Lemma scan_thresholds_score (thresholds : list Quality.threshold)
      (amplitude : Q) (color : string) (q_score : Q) :
  snd (Quality.scan_thresholds thresholds amplitude color q_score) = q_score
  \/ In (snd (Quality.scan_thresholds thresholds amplitude color q_score))
        (map snd thresholds).
Proof.
  induction thresholds as [|[[[low high] label] score] rest IH]; simpl.
  - now left.
  - destruct (Qle_bool low amplitude && Qle_bool amplitude high).
    + right. now left.
    + destruct IH as [IH|IH]; [now left | right; now right].
Qed.

Lemma row_score_in_table (thresholds : list Quality.threshold) (row : list Q) :
  row_score thresholds row = 0%Q
  \/ In (row_score thresholds row) (map snd thresholds).
Proof.
  unfold row_score, Quality.get_channel_quality.
  destruct (Quality.np_percentile row 75) as [amplitude|]; [|now left].
  pose proof (scan_thresholds_score thresholds amplitude "red" 0%Q) as H.
  destruct (Quality.scan_thresholds thresholds amplitude "red" 0%Q)
    as [color q_score].
  exact H.
Qed.

Section QualityReport.

Variable c : Setup.

(** The loop of [update_quality_indicators] from indicator [i] on. *)
Lemma score_channels_run (rows : list (list Q)) :
  Forall (fun row => row <> []) rows ->
  forall (i : nat) (q_scores : list Q) (d : Display),
    (i <= List.length (quality_indicators d))%nat ->
    exists brushes : list string,
      score_channels c rows i q_scores d
      = Run (if (i + List.length rows <=? List.length (quality_indicators d))%nat
             then Returned (q_scores
                            ++ map (row_score (setup_thresholds c)) rows)
             else Raised IndexError)
            (set_quality_indicators brushes d) []
      /\ List.length brushes = List.length (quality_indicators d)
      /\ forall j : nat,
          nth_error brushes j
          = if ((i <=? j) && (j <? i + List.length rows)
                && (j <? List.length (quality_indicators d)))%nat
            then nth_error (map (row_color (setup_thresholds c)) rows) (j - i)
            else nth_error (quality_indicators d) j.
Proof.
  induction 1 as [|row rest Hrow Hrest IH]; intros i q_scores d Hi.
  - exists (quality_indicators d). cbn [score_channels List.length map].
    rewrite set_quality_indicators_same, Nat.add_0_r, app_nil_r.
    destruct (Nat.leb_spec i (List.length (quality_indicators d))); [|lia].
    repeat split. intros j.
    destruct (Nat.leb_spec i j), (Nat.ltb_spec j i); simpl;
      try reflexivity; lia.
  - destruct (row_quality (setup_thresholds c) row Hrow) as [amplitude Hq].
    cbn [score_channels]. rewrite Hq.
    destruct (Nat.ltb_spec i (List.length (quality_indicators d))) as [Hlt|Hge].
    + set (d1 := set_quality_indicators
                   (set_nth (quality_indicators d) i
                      (row_color (setup_thresholds c) row)) d).
      assert (Hl1 : List.length (quality_indicators d1)
                    = List.length (quality_indicators d))
        by (unfold d1; cbn [quality_indicators set_quality_indicators];
            apply set_nth_length).
      destruct (IH (S i) (q_scores ++ [row_score (setup_thresholds c) row]) d1)
        as [brushes [Hrun [Hl Hn]]]; [lia|].
      exists brushes. split; [|split].
      * rewrite (bind_run _ _ d d1 tt []
                   (set_brush_run i _ d Hlt)).
        rewrite Hrun, Hl1. cbn [result after calls app List.length map].
        rewrite <- app_assoc. cbn [app].
        replace (S i + List.length rest)%nat
          with (i + S (List.length rest))%nat by lia.
        reflexivity.
      * now rewrite Hl.
      * intros j. rewrite Hn, Hl1. unfold d1.
        cbn [quality_indicators set_quality_indicators List.length map].
        rewrite nth_error_set_nth by exact Hlt.
        destruct (Nat.eqb_spec i j) as [<-|Hne].
        -- destruct (Nat.leb_spec (S i) i), (Nat.leb_spec i i),
                    (Nat.ltb_spec i (i + S (List.length rest))),
                    (Nat.ltb_spec i (List.length (quality_indicators d)));
             simpl; try lia.
           now rewrite Nat.sub_diag.
        -- destruct (Nat.leb_spec (S i) j), (Nat.leb_spec i j),
                    (Nat.ltb_spec j (S i + List.length rest)),
                    (Nat.ltb_spec j (i + S (List.length rest))),
                    (Nat.ltb_spec j (List.length (quality_indicators d)));
             simpl; try reflexivity; try lia.
           replace (j - i)%nat with (S (j - S i)) by lia. reflexivity.
    + exists (quality_indicators d). split; [|split].
      * rewrite (bind_stop _ _ d d IndexError [] (set_brush_out i _ d Hge)).
        rewrite set_quality_indicators_same. cbn [List.length].
        destruct (Nat.leb_spec (i + S (List.length rest))
                    (List.length (quality_indicators d))); [lia|reflexivity].
      * reflexivity.
      * intros j.
        destruct (Nat.leb_spec i j),
                 (Nat.ltb_spec j (List.length (quality_indicators d)));
          rewrite ?andb_false_r; simpl; try reflexivity; lia.
Qed.

Lemma score_all (rows : list (list Q)) (d : Display) :
  Forall (fun row => row <> []) rows ->
  exists brushes : list string,
    score_channels c rows 0 [] d
    = Run (if (List.length rows <=? List.length (quality_indicators d))%nat
           then Returned (map (row_score (setup_thresholds c)) rows)
           else Raised IndexError)
          (set_quality_indicators brushes d) []
    /\ forall j : nat,
        nth_error brushes j
        = if ((j <? List.length rows)
              && (j <? List.length (quality_indicators d)))%nat
          then nth_error (map (row_color (setup_thresholds c)) rows) j
          else nth_error (quality_indicators d) j.
Proof.
  intros Hrows.
  destruct (score_channels_run rows Hrows 0 [] d) as [brushes [Hrun [_ Hn]]];
    [lia|].
  exists brushes. split; [exact Hrun|].
  intros j. rewrite Hn. simpl. now rewrite Nat.sub_0_r.
Qed.

Lemma quality_run (sample : list (list Q)) (push : bool) (d : Display) :
  let rows := slice (setup_start_eeg c) (setup_end_eeg c) sample in
  Forall (fun row => row <> []) rows ->
  (List.length rows <= List.length (quality_indicators d))%nat ->
  update_quality_indicators c sample push d
  = Run (Returned tt)
        ((if push
          then push_quality (map (row_score (setup_thresholds c)) rows)
          else fun d' => d')
           (set_quality_indicators
              (map (row_color (setup_thresholds c)) rows
               ++ skipn (List.length rows) (quality_indicators d)) d))
        [Log DEBUG "Qualities"].
Proof.
  intros rows Hrows Hfit.
  destruct (score_all rows d Hrows) as [brushes [Hrun Hn]].
  assert (E : brushes
              = map (row_color (setup_thresholds c)) rows
                ++ skipn (List.length rows) (quality_indicators d)).
  { apply nth_error_ext. intros j. rewrite Hn.
    destruct (Nat.ltb_spec j (List.length rows)) as [Hj|Hj].
    - rewrite nth_error_app1 by (rewrite length_map; exact Hj).
      destruct (Nat.ltb_spec j (List.length (quality_indicators d))); [|lia].
      reflexivity.
    - rewrite nth_error_app2 by (rewrite length_map; exact Hj).
      rewrite length_map, nth_error_skipn. simpl.
      f_equal. lia. }
  unfold update_quality_indicators. fold rows.
  destruct (Nat.leb_spec (List.length rows)
              (List.length (quality_indicators d))) as [_|Hno]; [|lia].
  rewrite (bind_run _ _ d _ _ [] Hrun). rewrite <- E. cbn [app].
  destruct push.
  - rewrite bind_modify. reflexivity.
  - rewrite bind_ret. reflexivity.
Qed.

(** With no more rows in [sample[eeg_start:eeg_end]] than there are
    indicators, and no row without samples, [update_quality_indicators]
    returns after one debug log: indicator [i] has the colour of row [i] of
    the slice, the indicators beyond the slice keep theirs, and, when asked
    to push, one report goes to the quality outlet with the score of each
    row in order.  Every score reported is 0 or a score of the configured
    table. *)
Theorem quality_report (sample : list (list Q)) (push : bool) (d : Display) :
  let rows := slice (setup_start_eeg c) (setup_end_eeg c) sample in
  Forall (fun row => row <> []) rows ->
  (List.length rows <= List.length (quality_indicators d))%nat ->
  update_quality_indicators c sample push d
  = Run (Returned tt)
        ((if push
          then push_quality (map (row_score (setup_thresholds c)) rows)
          else fun d' => d')
           (set_quality_indicators
              (map (row_color (setup_thresholds c)) rows
               ++ skipn (List.length rows) (quality_indicators d)) d))
        [Log DEBUG "Qualities"]
  /\ Forall (fun q_score =>
               q_score = 0%Q \/ In q_score (map snd (setup_thresholds c)))
            (map (row_score (setup_thresholds c)) rows).
Proof.
  intros rows Hrows Hfit. split.
  - exact (quality_run sample push d Hrows Hfit).
  - apply Forall_forall. intros q_score Hin.
    apply in_map_iff in Hin. destruct Hin as [row [<- _]].
    apply row_score_in_table.
Qed.

(** With more rows in the slice than indicators, the call ends with
    [IndexError] once every indicator has been given the colour of its row:
    nothing is pushed and nothing is logged. *)
Theorem quality_report_overflow
        (sample : list (list Q)) (push : bool) (d : Display) :
  let rows := slice (setup_start_eeg c) (setup_end_eeg c) sample in
  Forall (fun row => row <> []) rows ->
  (List.length (quality_indicators d) < List.length rows)%nat ->
  update_quality_indicators c sample push d
  = Run (Raised IndexError)
        (set_quality_indicators
           (map (row_color (setup_thresholds c))
                (firstn (List.length (quality_indicators d)) rows)) d)
        [].
Proof.
  intros rows Hrows Hover.
  destruct (score_all rows d Hrows) as [brushes [Hrun Hn]].
  assert (E : brushes
              = map (row_color (setup_thresholds c))
                    (firstn (List.length (quality_indicators d)) rows)).
  { apply nth_error_ext. intros j. rewrite Hn.
    destruct (Nat.ltb_spec j (List.length (quality_indicators d))) as [Hj|Hj].
    - destruct (Nat.ltb_spec j (List.length rows)); [|lia].
      simpl. rewrite !nth_error_map.
      now rewrite nth_error_firstn_lt by exact Hj.
    - rewrite andb_false_r.
      assert (E1 : nth_error (quality_indicators d) j = None)
        by (now apply nth_error_None).
      rewrite E1. symmetry. apply nth_error_None.
      rewrite length_map, length_firstn. lia. }
  unfold update_quality_indicators. fold rows.
  destruct (Nat.leb_spec (List.length rows)
              (List.length (quality_indicators d))) as [Hno|_]; [lia|].
  rewrite (bind_stop _ _ d _ _ [] Hrun). now rewrite E.
Qed.

End QualityReport.

(** ** WindowBuffer: the plot tick *)

Lemma set_curves_same (d : Display) : set_curves (curves d) d = d.
Proof. now destruct d. Qed.

Lemma set_curve_run (i : nat) (values : list Q) (d : Display) :
  (i < List.length (curves d))%nat ->
  set_curve i values d
  = Run (Returned tt) (set_curves (set_row (curves d) i values) d) [].
Proof.
  intros Hi. unfold set_curve, item. rewrite bind_get.
  destruct (nth_error (curves d) i) eqn:E.
  - now rewrite bind_ret.
  - apply nth_error_None in E. lia.
Qed.

Lemma assign_local_run (buffer : list (list Q)) (i : nat)
      (values row : list Q) (d : Display) :
  nth_error buffer i = Some row ->
  List.length values = List.length row ->
  assign_local buffer i values d
  = Run (Returned (set_row buffer i values)) d [].
Proof.
  intros Hrow Hlen. unfold assign_local, item.
  rewrite Hrow, bind_ret, <- Hlen, broadcast_same. reflexivity.
Qed.

Lemma nth_error_offset_curves (channels : list (list Q)) :
  forall k i : nat,
    nth_error (offset_curves k channels) i
    = option_map (offset_curve (k + i)) (nth_error channels i).
Proof.
  induction channels as [|ch rest IH]; intros k i.
  - now destruct i.
  - destruct i as [|i]; simpl.
    + now rewrite Nat.add_0_r.
    + rewrite IH. now replace (S k + i)%nat with (k + S i)%nat by lia.
Qed.

Lemma offset_curves_length (channels : list (list Q)) (k : nat) :
  List.length (offset_curves k channels) = List.length channels.
Proof.
  revert k. induction channels as [|ch rest IH]; intros k; simpl; auto.
Qed.

Section PlotFacts.

Variable c : Setup.

(** The loop of [update_plot] over the channels [k, k + m). *)
Lemma plot_channels_run (full : list (list Q)) (m : nat) :
  forall (k : nat) (buffer : list (list Q)) (d : Display),
    (k + m <= List.length full)%nat ->
    (k + m <= List.length buffer)%nat ->
    (forall (i : nat) (row src : list Q),
        (k <= i < k + m)%nat ->
        nth_error buffer i = Some row ->
        nth_error full i = Some src ->
        List.length src = List.length row) ->
    (setup_plot c = true -> (k + m <= List.length (curves d))%nat) ->
    exists (buffer' cs : list (list Q)),
      plot_channels c full (seq k m) buffer d
      = Run (Returned buffer') (set_curves cs d) []
      /\ List.length buffer' = List.length buffer
      /\ (forall i : nat,
             nth_error buffer' i
             = if ((k <=? i) && (i <? k + m))%nat then nth_error full i
               else nth_error buffer i)
      /\ List.length cs = List.length (curves d)
      /\ (forall i : nat,
             nth_error cs i
             = if (setup_plot c && (k <=? i) && (i <? k + m))%nat
               then option_map (offset_curve i) (nth_error full i)
               else nth_error (curves d) i).
Proof.
  induction m as [|m IH]; intros k buffer d Hf Hb Hlen Hc.
  - exists buffer, (curves d). cbn [seq plot_channels].
    rewrite set_curves_same. repeat split.
    + intros i.
      destruct (Nat.leb_spec k i), (Nat.ltb_spec i (k + 0));
        simpl; try reflexivity; lia.
    + intros i.
      destruct (setup_plot c), (Nat.leb_spec k i), (Nat.ltb_spec i (k + 0));
        simpl; try reflexivity; lia.
  - destruct (nth_error full k) as [src|] eqn:Esrc.
    2:{ apply nth_error_None in Esrc. lia. }
    destruct (nth_error buffer k) as [row|] eqn:Erow.
    2:{ apply nth_error_None in Erow. lia. }
    assert (Hsrc : List.length src = List.length row)
      by (apply (Hlen k); [lia | exact Erow | exact Esrc]).
    set (buffer1 := set_row buffer k src).
    assert (Hl1 : List.length buffer1 = List.length buffer)
      by apply set_row_length.
    assert (Hlen1 : forall (i : nat) (row' src' : list Q),
               (S k <= i < S k + m)%nat ->
               nth_error buffer1 i = Some row' ->
               nth_error full i = Some src' ->
               List.length src' = List.length row').
    { intros i row' src' Hi Hrow' Hsrc'. unfold buffer1 in Hrow'.
      rewrite nth_error_set_row in Hrow' by lia.
      destruct (Nat.eqb_spec k i); [lia|].
      apply (Hlen i); [lia | exact Hrow' | exact Hsrc']. }
    assert (Hn1 : forall i : nat,
               (if ((S k <=? i) && (i <? S k + m))%nat then nth_error full i
                else nth_error buffer1 i)
               = if ((k <=? i) && (i <? k + S m))%nat then nth_error full i
                 else nth_error buffer i).
    { intros i. unfold buffer1. rewrite nth_error_set_row by lia.
      destruct (Nat.eqb_spec k i) as [<-|Hne].
      - rewrite Esrc.
        destruct (Nat.leb_spec (S k) k), (Nat.ltb_spec k (S k + m)),
                 (Nat.leb_spec k k), (Nat.ltb_spec k (k + S m));
          simpl; try reflexivity; lia.
      - destruct (Nat.leb_spec (S k) i), (Nat.ltb_spec i (S k + m)),
                 (Nat.leb_spec k i), (Nat.ltb_spec i (k + S m));
          simpl; try reflexivity; lia. }
    cbn [seq plot_channels]. unfold item. rewrite Esrc, bind_ret.
    rewrite (bind_run _ _ d d buffer1 []
               (assign_local_run buffer k src row d Erow Hsrc)).
    fold (offset_curve k src).
    destruct (setup_plot c) eqn:Hp.
    + set (d1 := set_curves (set_row (curves d) k (offset_curve k src)) d).
      assert (Hk : (k < List.length (curves d))%nat)
        by (specialize (Hc eq_refl); lia).
      rewrite (bind_run _ _ d d1 tt [] (set_curve_run k _ d Hk)).
      destruct (IH (S k) buffer1 d1) as [buffer' [cs [Hrun [Hl [Hn [Hcl Hcn]]]]]].
      * lia.
      * lia.
      * exact Hlen1.
      * intros _. unfold d1. cbn [curves set_curves].
        rewrite set_row_length. specialize (Hc eq_refl). lia.
      * exists buffer', cs. rewrite Hrun.
        split; [reflexivity|]. split; [lia|].
        split; [intros i; rewrite Hn; apply Hn1|].
        unfold d1 in Hcl, Hcn. cbn [curves set_curves] in Hcl, Hcn.
        rewrite set_row_length in Hcl. split; [exact Hcl|].
        intros i. rewrite Hcn. rewrite nth_error_set_row by exact Hk.
        destruct (Nat.eqb_spec k i) as [<-|Hne].
        -- rewrite Esrc.
           destruct (Nat.leb_spec (S k) k), (Nat.ltb_spec k (S k + m)),
                    (Nat.leb_spec k k), (Nat.ltb_spec k (k + S m));
             simpl; try reflexivity; lia.
        -- destruct (Nat.leb_spec (S k) i), (Nat.ltb_spec i (S k + m)),
                    (Nat.leb_spec k i), (Nat.ltb_spec i (k + S m));
             simpl; try reflexivity; lia.
    + rewrite bind_ret.
      destruct (IH (S k) buffer1 d) as [buffer' [cs [Hrun [Hl [Hn [Hcl Hcn]]]]]].
      * lia.
      * lia.
      * exact Hlen1.
      * intros Habs. discriminate Habs.
      * exists buffer', cs. rewrite Hrun.
        split; [reflexivity|]. split; [lia|].
        split; [intros i; rewrite Hn; apply Hn1|].
        split; [exact Hcl|]. intros i. rewrite Hcn. reflexivity.
Qed.

End PlotFacts.

Lemma Qmax_fold_ge (l : list Q) :
  forall a : Q,
    (a <= fold_left Qmax l a)%Q
    /\ forall x : Q, In x l -> (x <= fold_left Qmax l a)%Q.
Proof.
  induction l as [|y l IH]; intros a; simpl.
  - split; [apply Qle_refl | intros x []].
  - destruct (IH (Qmax a y)) as [Ha Hin].
    assert (Hmax : (a <= Qmax a y)%Q /\ (y <= Qmax a y)%Q).
    { unfold Qmax. destruct (Qle_bool a y) eqn:E.
      - apply Qle_bool_iff in E. split; [exact E | apply Qle_refl].
      - apply Qle_bool_false in E. split; [apply Qle_refl | now apply Qlt_le_weak]. }
    destruct Hmax as [H1 H2]. split.
    + now apply Qle_trans with (Qmax a y).
    + intros x [<-|Hx]; [now apply Qle_trans with (Qmax a y) | now apply Hin].
Qed.

Lemma matrix_max_bound (m : list (list Q)) (top : Q) :
  matrix_max m = Some top ->
  forall (row : list Q) (x : Q), In row m -> In x row -> (x <= top)%Q.
Proof.
  unfold matrix_max. intros H row x Hrow Hx.
  assert (Hin : In x (List.concat m))
    by (apply in_concat; exists row; now split).
  destruct (List.concat m) as [|a rest]; [discriminate|].
  injection H as <-. destruct (Qmax_fold_ge rest a) as [Ha Hrest].
  destruct Hin as [<-|Hin]; [exact Ha | now apply Hrest].
Qed.

Lemma Qmax_fold_in (l : list Q) :
  forall a : Q, fold_left Qmax l a = a \/ In (fold_left Qmax l a) l.
Proof.
  induction l as [|y l IH]; intros a; simpl; [now left|].
  destruct (IH (Qmax a y)) as [E|Hin]; [|right; now right].
  rewrite E. unfold Qmax. destruct (Qle_bool a y); [right; now left | now left].
Qed.

Lemma matrix_max_in (m : list (list Q)) (top : Q) :
  matrix_max m = Some top -> In top (List.concat m).
Proof.
  unfold matrix_max. destruct (List.concat m) as [|a rest]; [discriminate|].
  intros H. injection H as <-.
  destruct (Qmax_fold_in rest a) as [-> | Hin]; [now left | now right].
Qed.

Lemma matrix_max_some (m : list (list Q)) (row : list Q) :
  In row m -> row <> [] -> exists top : Q, matrix_max m = Some top.
Proof.
  intros Hrow Hne. unfold matrix_max.
  destruct (List.concat m) as [|a rest] eqn:E.
  - exfalso. destruct row as [|x row']; [now apply Hne|].
    assert (Hin : In x (List.concat m))
      by (apply in_concat; exists (x :: row'); split; [exact Hrow | now left]).
    now rewrite E in Hin.
  - now eexists.
Qed.

Lemma In_slice {A : Type} (start stop : nat) (l : list A) (x : A) :
  In x (slice start stop l) -> In x l.
Proof.
  unfold slice. intros H.
  rewrite <- (firstn_skipn start l). apply in_or_app. right.
  rewrite <- (firstn_skipn (stop - start) (skipn start l)).
  apply in_or_app. now left.
Qed.

Section PlotRun.

Variable c : Setup.

(** A plot tick on a running stream, when it goes through. *)
Lemma update_plot_run (gui : Gui) (data : list (list Q)) (d : Display)
      (last_row : list Q) (top : Q) :
  let data' := after (filtered c gui data) in
  let channels := channel_rows c data' in
  let full := slice (setup_start_eeg c) (setup_end_eeg c) data' in
  let p := Z.to_nat (num_points c) in
  let scored := slice (setup_start_eeg c) (setup_end_eeg c)
                  (channels ++ [repeat 0%Q p]) in
  setup_window_size c <> 0 ->
  0 < num_points c ->
  result (filtered c gui data) = Returned tt ->
  List.length channels = setup_channels c ->
  Forall (fun row => List.length row = p) channels ->
  nth_error data' (List.length data' - 1) = Some last_row ->
  matrix_max full = Some top ->
  (setup_plot c = true -> List.length (curves d) = S (setup_channels c)) ->
  (List.length scored <= List.length (quality_indicators d))%nat ->
  update_plot c true gui data d
  = Run (Returned tt)
        (push_quality (map (row_score (setup_thresholds c)) scored)
           (set_quality_indicators
              (map (row_color (setup_thresholds c)) scored
               ++ skipn (List.length scored) (quality_indicators d))
              (set_y_range (trigger_offset - offset_amplitude)%Q
                 ((inject_Z (Z.of_nat (setup_channels c)) - 1)
                  * offset_amplitude + top)%Q
                 (set_curves
                    (if setup_plot c
                     then offset_curves 0 channels ++ [trigger_curve last_row]
                     else curves d) d))))
        (GetCurrentBoardData (num_points c)
         :: calls (filtered c gui data) ++ [Log DEBUG "Qualities"]).
Proof.
  intros data' channels full p scored Hw Hp Hr Hc Hcp Hlast Htop Hcurves Hfit.
  set (n := setup_channels c) in *.
  assert (Hfull : (n <= List.length full)%nat).
  { unfold channels, channel_rows in Hc. fold full n in Hc.
    rewrite length_firstn in Hc. lia. }
  assert (Hch : forall i : nat, (i < n)%nat ->
                                nth_error channels i = nth_error full i).
  { intros i Hi. unfold channels, channel_rows. fold full n.
    now apply nth_error_firstn_lt. }
  set (buffer := zeros (n + 1) p).
  assert (Hzl : List.length buffer = S n)
    by (unfold buffer, zeros; rewrite repeat_length; lia).
  assert (Hzn : forall i row, nth_error buffer i = Some row -> row = repeat 0%Q p).
  { intros i row E. apply nth_error_In in E.
    unfold buffer, zeros in E. now apply repeat_spec in E. }
  destruct (plot_channels_run c full n 0 buffer d)
    as [buffer' [cs [Hrun [Hbl [Hbn [Hcl Hcn]]]]]].
  - simpl. exact Hfull.
  - simpl. lia.
  - intros i row src Hi Hrow Hsrc. rewrite (Hzn i row Hrow), repeat_length.
    apply (Forall_nth_error _ channels i src Hcp). rewrite Hch by lia.
    exact Hsrc.
  - intros Hplot. rewrite (Hcurves Hplot). simpl. lia.
  - assert (Hbuf : buffer' = channels ++ [repeat 0%Q p]).
    { apply nth_error_ext. intros i. rewrite Hbn.
      destruct (Nat.leb_spec 0 i), (Nat.ltb_spec i (0 + n)); simpl; try lia.
      - rewrite nth_error_app1 by lia. symmetry. apply Hch. simpl in *; lia.
      - rewrite nth_error_app2 by lia. rewrite Hc.
        destruct (Nat.eqb_spec i n) as [->|Hne].
        + rewrite Nat.sub_diag. unfold buffer, zeros.
          rewrite nth_error_repeat by lia. reflexivity.
        + assert (E1 : nth_error buffer i = None)
            by (apply nth_error_None; simpl in *; lia).
          rewrite E1. symmetry. apply nth_error_None. simpl in *. lia. }
    assert (Hrows : Forall (fun row => row <> [])
                      (slice (setup_start_eeg c) (setup_end_eeg c) buffer')).
    { rewrite Hbuf. apply Forall_forall. intros row Hin.
      apply In_slice in Hin.
      assert (Hlen : List.length row = p).
      { apply in_app_or in Hin. destruct Hin as [Hin|[<-|[]]].
        - rewrite Forall_forall in Hcp. now apply Hcp.
        - apply repeat_length. }
      intros ->. simpl in Hlen. lia. }
    unfold update_plot.
    destruct (Z.ltb_spec (num_points c) 0) as [Hneg|_]; [lia|].
    rewrite bind_ret.
    rewrite (bind_run _ _ d d tt [] (window_check_run c d Hw)).
    rewrite (bind_run _ _ d d tt [GetCurrentBoardData (num_points c)] eq_refl).
    rewrite (bind_run _ _ d d _ _ (conditioning_returned c gui data d Hr)).
    fold data'. fold full. fold n. fold p. fold buffer.
    rewrite (bind_run _ _ d _ _ [] Hrun).
    unfold last_item, item. rewrite Hlast, bind_ret, Htop.
    assert (Hq := quality_run c buffer' true).
    cbv zeta in Hq. fold n in Hq.
    destruct (setup_plot c) eqn:Hplot.
    + specialize (Hcurves eq_refl).
      assert (Hlast_curve : (n < List.length (curves (set_curves cs d)))%nat)
        by (cbn [curves set_curves]; lia).
      assert (Hset : forall values : list Q,
                 bind get (fun d0 : Display =>
                             set_curve (List.length (curves d0) - 1) values)
                      (set_curves cs d)
                 = Run (Returned tt) (set_curves (set_row cs n values) d) []).
      { intros values. rewrite bind_get. cbn [curves set_curves].
        rewrite Hcl, Hcurves. replace (S n - 1)%nat with n by lia.
        now rewrite (set_curve_run n values (set_curves cs d) Hlast_curve). }
      rewrite (bind_run _ _ _ _ tt [] (Hset _)).
      fold (trigger_curve last_row).
      assert (Hcs : set_row cs n (trigger_curve last_row)
                    = offset_curves 0 channels ++ [trigger_curve last_row]).
      { apply nth_error_ext. intros i.
        rewrite nth_error_set_row by lia.
        destruct (Nat.eqb_spec n i) as [<-|Hne].
        - rewrite nth_error_app2 by (rewrite offset_curves_length; lia).
          now rewrite offset_curves_length, Hc, Nat.sub_diag.
        - rewrite Hcn.
          destruct (Nat.leb_spec 0 i), (Nat.ltb_spec i (0 + n)); simpl;
            try lia.
          + rewrite nth_error_app1 by (rewrite offset_curves_length; lia).
            rewrite nth_error_offset_curves. simpl. now rewrite Hch by lia.
          + assert (E1 : nth_error (curves d) i = None)
              by (apply nth_error_None; simpl in *; lia).
            rewrite E1. symmetry. apply nth_error_None.
            rewrite length_app, offset_curves_length. simpl in *. lia. }
      rewrite Hcs, bind_modify.
      rewrite Hq; [| exact Hrows
                   | rewrite Hbuf; cbn [quality_indicators set_y_range set_curves];
                     exact Hfit].
      rewrite Hbuf. cbn [result after calls app quality_indicators
                         set_y_range set_curves].
      reflexivity.
    + assert (Hcs : cs = curves d).
      { apply nth_error_ext. intros i. now rewrite Hcn. }
      rewrite bind_ret, bind_modify, Hcs, set_curves_same.
      rewrite Hq; [| exact Hrows
                   | rewrite Hbuf; cbn [quality_indicators set_y_range];
                     exact Hfit].
      rewrite Hbuf. cbn [result after calls app quality_indicators
                         set_y_range set_curves].
      reflexivity.
Qed.

End PlotRun.

Lemma scan_thresholds_amplitude (thresholds : list Quality.threshold)
      (a b : Q) (color : string) (q_score : Q) :
  (a == b)%Q ->
  Quality.scan_thresholds thresholds a color q_score
  = Quality.scan_thresholds thresholds b color q_score.
Proof.
  intros E.
  assert (Hle : forall x : Q, Qle_bool x a = Qle_bool x b
                              /\ Qle_bool a x = Qle_bool b x).
  { intros x. split.
    - destruct (Qle_bool x b) eqn:Eb.
      + apply Qle_bool_iff. apply Qle_bool_iff in Eb. now rewrite E.
      + apply Qle_bool_false. apply Qle_bool_false in Eb. now rewrite E.
    - destruct (Qle_bool b x) eqn:Eb.
      + apply Qle_bool_iff. apply Qle_bool_iff in Eb. now rewrite E.
      + apply Qle_bool_false. apply Qle_bool_false in Eb. now rewrite E. }
  induction thresholds as [|[[[low high] label] score] rest IH]; simpl.
  - reflexivity.
  - destruct (Hle low) as [-> _]. destruct (Hle high) as [_ ->].
    now rewrite IH.
Qed.

Lemma sort_zeros (k : nat) : Quality.sort (repeat 0%Q k) = repeat 0%Q k.
Proof.
  induction k as [|k IH]; [reflexivity|].
  cbn [repeat Quality.sort fold_right]. fold (Quality.sort (repeat 0%Q k)).
  rewrite IH. now destruct k.
Qed.

Lemma nth_zeros (k i : nat) : nth i (repeat 0%Q k) 0%Q = 0%Q.
Proof.
  revert i. induction k as [|k IH]; intros [|i]; simpl; auto.
Qed.

(** A row of zeros has amplitude 0, whatever its length. *)
Lemma zero_row_quality (thresholds : list Quality.threshold) (k : nat) :
  (0 < k)%nat ->
  row_color thresholds (repeat 0%Q k) = fst (Quality.bucket thresholds 0)
  /\ row_score thresholds (repeat 0%Q k) = snd (Quality.bucket thresholds 0).
Proof.
  intros Hk. unfold row_color, row_score, Quality.get_channel_quality,
               Quality.bucket.
  destruct k as [|k]; [lia|].
  unfold Quality.np_percentile. cbn [repeat].
  change (0%Q :: repeat 0%Q k) with (repeat 0%Q (S k)).
  rewrite sort_zeros. unfold Quality.linear_percentile.
  rewrite !nth_zeros.
  match goal with
  | |- context [Quality.scan_thresholds thresholds ?a _ _] =>
      rewrite (scan_thresholds_amplitude thresholds a 0 "red" 0)
        by (ring)
  end.
  destruct (Quality.scan_thresholds thresholds 0 "red" 0); split; reflexivity.
Qed.

Lemma trigger_curve_points (last_row : list Q) :
  Forall2 (fun x y => (y == 4000 * x - 200)%Q)
          last_row (trigger_curve last_row).
Proof.
  unfold trigger_curve. induction last_row as [|x rest IH]; simpl;
    constructor.
  - unfold trigger_offset, offset_amplitude. field.
  - apply IH.
Qed.

Section PlotProperties.

Variable c : Setup.

Lemma last_row_exists (data : list (list Q)) :
  (1 <= List.length (channel_rows c data))%nat ->
  exists last_row : list Q,
    nth_error data (List.length data - 1) = Some last_row.
Proof.
  intros H.
  destruct (nth_error data (List.length data - 1)) as [row|] eqn:E.
  - now exists row.
  - exfalso. apply nth_error_None in E.
    unfold channel_rows, slice in H.
    rewrite !length_firstn, length_skipn in H. lia.
Qed.

Lemma top_exists (data : list (list Q)) (p : nat) :
  (1 <= List.length (channel_rows c data))%nat ->
  (0 < p)%nat ->
  Forall (fun row => List.length row = p) (channel_rows c data) ->
  exists top : Q,
    matrix_max (slice (setup_start_eeg c) (setup_end_eeg c) data) = Some top.
Proof.
  intros Hn Hp Hrows.
  destruct (channel_rows c data) as [|row rest] eqn:E; [simpl in Hn; lia|].
  apply (matrix_max_some _ row).
  - assert (Hin : In row (channel_rows c data)) by (rewrite E; now left).
    unfold channel_rows in Hin.
    rewrite <- (firstn_skipn (setup_channels c)
                  (slice (setup_start_eeg c) (setup_end_eeg c) data)).
    apply in_or_app. now left.
  - inversion Hrows as [|? ? Hlen _]. intros ->. simpl in Hlen. lia.
Qed.

(** On a plot tick that goes through, the quality report is computed on
    rows [eeg_start:eeg_end] of a buffer that holds channel [count] in row
    [count] and a row of zeros after the channels.  With [eeg_start = 0]
    and [eeg_end] the number of channels the report has the score of each
    channel in order.  With [1 <= eeg_start] the report starts at channel
    [eeg_start], and ends with the score of the row of zeros, which is the
    score of amplitude 0 whatever the signal. *)
Theorem plot_scores_rows_from_eeg_start
        (gui : Gui) (data : list (list Q)) (d : Display) :
  let data' := after (filtered c gui data) in
  let channels := channel_rows c data' in
  let p := Z.to_nat (num_points c) in
  let scored := slice (setup_start_eeg c) (setup_end_eeg c)
                  (channels ++ [repeat 0%Q p]) in
  let r := update_plot c true gui data d in
  setup_window_size c <> 0 ->
  0 < num_points c ->
  result (filtered c gui data) = Returned tt ->
  (1 <= setup_channels c)%nat ->
  List.length channels = setup_channels c ->
  Forall (fun row => List.length row = p) channels ->
  (setup_plot c = true -> List.length (curves d) = S (setup_channels c)) ->
  (List.length scored <= List.length (quality_indicators d))%nat ->
  result r = Returned tt
  /\ quality_outlet (after r)
     = quality_outlet d ++ [map (row_score (setup_thresholds c)) scored]
  /\ quality_indicators (after r)
     = map (row_color (setup_thresholds c)) scored
       ++ skipn (List.length scored) (quality_indicators d)
  /\ (setup_start_eeg c = 0%nat -> setup_end_eeg c = setup_channels c ->
      scored = channels)
  /\ ((1 <= setup_start_eeg c <= setup_channels c)%nat ->
      scored = skipn (setup_start_eeg c) channels ++ [repeat 0%Q p]
      /\ row_score (setup_thresholds c) (repeat 0%Q p)
         = snd (Quality.bucket (setup_thresholds c) 0)).
Proof.
  intros data' channels p scored r Hw Hp Hr Hn Hc Hcp Hcurves Hfit.
  assert (Hc1 : (1 <= List.length (channel_rows c data'))%nat)
    by (fold channels; lia).
  assert (Hp0 : (0 < p)%nat) by (unfold p; lia).
  destruct (last_row_exists data' Hc1) as [last_row Hlast].
  destruct (top_exists data' p Hc1 Hp0 Hcp) as [top Htop].
  pose proof (update_plot_run c gui data d last_row top
                Hw Hp Hr Hc Hcp Hlast Htop Hcurves Hfit) as Hrun.
  cbv zeta in Hrun. fold data' channels p scored r in Hrun.
  rewrite Hrun. cbn [result after quality_outlet quality_indicators
                     push_quality set_quality_indicators].
  split; [reflexivity|]. split; [reflexivity|]. split; [reflexivity|].
  split.
  - intros Hs He. unfold scored, slice. rewrite Hs, He, Nat.sub_0_r.
    cbn [skipn]. rewrite firstn_app, Hc, Nat.sub_diag. cbn [firstn].
    rewrite app_nil_r. apply firstn_all2. lia.
  - intros Hs. split; [|now apply zero_row_quality].
    assert (He : (setup_start_eeg c + setup_channels c <= setup_end_eeg c)%nat).
    { unfold channels, channel_rows, slice in Hc.
      rewrite !length_firstn in Hc. lia. }
    unfold scored, slice. rewrite skipn_app, Hc.
    replace (setup_start_eeg c - setup_channels c)%nat with 0%nat by lia.
    cbn [skipn]. apply firstn_all2.
    rewrite length_app, length_skipn, Hc. simpl. lia.
Qed.

(** On a plot tick that goes through with plotting on, the curve of
    channel [count] is its conditioned row moved up by [count] offsets of
    200 and the last curve is the marker row, a marker [x] drawn at
    [4000 x - 200]; the Y axis runs from -400 to [200 (n - 1) + top], where
    [top] is the largest sample of [eeg = data[eeg_start:eeg_end]], so that
    no point of an EEG curve lies above it. *)
Theorem plot_curves_and_range
        (gui : Gui) (data : list (list Q)) (d : Display) (last_row : list Q) :
  let data' := after (filtered c gui data) in
  let channels := channel_rows c data' in
  let eeg := slice (setup_start_eeg c) (setup_end_eeg c) data' in
  let p := Z.to_nat (num_points c) in
  let scored := slice (setup_start_eeg c) (setup_end_eeg c)
                  (channels ++ [repeat 0%Q p]) in
  let r := update_plot c true gui data d in
  setup_window_size c <> 0 ->
  0 < num_points c ->
  result (filtered c gui data) = Returned tt ->
  (1 <= setup_channels c)%nat ->
  List.length channels = setup_channels c ->
  Forall (fun row => List.length row = p) channels ->
  nth_error data' (List.length data' - 1) = Some last_row ->
  setup_plot c = true ->
  List.length (curves d) = S (setup_channels c) ->
  (List.length scored <= List.length (quality_indicators d))%nat ->
  exists top lo hi : Q,
    In top (List.concat eeg)
    /\ (forall x : Q, In x (List.concat eeg) -> (x <= top)%Q)
    /\ y_range (after r) = Some (lo, hi)
    /\ (lo == -(400))%Q
    /\ (hi == 200 * (inject_Z (Z.of_nat (setup_channels c)) - 1) + top)%Q
    /\ curves (after r) = offset_curves 0 channels ++ [trigger_curve last_row]
    /\ Forall (Forall (fun y => (y <= hi)%Q)) (offset_curves 0 channels)
    /\ Forall2 (fun x y => (y == 4000 * x - 200)%Q)
               last_row (trigger_curve last_row).
Proof.
  intros data' channels eeg p scored r
         Hw Hp Hr Hn Hc Hcp Hlast Hplot Hcurves Hfit.
  assert (Hc1 : (1 <= List.length (channel_rows c data'))%nat)
    by (fold channels; lia).
  assert (Hp0 : (0 < p)%nat) by (unfold p; lia).
  destruct (top_exists data' p Hc1 Hp0 Hcp) as [top Htop].
  pose proof (update_plot_run c gui data d last_row top
                Hw Hp Hr Hc Hcp Hlast Htop (fun _ => Hcurves) Hfit) as Hrun.
  cbv zeta in Hrun. fold data' channels p scored r in Hrun.
  rewrite Hplot in Hrun. rewrite Hrun.
  cbn [result after y_range curves push_quality set_quality_indicators
       set_y_range set_curves].
  assert (Hbound : forall x : Q, In x (List.concat eeg) -> (x <= top)%Q).
  { intros x Hx. apply in_concat in Hx. destruct Hx as [row [Hrow Hx]].
    exact (matrix_max_bound _ top Htop row x Hrow Hx). }
  exists top. eexists. eexists.
  split; [exact (matrix_max_in _ top Htop)|].
  split; [exact Hbound|].
  split; [reflexivity|]. split; [reflexivity|].
  split; [unfold offset_amplitude; ring|].
  split; [reflexivity|]. split.
  - apply Forall_forall. intros curve Hin.
    apply In_nth_error in Hin. destruct Hin as [i Hi].
    rewrite nth_error_offset_curves in Hi. cbn [Nat.add] in Hi.
    destruct (nth_error channels i) as [ch|] eqn:Ech; [|discriminate].
    injection Hi as <-.
    assert (Hi : (i < setup_channels c)%nat).
    { rewrite <- Hc. apply nth_error_Some. now rewrite Ech. }
    assert (Hrow : In ch eeg).
    { apply nth_error_In in Ech. unfold channels, channel_rows in Ech.
      unfold eeg.
      rewrite <- (firstn_skipn (setup_channels c)
                    (slice (setup_start_eeg c) (setup_end_eeg c) data')).
      apply in_or_app. now left. }
    apply Forall_forall. intros y Hy. unfold offset_curve in Hy.
    apply in_map_iff in Hy. destruct Hy as [x [<- Hx]].
    assert (Hle : (x <= top)%Q)
      by (apply Hbound, in_concat; exists ch; now split).
    assert (Hcount : (inject_Z (Z.of_nat i)
                      <= inject_Z (Z.of_nat (setup_channels c)) - 1)%Q).
    { setoid_replace (inject_Z (Z.of_nat (setup_channels c)) - 1)%Q
        with (inject_Z (Z.of_nat (setup_channels c) - 1)).
      - rewrite <- Zle_Qle. lia.
      - unfold Qeq. simpl. lia. }
    unfold offset_amplitude. nra.
  - apply trigger_curve_points.
Qed.

End PlotProperties.

(** * Examples of the further properties *)

(** ** TriggerRouter *)

Lemma other_marker_only_recorded_witness :
  is_empty_str (PyInt 2) = false
  /\ marker_value decimal_int (PyInt 2) = Some 2
  /\ 2 <> nclasses session_predicting
  /\ never_raises (InsertMarker 2) = None
  /\ write_trigger decimal_int never_raises [] (PyInt 2) 0 10 session_predicting
     = Run (Returned tt) session_predicting [InsertMarker 2].
Proof.
  assert (H1 : is_empty_str (PyInt 2) = false) by reflexivity.
  assert (H2 : marker_value decimal_int (PyInt 2) = Some 2) by reflexivity.
  assert (H3 : 2 <> nclasses session_predicting) by (vm_compute; discriminate).
  assert (H4 : never_raises (InsertMarker 2) = None) by reflexivity.
  split; [exact H1|]. split; [exact H2|]. split; [exact H3|].
  split; [exact H4|].
  exact (other_marker_only_recorded decimal_int never_raises []
           session_predicting (PyInt 2) 2 0 10 H1 H2 H3 H4).
Defined.

Lemma requests_count_witness :
  (forall v, never_raises (InsertMarker v) = None)
  /\ list_sum
       (map requests
          (fst (deliver decimal_int never_raises []
                  ((PyInt 1, 0%Q, 9%Q) :: three_boundaries ++ [(PyStr "x", 0%Q, 13%Q)])
                  session_predicting)))
     = 2%nat.
Proof.
  assert (H : forall v, never_raises (InsertMarker v) = None)
    by (intros v; reflexivity).
  split; [exact H|].
  rewrite (requests_count decimal_int never_raises []
             ((PyInt 1, 0%Q, 9%Q) :: three_boundaries ++ [(PyStr "x", 0%Q, 13%Q)])
             session_predicting H).
  reflexivity.
Defined.

Lemma set_prediction_mode_without_classifier_witness :
  classifier session_new = false
  /\ result (set_prediction_mode never_raises session_new)
     = Raised AttributeError
  /\ prediction_mode (after (set_prediction_mode never_raises session_new))
     = true.
Proof.
  assert (H : classifier session_new = false) by reflexivity.
  split; [exact H|].
  rewrite (set_prediction_mode_without_classifier never_raises
             session_new H).
  split; reflexivity.
Defined.

Lemma train_without_start_witness :
  start_training_time session_idle = None
  /\ train_classifier never_raises [] 15 session_idle
     = Run (Raised AttributeError) session_idle [].
Proof.
  assert (H : start_training_time session_idle = None) by reflexivity.
  split; [exact H|].
  exact (train_without_start never_raises [] session_idle 15 H).
Defined.

Lemma train_without_classifier_witness :
  start_training_time (after (set_train_start 10 session_new)) = Some 10%Q
  /\ classifier (after (set_train_start 10 session_new)) = false
  /\ (forall n, never_raises (GetCurrentBoardData n) = None)
  /\ never_raises FilterDataBuffer = None
  /\ exists n : Z,
      train_classifier never_raises [] 15
        (after (set_train_start 10 session_new))
      = Run (Raised AttributeError)
            (after (set_train_start 10 session_new))
            [Log INFO "Training duration"; GetCurrentBoardData n;
             FilterDataBuffer].
Proof.
  assert (H1 : start_training_time (after (set_train_start 10 session_new))
               = Some 10%Q) by reflexivity.
  assert (H2 : classifier (after (set_train_start 10 session_new)) = false)
    by reflexivity.
  assert (H3 : forall n, never_raises (GetCurrentBoardData n) = None)
    by (intros n; reflexivity).
  assert (H4 : never_raises FilterDataBuffer = None) by reflexivity.
  split; [exact H1|]. split; [exact H2|]. split; [exact H3|].
  split; [exact H4|].
  exact (train_without_classifier never_raises []
           (after (set_train_start 10 session_new)) 10 15 H1 H2 H3 H4).
Defined.

Lemma training_pull_margin_witness :
  (10 <= 15)%Q /\ 0 <= sampling_rate session_idle
  /\ exists n : Z,
      nth_error (calls (train_classifier never_raises [] 15
                          (after (set_train_start 10 session_idle)))) 1
      = Some (GetCurrentBoardData n)
      /\ sampling_rate session_idle <= n.
Proof.
  assert (H1 : (10 <= 15)%Q) by (unfold Qle; simpl; lia).
  assert (H2 : 0 <= sampling_rate session_idle) by (simpl; lia).
  split; [exact H1|]. split; [exact H2|].
  exact (training_pull_margin never_raises [] session_idle 10 15 H1 H2).
Defined.

(** ** SignalConditioner *)

(** Valid bounds on a channel of two samples, with a filter that returns
    and with one that refuses the band. *)
Lemma valid_bandpass_filters_detrended_witness :
  (0 <= 1)%Q /\ (1 < 40)%Q /\ (40 <= nyquist 250)%Q
  /\ apply_bandpass_filter detrend_constant no_filter 250 1 40 [1; 3]%Q
     = Run (Returned tt) (snd (detrend_constant [1; 3]%Q)) []
  /\ apply_bandpass_filter detrend_constant
       (fun _ _ _ _ ch_data => (Some ValueError, ch_data)) 250 1 40 [1; 3]%Q
     = Run (Returned tt) (snd (detrend_constant [1; 3]%Q))
           [Log ERROR "Invalid frequency value"]
  /\ apply_bandpass_filter detrend_constant
       (fun _ _ _ _ ch_data => (Some BrainFlowError, ch_data)) 250 1 40
       [1; 3]%Q
     = Run (Raised BrainFlowError) (snd (detrend_constant [1; 3]%Q)) [].
Proof.
  assert (H1 : (0 <= 1)%Q) by (unfold Qle; simpl; lia).
  assert (H2 : (1 < 40)%Q) by reflexivity.
  assert (H3 : (40 <= nyquist 250)%Q) by (unfold Qle; simpl; lia).
  split; [exact H1|]. split; [exact H2|]. split; [exact H3|].
  split; [|split].
  - exact (valid_bandpass_filters_detrended detrend_constant no_filter 250
             1 40 [1; 3]%Q H1 H2 H3).
  - exact (valid_bandpass_filters_detrended detrend_constant
             (fun _ _ _ _ ch_data => (Some ValueError, ch_data)) 250
             1 40 [1; 3]%Q H1 H2 H3).
  - exact (valid_bandpass_filters_detrended detrend_constant
             (fun _ _ _ _ ch_data => (Some BrainFlowError, ch_data)) 250
             1 40 [1; 3]%Q H1 H2 H3).
Defined.

(** Two notch frequencies the filter takes, and a notch frequency of 1 Hz,
    which passes the checks and whose band starts at -1 Hz. *)
Lemma valid_notch_applies_bandstops_witness :
  map decimal_float ["50"; "60"]%string = map Some [50; 60]%Q
  /\ Forall (notch_ok 250) [50; 60]%Q
  /\ apply_notch_filter decimal_float strict_filter 250 ["50"; "60"]%string
       [1; 3]%Q
     = Run (Returned tt) [1; 3]%Q []
  /\ map decimal_float ["50"; "1"]%string = map Some [50; 1]%Q
  /\ Forall (notch_ok 250) [50; 1]%Q
  /\ apply_notch_filter decimal_float strict_filter 250 ["50"; "1"]%string
       [1; 3]%Q
     = Run (Raised BrainFlowError) [1; 3]%Q [].
Proof.
  assert (H1 : map decimal_float ["50"; "60"]%string = map Some [50; 60]%Q)
    by reflexivity.
  assert (H2 : Forall (notch_ok 250) [50; 60]%Q)
    by (repeat constructor; unfold Qle; simpl; lia).
  assert (H3 : map decimal_float ["50"; "1"]%string = map Some [50; 1]%Q)
    by reflexivity.
  assert (H4 : Forall (notch_ok 250) [50; 1]%Q)
    by (repeat constructor; unfold Qle; simpl; lia).
  split; [exact H1|]. split; [exact H2|]. split; [|split; [exact H3|split; [exact H4|]]].
  - exact (valid_notch_applies_bandstops decimal_float strict_filter 250
             ["50"; "60"]%string [50; 60]%Q [1; 3]%Q H1 H2).
  - exact (valid_notch_applies_bandstops decimal_float strict_filter 250
             ["50"; "1"]%string [50; 1]%Q [1; 3]%Q H3 H4).
Defined.

Lemma invalid_notch_leaves_channel_witness :
  map decimal_float ["50"; "200"]%string = map Some [50; 200]%Q
  /\ Exists (fun f => ~ notch_ok 250 f) [50; 200]%Q
  /\ exists msg : string,
      apply_notch_filter decimal_float no_filter 250 ["50"; "200"]%string
        [1; 3]%Q
      = Run (Returned tt) [1; 3]%Q [Log ERROR msg].
Proof.
  assert (H1 : map decimal_float ["50"; "200"]%string = map Some [50; 200]%Q)
    by reflexivity.
  assert (H2 : Exists (fun f => ~ notch_ok 250 f) [50; 200]%Q).
  { apply Exists_cons_tl, Exists_cons_hd. intros [_ H].
    unfold Qle in H. simpl in H. lia. }
  split; [exact H1|]. split; [exact H2|].
  exact (invalid_notch_leaves_channel decimal_float no_filter 250
           ["50"; "200"]%string [50; 200]%Q [1; 3]%Q H1 H2).
Defined.

Lemma unreadable_notch_raises_witness :
  map decimal_float ["50"]%string = map Some [50]%Q
  /\ Forall (notch_ok 250) [50]%Q
  /\ decimal_float "fifty" = None
  /\ apply_notch_filter decimal_float no_filter 250
       (List.app ["50"%string] ["fifty"%string; "60"%string]) [1; 3]%Q
     = Run (Raised ValueError) [1; 3]%Q [].
Proof.
  assert (H1 : map decimal_float ["50"]%string = map Some [50]%Q)
    by reflexivity.
  assert (H2 : Forall (notch_ok 250) [50]%Q)
    by (repeat constructor; unfold Qle; simpl; lia).
  assert (H3 : decimal_float "fifty" = None) by reflexivity.
  split; [exact H1|]. split; [exact H2|]. split; [exact H3|].
  exact (unreadable_notch_raises decimal_float no_filter 250
           ["50"]%string ["60"]%string "fifty" [50]%Q [1; 3]%Q H1 H2 H3).
Defined.

Lemma short_layout_raises_after_conditioning_witness :
  (eeg_rows 1 3 [[7]; [1; 3]]%Q < 2)%nat
  /\ result (filter_data_buffer decimal_float detrend_constant no_filter
               no_filter 250 1 3 2 gui_bandpass_reversed [[7]; [1; 3]]%Q)
     = Raised IndexError
  /\ nth_error
       (after (filter_data_buffer decimal_float detrend_constant no_filter
                 no_filter 250 1 3 2 gui_bandpass_reversed [[7]; [1; 3]]%Q)) 1
     = Some (snd (detrend_constant [1; 3]%Q)).
Proof.
  assert (Hrows : forall (i : nat) (ch_data : list Q),
             (1 <= i < 1 + eeg_rows 1 3 [[7]; [1; 3]]%Q)%nat ->
             nth_error [[7]; [1; 3]]%Q i = Some ch_data ->
             result (filter_channel decimal_float detrend_constant no_filter
                       no_filter 250 gui_bandpass_reversed ch_data)
             = Returned tt).
  { intros i ch_data Hi Hch.
    assert (Ei : i = 1%nat) by (vm_compute in Hi; lia).
    subst i. injection Hch as <-. reflexivity. }
  assert (Hshort : (eeg_rows 1 3 [[7]; [1; 3]]%Q < 2)%nat)
    by (vm_compute; lia).
  split; [exact Hshort|].
  destruct (short_layout_raises_after_conditioning decimal_float
              detrend_constant no_filter no_filter 250 gui_bandpass_reversed
              1 3 2 [[7]; [1; 3]]%Q Hrows Hshort) as [Hr Hn].
  split; [exact Hr|]. rewrite Hn. reflexivity.
Defined.

(** ** WindowBuffer *)

Lemma tick_publishes_window_witness :
  is_streaming window_started = true
  /\ setup_window_size setup_two_channels <> 0
  /\ result (filtered setup_two_channels gui_unchecked full_window)
     = Returned tt
  /\ chunk_counter
       (after (update_data_buffer setup_two_channels gui_unchecked true
                 full_window window_started)) = 1
  /\ filtered_eeg
       (after (update_data_buffer setup_two_channels gui_unchecked true
                 full_window window_started))
     = [ [10; 20; 30]; [-(75); 75; 500]; [0; 4; 0] ]%Q
  /\ map chunk_number
       (eeg_outlet
          (after (update_data_buffer setup_two_channels gui_unchecked true
                    full_window window_started))) = [1].
Proof.
  assert (H1 : is_streaming window_started = true) by reflexivity.
  assert (H2 : setup_window_size setup_two_channels <> 0)
    by (vm_compute; discriminate).
  assert (H3 : result (filtered setup_two_channels gui_unchecked full_window)
               = Returned tt) by reflexivity.
  split; [exact H1|]. split; [exact H2|]. split; [exact H3|].
  rewrite (tick_publishes_window setup_two_channels gui_unchecked true
             full_window window_started [0; 4; 0]%Q [1; 2; 3]%Q 3
             H1 H2 H3 eq_refl
             ltac:(repeat constructor) eq_refl ltac:(repeat constructor)
             eq_refl eq_refl eq_refl).
  repeat split.
Defined.

Lemma tick_aborted_by_conditioner_witness :
  is_streaming window_started = true
  /\ setup_window_size setup_two_channels <> 0
  /\ result (filtered setup_two_channels gui_unchecked (firstn 1 full_window))
     = Raised IndexError
  /\ update_data_buffer setup_two_channels gui_unchecked true
       (firstn 1 full_window) window_started
     = Run (Raised IndexError) window_started [GetCurrentBoardData 3].
Proof.
  assert (H1 : is_streaming window_started = true) by reflexivity.
  assert (H2 : setup_window_size setup_two_channels <> 0)
    by (vm_compute; discriminate).
  assert (H3 : result (filtered setup_two_channels gui_unchecked
                         (firstn 1 full_window)) = Raised IndexError)
    by reflexivity.
  split; [exact H1|]. split; [exact H2|]. split; [exact H3|].
  rewrite (tick_aborted_by_conditioner setup_two_channels gui_unchecked true
             (firstn 1 full_window) window_started IndexError H1 H2 H3).
  reflexivity.
Defined.

Lemma short_read_costs_a_chunk_number_witness :
  is_streaming window_started = true
  /\ setup_window_size setup_two_channels <> 0
  /\ result (filtered setup_two_channels gui_unchecked short_window)
     = Returned tt
  /\ (1 <= setup_channels setup_two_channels)%nat
  /\ List.length [10; 20]%Q <> List.length [0; 0; 0]%Q
  /\ List.length [10; 20]%Q <> 1%nat
  /\ update_data_buffer setup_two_channels gui_unchecked true short_window
       window_started
     = Run (Raised ValueError) (set_chunk_counter 1 window_started)
           [GetCurrentBoardData 3].
Proof.
  assert (H1 : is_streaming window_started = true) by reflexivity.
  assert (H2 : setup_window_size setup_two_channels <> 0)
    by (vm_compute; discriminate).
  assert (H3 : result (filtered setup_two_channels gui_unchecked short_window)
               = Returned tt) by reflexivity.
  assert (H4 : (1 <= setup_channels setup_two_channels)%nat)
    by (vm_compute; lia).
  assert (H5 : List.length [10; 20]%Q <> List.length [0; 0; 0]%Q)
    by (simpl; lia).
  assert (H6 : List.length [10; 20]%Q <> 1%nat) by (simpl; lia).
  split; [exact H1|]. split; [exact H2|]. split; [exact H3|].
  split; [exact H4|]. split; [exact H5|]. split; [exact H6|].
  rewrite (short_read_costs_a_chunk_number setup_two_channels gui_unchecked
             true short_window window_started [10; 20]%Q [0; 0; 0]%Q
             H1 H2 H3 H4 eq_refl eq_refl H5 H6).
  reflexivity.
Defined.

Lemma stopped_stream_is_silent_witness :
  is_streaming window_started = true
  /\ 0 <= num_points setup_two_channels
  /\ start_button (after (toggle_stream window_started)) = "Start"%string
  /\ update_data_buffer setup_two_channels gui_unchecked true full_window
       (after (toggle_stream window_started))
     = Run (Returned tt) (after (toggle_stream window_started)) []
  /\ after (toggle_stream (after (toggle_stream window_started)))
     = window_started.
Proof.
  assert (H1 : is_streaming window_started = true) by reflexivity.
  assert (H2 : 0 <= num_points setup_two_channels) by (vm_compute; discriminate).
  split; [exact H1|]. split; [exact H2|].
  destruct (stopped_stream_is_silent setup_two_channels gui_unchecked true
              full_window window_started display_started H1 H2)
    as [Hstop [Htick [_ Hagain]]].
  split; [rewrite Hstop; reflexivity|].
  split; [exact Htick|].
  rewrite Hagain. reflexivity.
Defined.

Lemma quality_report_witness :
  Forall (fun row => row <> [])
         (slice (setup_start_eeg setup_two_channels)
                (setup_end_eeg setup_two_channels) full_window)
  /\ (List.length (slice (setup_start_eeg setup_two_channels)
                         (setup_end_eeg setup_two_channels) full_window)
      <= List.length (quality_indicators display_started))%nat
  /\ quality_outlet
       (after (update_quality_indicators setup_two_channels full_window true
                 display_started))
     = [[1; 0]%Q]
  /\ quality_indicators
       (after (update_quality_indicators setup_two_channels full_window true
                 display_started))
     = ["green"%string; "red"%string].
Proof.
  assert (H1 : Forall (fun row => row <> [])
                 (slice (setup_start_eeg setup_two_channels)
                        (setup_end_eeg setup_two_channels) full_window))
    by (repeat constructor; discriminate).
  assert (H2 : (List.length (slice (setup_start_eeg setup_two_channels)
                                   (setup_end_eeg setup_two_channels)
                                   full_window)
                <= List.length (quality_indicators display_started))%nat)
    by (vm_compute; lia).
  split; [exact H1|]. split; [exact H2|].
  rewrite (proj1 (quality_report setup_two_channels full_window true
                    display_started H1 H2)).
  split; reflexivity.
Defined.

Lemma quality_report_overflow_witness :
  Forall (fun row => row <> [])
         (slice (setup_start_eeg setup_two_channels)
                (setup_end_eeg setup_two_channels) full_window)
  /\ (List.length (quality_indicators
                     (set_quality_indicators ["green"%string] display_started))
      < List.length (slice (setup_start_eeg setup_two_channels)
                           (setup_end_eeg setup_two_channels) full_window))%nat
  /\ result (update_quality_indicators setup_two_channels full_window true
               (set_quality_indicators ["green"%string] display_started))
     = Raised IndexError
  /\ quality_outlet
       (after (update_quality_indicators setup_two_channels full_window true
                 (set_quality_indicators ["green"%string] display_started)))
     = [].
Proof.
  assert (H1 : Forall (fun row => row <> [])
                 (slice (setup_start_eeg setup_two_channels)
                        (setup_end_eeg setup_two_channels) full_window))
    by (repeat constructor; discriminate).
  assert (H2 : (List.length
                  (quality_indicators
                     (set_quality_indicators ["green"%string] display_started))
                < List.length (slice (setup_start_eeg setup_two_channels)
                                     (setup_end_eeg setup_two_channels)
                                     full_window))%nat)
    by (vm_compute; lia).
  split; [exact H1|]. split; [exact H2|].
  rewrite (quality_report_overflow setup_two_channels full_window true
             (set_quality_indicators ["green"%string] display_started) H1 H2).
  split; reflexivity.
Defined.

(** With the EEG rows starting at row 1 the report of the plot tick holds
    the score of the second channel, then that of the row of zeros. *)
Lemma plot_scores_rows_from_eeg_start_witness :
  setup_window_size setup_shifted <> 0
  /\ 0 < num_points setup_shifted
  /\ result (filtered setup_shifted gui_unchecked shifted_window) = Returned tt
  /\ (1 <= setup_channels setup_shifted)%nat
  /\ channel_rows setup_shifted
       (after (filtered setup_shifted gui_unchecked shifted_window))
     = [ [10; 20; 30]; [-(75); 75; 500] ]%Q
  /\ result (update_plot setup_shifted true gui_unchecked shifted_window
               display_started) = Returned tt
  /\ quality_outlet
       (after (update_plot setup_shifted true gui_unchecked shifted_window
                 display_started))
     = [[0; 1]%Q]
  /\ quality_indicators
       (after (update_plot setup_shifted true gui_unchecked shifted_window
                 display_started))
     = ["red"%string; "green"%string].
Proof.
  assert (H1 : setup_window_size setup_shifted <> 0)
    by (vm_compute; discriminate).
  assert (H2 : 0 < num_points setup_shifted) by reflexivity.
  assert (H3 : result (filtered setup_shifted gui_unchecked shifted_window)
               = Returned tt) by reflexivity.
  assert (H4 : (1 <= setup_channels setup_shifted)%nat) by (vm_compute; lia).
  split; [exact H1|]. split; [exact H2|]. split; [exact H3|].
  split; [exact H4|]. split; [reflexivity|].
  destruct (plot_scores_rows_from_eeg_start setup_shifted gui_unchecked
              shifted_window display_started H1 H2 H3 H4 eq_refl
              ltac:(repeat constructor) (fun _ => eq_refl)
              ltac:(vm_compute; lia))
    as [Hr [Hout [Hind _]]].
  split; [exact Hr|]. split; [rewrite Hout; reflexivity|].
  rewrite Hind. reflexivity.
Defined.

Lemma plot_curves_and_range_witness :
  setup_window_size setup_two_channels <> 0
  /\ 0 < num_points setup_two_channels
  /\ result (filtered setup_two_channels gui_unchecked full_window)
     = Returned tt
  /\ setup_plot setup_two_channels = true
  /\ exists top lo hi : Q,
      In top [10; 20; 30; -(75); 75; 500]%Q
      /\ y_range (after (update_plot setup_two_channels true gui_unchecked
                           full_window display_started)) = Some (lo, hi)
      /\ (lo == -(400))%Q /\ (hi == 200 * (2 - 1) + top)%Q
      /\ (hi == 700)%Q
      /\ Forall (Forall (fun y => (y <= hi)%Q))
                (offset_curves 0
                   (channel_rows setup_two_channels
                      (after (filtered setup_two_channels gui_unchecked
                                full_window)))).
Proof.
  assert (H1 : setup_window_size setup_two_channels <> 0)
    by (vm_compute; discriminate).
  assert (H2 : 0 < num_points setup_two_channels) by reflexivity.
  assert (H3 : result (filtered setup_two_channels gui_unchecked full_window)
               = Returned tt) by reflexivity.
  assert (H4 : setup_plot setup_two_channels = true) by reflexivity.
  split; [exact H1|]. split; [exact H2|]. split; [exact H3|].
  split; [exact H4|].
  destruct (plot_curves_and_range setup_two_channels gui_unchecked
              full_window display_started [0; 4; 0]%Q H1 H2 H3
              ltac:(vm_compute; lia) eq_refl ltac:(repeat constructor)
              eq_refl H4 eq_refl ltac:(vm_compute; lia))
    as [top [lo [hi [Hin [_ [Hy [Hlo [Hhi [_ [Hbound _]]]]]]]]]].
  exists top, lo, hi. split; [exact Hin|]. split; [exact Hy|].
  split; [exact Hlo|]. split; [exact Hhi|].
  split; [|exact Hbound].
  vm_compute in Hy. injection Hy as _ <-. reflexivity.
Defined.
